(** * The chunked dataset downloader of [scripts/download-dataset.ts]

    A shallow embedding of the download tool: the fragment of JavaScript
    values it computes with, the three network helpers ([fetchMetadata],
    [countRows], [fetchChunk]), the confirmation prompt, the pagination loop
    of [downloadDataset] and the top-level [main], followed by the properties
    of the pagination design stated in the specification.

    Conventions of the model.
    - A JavaScript [number] is [jsnum]: an integer or [NaN].  The model
      computes with exact integers, which is what JavaScript does for
      magnitudes below 2^53; statements about [parseInt] and [toString] are
      made in that range.  Fractional numbers are not modelled.
    - Text is a [string] of bytes holding UTF-8; [toLowerCase] maps the ASCII
      letters, and [parseInt] skips the white space of the language, ASCII
      or not.
    - Effects are recorded in order as a list of [Event]s; a computation
      is a pair of the events it produced and its [Outcome].
    - [while (true)] is run with a bound on the number of iterations; running
      out of it is the outcome [OutOfFuel], never a result. *)

From Stdlib Require Import ZArith List String Ascii Bool Lia.
From Stdlib Require Import DecimalString DecimalPos Sorted.
Import ListNotations.

Set Warnings "-register-all".

Local Open Scope string_scope.
Local Open Scope Z_scope.
Local Open Scope list_scope.

(* ================================================================= *)
(** ** JavaScript values *)

Module Js.

(** [number]: the results of [parseInt] and of integer arithmetic. *)
Inductive jsnum : Type :=
| NaN
| Num (z : Z).

(** [Math.min(a, b)]. *)
Definition min (a b : jsnum) : jsnum :=
  match a, b with
  | Num x, Num y => Num (Z.min x y)
  | _, _ => NaN
  end.

(** [a - b] and [a + b]. *)
Definition sub (a b : jsnum) : jsnum :=
  match a, b with
  | Num x, Num y => Num (x - y)
  | _, _ => NaN
  end.

Definition add (a b : jsnum) : jsnum :=
  match a, b with
  | Num x, Num y => Num (x + y)
  | _, _ => NaN
  end.

(** [a <= b], [a < b] and [a > b]: false as soon as one side is [NaN]. *)
Definition le (a b : jsnum) : bool :=
  match a, b with
  | Num x, Num y => x <=? y
  | _, _ => false
  end.

Definition lt (a b : jsnum) : bool :=
  match a, b with
  | Num x, Num y => x <? y
  | _, _ => false
  end.

Definition gt (a b : jsnum) : bool := lt b a.

(** Truthiness of a [number]: [0] and [NaN] are falsy. *)
Definition truthy_num (n : jsnum) : bool :=
  match n with
  | NaN => false
  | Num z => negb (z =? 0)
  end.

(** Truthiness of a [number | undefined]. *)
Definition truthy_opt (n : option jsnum) : bool :=
  match n with
  | Some n => truthy_num n
  | None => false
  end.

(** [a || b] on [number | undefined]. *)
Definition or (a b : option jsnum) : option jsnum :=
  if truthy_opt a then a else b.

(** The value parsed by [JSON.parse]. An object keeps its properties in
    order; [JSON.parse] leaves one entry per key. *)
Inductive json : Type :=
| JNull
| JBool (b : bool)
| JNum (n : Z)
| JStr (s : string)
| JArr (items : list json)
| JObj (props : list (string * json)).

(** Truthiness of a parsed value. *)
Definition truthy (v : json) : bool :=
  match v with
  | JNull => false
  | JBool b => b
  | JNum n => negb (n =? 0)
  | JStr s => negb (s =? "")%string
  | JArr _ => true
  | JObj _ => true
  end.

(** Own property of an object, [None] for [undefined]. *)
Fixpoint lookup (key : string) (props : list (string * json)) : option json :=
  match props with
  | [] => None
  | (k, v) :: rest => if (k =? key)%string then Some v else lookup key rest
  end.

(** [v.key] for one of the property names the tool reads ([name],
    [columns], [count], [fieldName], ...), on a value that is not [null]:
    only objects carry them. *)
Definition prop (v : json) (key : string) : option json :=
  match v with
  | JObj props => lookup key props
  | _ => None
  end.

(** The line feed character and the one-character string ['\n']. *)
Definition nl : ascii := "010"%char.
Definition LF : string := String nl "".

(** [s.split('\n')]: never empty, [''] splits into [['']]. *)
Fixpoint split (s : string) : list string :=
  match s with
  | EmptyString => [EmptyString]
  | String c rest =>
      if Ascii.eqb c nl then EmptyString :: split rest
      else match split rest with
           | line :: lines => String c line :: lines
           | [] => [String c EmptyString]
           end
  end.

(** [lines.join(sep)]. *)
Definition join (sep : string) (lines : list string) : string :=
  String.concat sep lines.

(** [lines.slice(1)]. *)
Definition slice1 {A : Type} (l : list A) : list A := tl l.

(** [s.toLowerCase()] on ASCII letters. *)
Definition lower (c : ascii) : ascii :=
  let n := nat_of_ascii c in
  if ((65 <=? n) && (n <=? 90))%nat then ascii_of_nat (n + 32) else c.

Fixpoint toLowerCase (s : string) : string :=
  match s with
  | EmptyString => EmptyString
  | String c rest => String (lower c) (toLowerCase rest)
  end.

(** [s.includes(needle)]. *)
Fixpoint includes (s needle : string) : bool :=
  prefix needle s ||
  match s with
  | EmptyString => false
  | String _ rest => includes rest needle
  end.

(** [String(n)] for an integer. *)
Definition string_of_Z (n : Z) : string := NilZero.string_of_int (Z.to_int n).

(** [String(v)], as [parseInt] applies it to its argument; [None] is the
    [TypeError] of a value that has no primitive form.  A parsed object
    has one, ["[object Object]"], unless it carries a property [toString]
    of its own: that property is never a function, so neither it nor the
    inherited [valueOf] gives a primitive.  An array is the texts of its
    elements joined by commas, [""] for [null].  Numbers are the integers
    of magnitude below 2^53, which [String] prints in full. *)
Fixpoint toString (v : json) : option string :=
  match v with
  | JNull => Some "null"
  | JBool true => Some "true"
  | JBool false => Some "false"
  | JNum n => Some (string_of_Z n)
  | JStr s => Some s
  | JArr items =>
      option_map (join ",")
        ((fix texts (l : list json) : option (list string) :=
            match l with
            | [] => Some []
            | e :: rest =>
                match match e with JNull => Some "" | _ => toString e end, texts rest with
                | Some t, Some ts => Some (t :: ts)
                | _, _ => None
                end
            end) items)
  | JObj props =>
      match lookup "toString" props with
      | Some _ => None
      | None => Some "[object Object]"
      end
  end.

(** White space skipped by [parseInt]: the white space and line
    terminators of the language.  A string is the UTF-8 text of the
    JavaScript string, so the characters beyond ASCII (U+00A0, U+1680,
    U+2000 to U+200A, U+2028, U+2029, U+202F, U+205F, U+3000, U+FEFF) are
    runs of two or three bytes. *)
Definition is_space (c : ascii) : bool :=
  let n := nat_of_ascii c in
  ((n =? 32) || ((9 <=? n) && (n <=? 13)))%nat.

Definition is_space2 (a b : ascii) : bool :=
  ((nat_of_ascii a =? 194) && (nat_of_ascii b =? 160))%nat.

Definition is_space3 (a b c : ascii) : bool :=
  let x := nat_of_ascii a in
  let y := nat_of_ascii b in
  let z := nat_of_ascii c in
  (((x =? 225) && (y =? 154) && (z =? 128)) ||
   ((x =? 226) && (y =? 128) &&
    (((128 <=? z) && (z <=? 138)) || (z =? 168) || (z =? 169) || (z =? 175))) ||
   ((x =? 226) && (y =? 129) && (z =? 159)) ||
   ((x =? 227) && (y =? 128) && (z =? 128)) ||
   ((x =? 239) && (y =? 187) && (z =? 191)))%nat.

Fixpoint trimStart (s : string) : string :=
  match s with
  | EmptyString => EmptyString
  | String a r1 =>
      if is_space a then trimStart r1
      else
        match r1 with
        | EmptyString => s
        | String b r2 =>
            if is_space2 a b then trimStart r2
            else
              match r2 with
              | EmptyString => s
              | String c r3 => if is_space3 a b c then trimStart r3 else s
              end
        end
  end.

Definition digit (c : ascii) : option Z :=
  let n := nat_of_ascii c in
  if ((48 <=? n) && (n <=? 57))%nat then Some (Z.of_nat (n - 48)) else None.

(** The longest run of decimal digits at the head of [s], folded into
    [acc]; [seen] records that one digit was read. *)
Fixpoint digits (s : string) (seen : bool) (acc : Z) : option Z :=
  match s with
  | EmptyString => if seen then Some acc else None
  | String c rest =>
      match digit c with
      | Some d => digits rest true (10 * acc + d)
      | None => if seen then Some acc else None
      end
  end.

(** [parseInt(s, 10)].  The result is exact; it is the number JavaScript
    returns for every text whose integer has a magnitude below 2^53
    (beyond that a [number] is the nearest double). *)
Definition parseInt (s : string) : jsnum :=
  let body := trimStart s in
  let '(sign, rest) :=
    match body with
    | String "-" r => (-1, r)
    | String "+" r => (1, r)
    | _ => (1, body)
    end in
  match digits rest false 0 with
  | Some n => Num (sign * n)
  | None => NaN
  end.

End Js.

(* ================================================================= *)
(** ** The download tool *)

Module Download.

Import Js.

(** [format: 'csv' | 'json']. *)
Inductive Format : Type :=
| Csv
| Json.

(** [interface CliArgs]. *)
Record CliArgs : Type := {
  datasetId : string;
  format : Format;
  output : option string;
  outputDir : string;
  limit : option jsnum;
  where_ : option string;
  select : option string;
  order : option string;
  chunkSize : jsnum;
  noConfirm : bool
}.

(** One entry of [DatasetMetadata.columns]; a field the catalog omits is
    [undefined]. *)
Record Column : Type := {
  fieldName : option json;
  colName : option json;
  dataTypeName : option json;
  colDescription : option json
}.

(** [interface DatasetMetadata]. *)
Record DatasetMetadata : Type := {
  name : option json;
  description : json;
  columns : list Column;
  rowCount : option json
}.

(** What an [https.get] ends with: the ['error'] event or the whole body. *)
Inductive Response : Type :=
| NetError
| Body (data : string).

(** The world outside the process: the three endpoints, the operator at
    the prompt and the directories that exist.  A data page is selected by
    the [$limit] and [$offset] of its request; the other parameters are the
    same for every page of one download. *)
Record Env : Type := {
  metadataResponse : Response;
  countResponse : Response;
  answer : string;
  chunkResponse : jsnum -> jsnum -> Response;
  existsSync : string -> bool;
  mkdirFails : string -> bool
}.

Inductive Error : Type :=
| NetworkFailure
| FailedToParseMetadata
| SyntaxError
| TypeError
| FsError.

(** Lines printed with [console.log], [console.error]. *)
Inductive Message : Type :=
| MsgUsage (reason : string)
| MsgFetchingMetadata
| MsgDataset (n : option json)
| MsgColumnCount (n : nat)
| MsgAvailableColumns
| MsgColumn (c : Column)
| MsgBlank
| MsgCounting
| MsgTotalRows (n : jsnum)
| MsgLargeDataset
| MsgExampleFilters
| MsgWhereExample (dateCol : option json)
| MsgWhereRangeExample (dateCol : option json)
| MsgCancelled
| MsgDownloadingTo (path : option string)
| MsgComplete (downloadedRows : Z)
| MsgError (e : Error).


(** The effects of a run, in the order they happen. *)
Inductive Event : Type :=
| EvLog (m : Message)
| EvMkdir (dir : string)
| EvFetchMetadata
| EvCountRows
| EvPrompt (rowCount : jsnum)
| EvOpen (path : string)
| EvWrite (data : string)
| EvFetchChunk (limit offset : jsnum)
| EvProgress (downloadedRows : Z) (total : option jsnum)
| EvEnd
| EvExit (code : Z).

(** How a computation ends. *)
Inductive Outcome (A : Type) : Type :=
| Value (a : A)
| Thrown (e : Error)
| Exited (code : Z)
| OutOfFuel.

Arguments Value {A} a.
Arguments Thrown {A} e.
Arguments Exited {A} code.
Arguments OutOfFuel {A}.

(** A computation: the events it produced and how it ended. *)
Definition Eff (A : Type) : Type := (list Event * Outcome A)%type.

Definition ret {A : Type} (a : A) : Eff A := ([], Value a).

Definition bind {A B : Type} (m : Eff A) (k : A -> Eff B) : Eff B :=
  match m with
  | (evs, Value a) => let '(evs', o) := k a in (evs ++ evs', o)
  | (evs, Thrown e) => (evs, Thrown e)
  | (evs, Exited c) => (evs, Exited c)
  | (evs, OutOfFuel) => (evs, OutOfFuel)
  end.

Definition emit (e : Event) : Eff unit := ([e], Value tt).

Definition throw {A : Type} (e : Error) : Eff A := ([], Thrown e).

(** [process.exit(code)]. *)
Definition exit {A : Type} (code : Z) : Eff A := ([EvExit code], Exited code).

Definition log (m : Message) : Eff unit := emit (EvLog m).

Notation "x <- m ;; k" := (bind m (fun x => k))
  (at level 61, m at next level, right associativity).
Notation "m ;; k" := (bind m (fun _ => k))
  (at level 61, right associativity).

(** [try { ... } catch (error) { console.error(...); process.exit(1) }]. *)
Definition catch_exit1 {A : Type} (m : Eff A) : Eff A :=
  match snd m with
  | Thrown e => (fst m ++ [EvLog (MsgError e); EvExit 1], Exited 1)
  | _ => m
  end.

(* ----------------------------------------------------------------- *)
(** *** Command line *)

Definition with_format (f : Format) (a : CliArgs) : CliArgs :=
  {| datasetId := datasetId a; format := f; output := output a;
     outputDir := outputDir a; limit := limit a; where_ := where_ a;
     select := select a; order := order a; chunkSize := chunkSize a;
     noConfirm := noConfirm a |}.

Definition with_output (o : string) (a : CliArgs) : CliArgs :=
  {| datasetId := datasetId a; format := format a; output := Some o;
     outputDir := outputDir a; limit := limit a; where_ := where_ a;
     select := select a; order := order a; chunkSize := chunkSize a;
     noConfirm := noConfirm a |}.

Definition with_outputDir (d : string) (a : CliArgs) : CliArgs :=
  {| datasetId := datasetId a; format := format a; output := output a;
     outputDir := d; limit := limit a; where_ := where_ a;
     select := select a; order := order a; chunkSize := chunkSize a;
     noConfirm := noConfirm a |}.

Definition with_limit (n : jsnum) (a : CliArgs) : CliArgs :=
  {| datasetId := datasetId a; format := format a; output := output a;
     outputDir := outputDir a; limit := Some n; where_ := where_ a;
     select := select a; order := order a; chunkSize := chunkSize a;
     noConfirm := noConfirm a |}.

Definition with_where (w : string) (a : CliArgs) : CliArgs :=
  {| datasetId := datasetId a; format := format a; output := output a;
     outputDir := outputDir a; limit := limit a; where_ := Some w;
     select := select a; order := order a; chunkSize := chunkSize a;
     noConfirm := noConfirm a |}.

Definition with_select (c : string) (a : CliArgs) : CliArgs :=
  {| datasetId := datasetId a; format := format a; output := output a;
     outputDir := outputDir a; limit := limit a; where_ := where_ a;
     select := Some c; order := order a; chunkSize := chunkSize a;
     noConfirm := noConfirm a |}.

Definition with_order (c : string) (a : CliArgs) : CliArgs :=
  {| datasetId := datasetId a; format := format a; output := output a;
     outputDir := outputDir a; limit := limit a; where_ := where_ a;
     select := select a; order := Some c; chunkSize := chunkSize a;
     noConfirm := noConfirm a |}.

Definition with_chunkSize (n : jsnum) (a : CliArgs) : CliArgs :=
  {| datasetId := datasetId a; format := format a; output := output a;
     outputDir := outputDir a; limit := limit a; where_ := where_ a;
     select := select a; order := order a; chunkSize := n;
     noConfirm := noConfirm a |}.

Definition with_noConfirm (a : CliArgs) : CliArgs :=
  {| datasetId := datasetId a; format := format a; output := output a;
     outputDir := outputDir a; limit := limit a; where_ := where_ a;
     select := select a; order := order a; chunkSize := chunkSize a;
     noConfirm := true |}.

(** [console.error('Error: ...'); process.exit(1)]. *)
Definition usage {A : Type} (reason : string) : Eff A :=
  log (MsgUsage reason) ;; exit 1.

(** Truthiness of a [string | undefined]: [''] is falsy. *)
Definition truthy_str (s : option string) : bool :=
  match s with
  | Some s => negb (s =? "")%string
  | None => false
  end.

(** The extension and endpoint suffix of a format. *)
Definition format_name (f : Format) : string :=
  match f with
  | Csv => "csv"
  | Json => "json"
  end.

(** The [for]/[switch] of [parseArgs] over the arguments after the
    dataset id. *)
Fixpoint parseOptions (rest : list string) (parsed : CliArgs) : Eff CliArgs :=
  match rest with
  | [] => ret parsed
  | flag :: values =>
      if (flag =? "--format")%string then
        match values with
        | [] => usage "--format requires a value (csv or json)"
        | v :: rest' =>
            let f := toLowerCase v in
            if (f =? "csv")%string then parseOptions rest' (with_format Csv parsed)
            else if (f =? "json")%string then parseOptions rest' (with_format Json parsed)
            else usage "--format must be csv or json"
        end
      else if (flag =? "--output")%string then
        match values with
        | [] => usage "--output requires a file path"
        | v :: rest' => parseOptions rest' (with_output v parsed)
        end
      else if (flag =? "--output-dir")%string then
        match values with
        | [] => usage "--output-dir requires a directory path"
        | v :: rest' => parseOptions rest' (with_outputDir v parsed)
        end
      else if (flag =? "--limit")%string then
        match values with
        | [] => usage "--limit requires a number"
        | v :: rest' => parseOptions rest' (with_limit (parseInt v) parsed)
        end
      else if (flag =? "--where")%string then
        match values with
        | [] => usage "--where requires a clause"
        | v :: rest' => parseOptions rest' (with_where v parsed)
        end
      else if (flag =? "--select")%string then
        match values with
        | [] => usage "--select requires column names"
        | v :: rest' => parseOptions rest' (with_select v parsed)
        end
      else if (flag =? "--order")%string then
        match values with
        | [] => usage "--order requires a clause"
        | v :: rest' => parseOptions rest' (with_order v parsed)
        end
      else if (flag =? "--chunk-size")%string then
        match values with
        | [] => usage "--chunk-size requires a number"
        | v :: rest' => parseOptions rest' (with_chunkSize (parseInt v) parsed)
        end
      else if (flag =? "--no-confirm")%string then
        parseOptions values (with_noConfirm parsed)
      else usage ("Unknown option " ++ flag)%string
  end.

Section Runtime.

(** The library functions the tool calls: [JSON.parse] ([None] when it
    throws), [JSON.stringify] and [path.dirname]. *)
Variable JSON_parse : string -> option json.
Variable JSON_stringify : json -> string.
Variable dirname : string -> string.

(** [fs.existsSync(dir)] and, when it is false, [fs.mkdirSync(dir)].  The
    empty path never exists and cannot be made ([ENOENT]); any other
    directory may fail to be made ([EACCES], [ENOTDIR], ...), and the call
    then throws. *)
Definition ensureDir (env : Env) (dir : string) : Eff unit :=
  if negb (dir =? "")%string && existsSync env dir then ret tt
  else
    emit (EvMkdir dir) ;;
    if (dir =? "")%string || mkdirFails env dir then throw FsError else ret tt.

(** [parseArgs], on [process.argv.slice(2)]. *)
Definition parseArgs (env : Env) (args : list string) : Eff CliArgs :=
  match args with
  | [] => log (MsgUsage "Dataset ID is required") ;; usage "Usage"
  | id :: rest =>
      if prefix "--" id then log (MsgUsage "Dataset ID is required") ;; usage "Usage"
      else
        parsed <- parseOptions rest
                    {| datasetId := id; format := Csv; output := None;
                       outputDir := "./data"; limit := None; where_ := None;
                       select := None; order := None; chunkSize := Num 10000;
                       noConfirm := false |} ;;
        if truthy_str (output parsed) then
          match output parsed with
          | Some o =>
              let dir := dirname o in
              (if negb (dir =? "")%string then ensureDir env dir else ret tt) ;;
              ret parsed
          | None => ret parsed
          end
        else
          ensureDir env (outputDir parsed) ;;
          ret (with_output
                 (outputDir parsed ++ "/" ++ datasetId parsed ++ "." ++
                  format_name (format parsed))%string parsed)
  end.

(* ----------------------------------------------------------------- *)
(** *** Network helpers *)

(** The callback of [columns.map] in [fetchMetadata]; reading a field of
    [null] is a [TypeError] ([None]). *)
Definition toColumn (col : json) : option Column :=
  match col with
  | JNull => None
  | _ => Some {| fieldName := prop col "fieldName";
                 colName := prop col "name";
                 dataTypeName := prop col "dataTypeName";
                 colDescription := prop col "description" |}
  end.

Fixpoint mapColumns (items : list json) : option (list Column) :=
  match items with
  | [] => Some []
  | col :: rest =>
      match toColumn col, mapColumns rest with
      | Some c, Some cs => Some (c :: cs)
      | _, _ => None
      end
  end.

(** [(metadata.columns || []).map(...)]: only an array has [map]. *)
Definition columnsOf (c : option json) : option (list Column) :=
  match c with
  | Some v =>
      if truthy v then
        match v with
        | JArr items => mapColumns items
        | _ => None
        end
      else Some []
  | None => Some []
  end.

(** [x || dflt] on a property that may be [undefined]. *)
Definition orElse (x : option json) (dflt : json) : json :=
  match x with
  | Some v => if truthy v then v else dflt
  | None => dflt
  end.

(** Truthiness of a property that may be [undefined]. *)
Definition truthy_prop (x : option json) : bool :=
  match x with
  | Some v => truthy v
  | None => false
  end.

(** [fetchMetadata]: every exception inside the [try] is rejected as
    "Failed to parse metadata". *)
Definition fetchMetadata (env : Env) : Eff DatasetMetadata :=
  emit EvFetchMetadata ;;
  match metadataResponse env with
  | NetError => throw NetworkFailure
  | Body data =>
      match JSON_parse data with
      | None => throw FailedToParseMetadata
      | Some JNull => throw FailedToParseMetadata
      | Some metadata =>
          match columnsOf (prop metadata "columns") with
          | None => throw FailedToParseMetadata
          | Some cols =>
              ret {| name := prop metadata "name";
                     description := orElse (prop metadata "description") (JStr "");
                     columns := cols;
                     rowCount := if truthy_prop (prop metadata "rowsUpdatedAt")
                                 then None else prop metadata "rowCount" |}
          end
      end
  end.

(** [fetchChunk]: one page, requested by [$limit] and [$offset]. *)
Definition fetchChunk (env : Env) (chunkLimit offset : jsnum) : Eff string :=
  emit (EvFetchChunk chunkLimit offset) ;;
  match chunkResponse env chunkLimit offset with
  | NetError => throw NetworkFailure
  | Body data => ret data
  end.

(** [result[0]]: [None] is the [TypeError] of indexing [null]; otherwise
    the element, [undefined] when there is none. *)
Definition index0 (result : json) : option (option json) :=
  match result with
  | JNull => None
  | JArr items => Some (hd_error items)
  | JObj props => Some (lookup "0" props)
  | JStr (String c _) => Some (Some (JStr (String c "")))
  | _ => Some None
  end.

(** [first?.count]. *)
Definition countField (first : option json) : option json :=
  match first with
  | Some v => prop v "count"
  | None => None
  end.

(** [countRows]: [parseInt(result[0]?.count || '0', 10)]. *)
Definition countRows (env : Env) : Eff jsnum :=
  emit EvCountRows ;;
  match countResponse env with
  | NetError => throw NetworkFailure
  | Body data =>
      match JSON_parse data with
      | None => throw SyntaxError
      | Some result =>
          match index0 result with
          | None => throw TypeError
          | Some first =>
              match toString (orElse (countField first) (JStr "0")) with
              | None => throw TypeError
              | Some text => ret (parseInt text)
              end
          end
      end
  end.

(** [confirmDownload]: the prompt, then the test of the answer. *)
Definition accepted (reply : string) : bool :=
  ((toLowerCase reply =? "y") || (toLowerCase reply =? "yes"))%string.

Definition confirmDownload (env : Env) (rowCount : jsnum) : Eff bool :=
  emit (EvPrompt rowCount) ;;
  ret (accepted (answer env)).

(* ----------------------------------------------------------------- *)
(** *** The pagination loop *)

(** The variables the loop mutates. *)
Record LoopVars : Type := {
  offset : jsnum;
  downloadedRows : Z;
  isFirstChunk : bool
}.

Inductive LoopCtl : Type :=
| Continue
| Break.

(** [Math.min(args.chunkSize,
             rowsToDownload ? rowsToDownload - downloadedRows : args.chunkSize)]. *)
Definition chunkLimitOf (args : CliArgs) (rowsToDownload : option jsnum)
    (downloaded : Z) : jsnum :=
  Js.min (chunkSize args)
    (match rowsToDownload with
     | Some r => if truthy_num r then Js.sub r (Num downloaded) else chunkSize args
     | None => chunkSize args
     end).

(** The body of [rows.forEach((row, index) => ...)]: the separator before
    every record but the very first of the file, then the record.  Returns
    [isFirstChunk]. *)
Fixpoint writeRows (rows : list json) (index : nat) (first : bool) : Eff bool :=
  match rows with
  | [] => ret first
  | row :: rest =>
      (if negb first || (0 <? index)%nat
       then emit (EvWrite ("," ++ LF)%string) else ret tt) ;;
      emit (EvWrite ("  " ++ JSON_stringify row)%string) ;;
      writeRows rest (S index) false
  end.

(** The progress indicator. *)
Definition progress (rowsToDownload : option jsnum) (downloaded : Z) : Eff unit :=
  emit (EvProgress downloaded
          (if truthy_opt rowsToDownload then rowsToDownload else None)).

(** The end of the loop body: [offset += chunkLimit] and the progress line. *)
Definition advance (rowsToDownload : option jsnum) (chunkLimit : jsnum)
    (v : LoopVars) : Eff (LoopCtl * LoopVars) :=
  let v' := {| offset := Js.add (offset v) chunkLimit;
               downloadedRows := downloadedRows v;
               isFirstChunk := isFirstChunk v |} in
  progress rowsToDownload (downloadedRows v') ;;
  ret (Continue, v').

(** One pass through the body of [while (true)]. *)
Definition iteration (args : CliArgs) (env : Env) (rowsToDownload : option jsnum)
    (v : LoopVars) : Eff (LoopCtl * LoopVars) :=
  let chunkLimit := chunkLimitOf args rowsToDownload (downloadedRows v) in
  if Js.le chunkLimit (Num 0) then ret (Break, v)
  else
    chunk <- fetchChunk env chunkLimit (offset v) ;;
    match format args with
    | Json =>
        match JSON_parse chunk with
        | None => throw SyntaxError
        | Some (JArr (row :: more)) =>
            let rows := row :: more in
            first <- writeRows rows 0 (isFirstChunk v) ;;
            let v1 := {| offset := offset v;
                         downloadedRows := downloadedRows v + Z.of_nat (List.length rows);
                         isFirstChunk := first |} in
            if Js.lt (Num (Z.of_nat (List.length rows))) chunkLimit then ret (Break, v1)
            else advance rowsToDownload chunkLimit v1
        | Some _ => ret (Break, v)
        end
    | Csv =>
        let lines := split chunk in
        if (List.length lines <=? 1)%nat then ret (Break, v)
        else
          (if isFirstChunk v then emit (EvWrite chunk)
           else emit (EvWrite (join LF (slice1 lines)))) ;;
          let v1 := {| offset := offset v;
                       downloadedRows := downloadedRows v + (Z.of_nat (List.length lines) - 1);
                       isFirstChunk := false |} in
          if Js.lt (Num (Z.of_nat (List.length lines) - 1)) chunkLimit then ret (Break, v1)
          else advance rowsToDownload chunkLimit v1
    end.

(** [while (true) { ... }], for at most [fuel] passes. *)
Fixpoint loop (fuel : nat) (args : CliArgs) (env : Env)
    (rowsToDownload : option jsnum) (v : LoopVars) : Eff LoopVars :=
  match fuel with
  | O => ([], OutOfFuel)
  | S fuel' =>
      r <- iteration args env rowsToDownload v ;;
      match fst r with
      | Break => ret (snd r)
      | Continue => loop fuel' args env rowsToDownload (snd r)
      end
  end.

(* ----------------------------------------------------------------- *)
(** *** [downloadDataset] and [main] *)

(** The test of the [dateColumns] filter; [None] is the [TypeError] of
    calling [includes] on a field name that has no such method. *)
Definition isStr (s : string) (v : json) : bool :=
  match v with
  | JStr t => (t =? s)%string
  | _ => false
  end.

Definition isDateColumn (col : Column) : option bool :=
  if match dataTypeName col with
     | Some v => isStr "calendar_date" v
     | None => false
     end
  then Some true
  else
    match fieldName col with
    | Some (JStr s) => Some (includes s "date" || includes s "time")
    | Some (JArr items) =>
        Some (existsb (isStr "date") items || existsb (isStr "time") items)
    | _ => None
    end.

Fixpoint filterDateColumns (cols : list Column) : option (list Column) :=
  match cols with
  | [] => Some []
  | col :: rest =>
      match isDateColumn col with
      | None => None
      | Some keep =>
          match filterDateColumns rest with
          | None => None
          | Some kept => Some (if keep then col :: kept else kept)
          end
      end
  end.

(** The listing of the columns after the metadata is fetched. *)
Definition listColumns (metadata : DatasetMetadata) : Eff unit :=
  match columns metadata with
  | [] => ret tt
  | cols =>
      log MsgAvailableColumns ;;
      fold_right (fun col k => log (MsgColumn col) ;; k) (ret tt) cols ;;
      log MsgBlank
  end.

(** The hint printed for a large download without a filter. *)
Definition suggestFilters (metadata : DatasetMetadata) : Eff unit :=
  log MsgLargeDataset ;;
  log MsgExampleFilters ;;
  match filterDateColumns (columns metadata) with
  | None => throw TypeError
  | Some dateColumns =>
      match dateColumns with
      | col :: _ =>
          log (MsgWhereExample (fieldName col)) ;;
          log (MsgWhereRangeExample (fieldName col))
      | [] => ret tt
      end ;;
      log MsgBlank
  end.

(** The block "Count rows for confirmation": the total when it was counted
    and the operator agreed, [undefined] when the block is skipped. *)
Definition countAndConfirm (args : CliArgs) (env : Env)
    (metadata : DatasetMetadata) : Eff (option jsnum) :=
  if negb (noConfirm args) && negb (truthy_opt (limit args)) then
    log MsgCounting ;;
    totalRows <- countRows env ;;
    log (MsgTotalRows totalRows) ;;
    (if Js.gt totalRows (Num 50000) && negb (truthy_str (where_ args))
     then suggestFilters metadata else ret tt) ;;
    confirmed <- confirmDownload env totalRows ;;
    if confirmed then ret (Some totalRows)
    else log MsgCancelled ;; exit 0
  else ret None.

(** [fs.createWriteStream(args.output)]; a path that is not a string is a
    [TypeError].  The call itself does not fail for a path: the stream
    opens the file later, and a destination that cannot be opened shows as
    an [error] event of the stream, which nothing listens to and which
    ends the process outside [main].  That event is not part of a run
    here: the events of a run are the calls the program makes. *)
Definition openOutput (args : CliArgs) : Eff unit :=
  match output args with
  | Some path => emit (EvOpen path)
  | None => throw TypeError
  end.

(** The bracket lines written around the records in JSON mode. *)
Definition writeFraming (args : CliArgs) (text : string) : Eff unit :=
  match format args with
  | Json => emit (EvWrite text)
  | Csv => ret tt
  end.

Definition downloadDataset (fuel : nat) (args : CliArgs) (env : Env) : Eff unit :=
  log MsgFetchingMetadata ;;
  metadata <- fetchMetadata env ;;
  log (MsgDataset (name metadata)) ;;
  log (MsgColumnCount (List.length (columns metadata))) ;;
  listColumns metadata ;;
  totalRows <- countAndConfirm args env metadata ;;
  let rowsToDownload := Js.or (limit args) totalRows in
  log (MsgDownloadingTo (output args)) ;;
  openOutput args ;;
  writeFraming args ("[" ++ LF)%string ;;
  v <- loop fuel args env rowsToDownload
         {| offset := Num 0; downloadedRows := 0; isFirstChunk := true |} ;;
  writeFraming args (LF ++ "]" ++ LF)%string ;;
  emit EvEnd ;;
  log (MsgComplete (downloadedRows v)).

Definition main (fuel : nat) (argv : list string) (env : Env) : Eff unit :=
  catch_exit1 (args <- parseArgs env argv ;; downloadDataset fuel args env).

End Runtime.

End Download.

(* ================================================================= *)
(** ** Observations on a run *)

Module Trace.

Import Js Download.

(** The page requests issued, as [($limit, $offset)], in order. *)
Fixpoint fetches (evs : list Event) : list (jsnum * jsnum) :=
  match evs with
  | [] => []
  | EvFetchChunk l o :: rest => (l, o) :: fetches rest
  | _ :: rest => fetches rest
  end.

(** Everything written to the output stream, in order. *)
Fixpoint written (evs : list Event) : string :=
  match evs with
  | [] => ""
  | EvWrite data :: rest => (data ++ written rest)%string
  | _ :: rest => written rest
  end.

(** The progress lines, as the counter shown and the total shown with it. *)
Fixpoint progressLines (evs : list Event) : list (Z * option jsnum) :=
  match evs with
  | [] => []
  | EvProgress d t :: rest => (d, t) :: progressLines rest
  | _ :: rest => progressLines rest
  end.

Definition isOpen (e : Event) : bool :=
  match e with
  | EvOpen _ => true
  | _ => false
  end.

Definition isFetch (e : Event) : bool :=
  match e with
  | EvFetchChunk _ _ => true
  | _ => false
  end.



Definition isMetadata (e : Event) : bool :=
  match e with
  | EvFetchMetadata => true
  | _ => false
  end.

Definition isError (e : Event) : bool :=
  match e with
  | EvLog (MsgError _) => true
  | EvLog (MsgUsage _) => true
  | _ => false
  end.

(** The destination file after the run: untouched ([None]) when the
    stream was never created, otherwise what was written to it. *)
Definition fileContent (evs : list Event) : option string :=
  if existsb isOpen evs then Some (written evs) else None.

(** The exit code of the process; an uncaught exception ends it with 1. *)
Definition exitCode {A : Type} (r : Eff A) : option Z :=
  match snd r with
  | Value _ => Some 0
  | Exited code => Some code
  | Thrown _ => Some 1
  | OutOfFuel => None
  end.

(** The rows the loop counts in a page body: the length of the parsed
    array in JSON mode, the number of lines after the header line in text
    mode.  [None] when a JSON body is not an array. *)
Definition pageRows (JSON_parse : string -> option json) (f : Format)
    (body : string) : option Z :=
  match f with
  | Json =>
      match JSON_parse body with
      | Some (JArr items) => Some (Z.of_nat (List.length items))
      | _ => None
      end
  | Csv => Some (Z.of_nat (List.length (split body)) - 1)
  end.

(** A remote source whose pages the loop counts as [min(cap, remaining)]
    rows of [total].  The measure is the loop's own, [pageRows]: the rows
    of an array in JSON mode, the lines after the first in text mode. *)
Definition servesRows (JSON_parse : string -> option json) (f : Format)
    (total : Z) (env : Env) : Prop :=
  forall cap off, 0 < cap -> 0 <= off ->
    exists body,
      chunkResponse env (Num cap) (Num off) = Body body /\
      pageRows JSON_parse f body = Some (Z.min cap (Z.max 0 (total - off))).

(** [rows.slice(off, off + cap)]: the rows of a table that a request for
    [cap] rows from offset [off] is about. *)
Definition rowsAt {A : Type} (rows : list A) (cap off : Z) : list A :=
  firstn (Z.to_nat cap) (skipn (Z.to_nat off) rows).

(** A remote source that holds the table [rows] and answers every request
    in JSON with exactly the rows asked for: the [min(cap, remaining)]
    rows from the offset on, as an array. *)
Definition servesTable (JSON_parse : string -> option json)
    (rows : list json) (env : Env) : Prop :=
  forall cap off, 0 < cap -> 0 <= off ->
    exists body,
      chunkResponse env (Num cap) (Num off) = Body body /\
      JSON_parse body = Some (JArr (rowsAt rows cap off)).

(** [ceil(n / p)] for a positive [p]. *)
Definition ceilDiv (n p : Z) : Z := (n + p - 1) / p.

(** The requests of a download of [rows] rows in pages of [p], starting at
    [off]: [count] requests, each capped to what remains. *)
Fixpoint requestsFrom (count : nat) (p rows off : Z) : list (jsnum * jsnum) :=
  match count with
  | O => []
  | S count' =>
      (Num (Z.min p (rows - off)), Num off) :: requestsFrom count' p rows (off + p)
  end.

(** The scan behind "a progress line after every committed page": a page
    is committed when a write follows its request; it is reported when a
    progress line comes before the next request and before the end. *)
Inductive PageState : Type :=
| Idle
| Requested
| Committed.

Fixpoint reportedFrom (st : PageState) (evs : list Event) : bool :=
  match evs with
  | [] => match st with Committed => false | _ => true end
  | EvFetchChunk _ _ :: rest =>
      match st with
      | Committed => false
      | _ => reportedFrom Requested rest
      end
  | EvWrite _ :: rest =>
      match st with
      | Idle => reportedFrom Idle rest
      | _ => reportedFrom Committed rest
      end
  | EvProgress _ _ :: rest => reportedFrom Idle rest
  | _ :: rest => reportedFrom st rest
  end.

Definition everyPageReported (evs : list Event) : bool := reportedFrom Idle evs.

(** White space of JSON texts. *)
Definition isWs (c : ascii) : bool :=
  let n := nat_of_ascii c in
  ((n =? 32) || (n =? 10) || (n =? 13) || (n =? 9))%nat.

Fixpoint allWs (s : string) : bool :=
  match s with
  | EmptyString => true
  | String c rest => isWs c && allWs rest
  end.

(** The array syntax of the specification: an opening bracket, zero or
    more records separated by commas, a closing bracket; white space may
    surround the brackets and the commas.  [Elements rs s]: [s] is the
    records [rs], one at least, with a comma between neighbours. *)
Inductive Elements : list string -> string -> Prop :=
| ElemLast (r w1 w2 : string) :
    allWs w1 = true -> allWs w2 = true ->
    Elements [r] (w1 ++ r ++ w2)%string
| ElemMore (r : string) (rs : list string) (w1 w2 rest : string) :
    allWs w1 = true -> allWs w2 = true ->
    Elements rs rest ->
    Elements (r :: rs) (w1 ++ r ++ w2 ++ "," ++ rest)%string.

Inductive ArrayText : list string -> string -> Prop :=
| ArrEmpty (w1 w2 : string) :
    allWs w1 = true -> allWs w2 = true ->
    ArrayText [] ("[" ++ w1 ++ "]" ++ w2)%string
| ArrRecords (rs : list string) (body w2 : string) :
    Elements rs body -> allWs w2 = true ->
    ArrayText rs ("[" ++ body ++ "]" ++ w2)%string.

(** The rows of the pages a JSON-mode run fetched, in request order. *)
Definition rowsOf (JSON_parse : string -> option json) (env : Env)
    (requests : list (jsnum * jsnum)) : list json :=
  flat_map (fun r =>
    match chunkResponse env (fst r) (snd r) with
    | Body data =>
        match JSON_parse data with
        | Some (JArr items) => items
        | _ => []
        end
    | NetError => []
    end) requests.

(** The requests of a download that does not know the total: [count]
    requests of a full page each. *)
Fixpoint pagesFrom (count : nat) (p off : Z) : list (jsnum * jsnum) :=
  match count with
  | O => []
  | S count' => (Num p, Num off) :: pagesFrom count' p (off + p)
  end.

Definition isWrite (e : Event) : bool :=
  match e with
  | EvWrite _ => true
  | _ => false
  end.

(** Nothing but writes to the output stream. *)
Definition onlyWrites (evs : list Event) : bool := forallb isWrite evs.

(** The total a progress line shows: the one the loop works towards, when
    it has one. *)
Definition shownTotal (rowsToDownload : option jsnum) : option jsnum :=
  if truthy_opt rowsToDownload then rowsToDownload else None.

(** A stretch of the loop in which every page is committed and then
    reported: a request, the writes of its page, the progress line. *)
Inductive Reported (total : option jsnum) : list Event -> Prop :=
| ReportedNil : Reported total []
| ReportedPage (c o : jsnum) (w : list Event) (d : Z) (rest : list Event) :
    onlyWrites w = true -> w <> [] ->
    Reported total rest ->
    Reported total (EvFetchChunk c o :: w ++ EvProgress d total :: rest).

(** The text of the records of a JSON-mode file between its brackets:
    two spaces before each record, a comma and a line feed before each
    one but the first of a file ([first]). *)
Fixpoint recordsText (first : bool) (records : list string) : string :=
  match records with
  | [] => ""
  | r :: rest =>
      ((if first then "" else "," ++ LF) ++ "  " ++ r ++ recordsText false rest)%string
  end.

(** The whole JSON-mode file for the given records. *)
Definition arrayFile (records : list string) : string :=
  ("[" ++ LF ++ recordsText true records ++ LF ++ "]" ++ LF)%string.

(** The first run of the loop: offset and counter at zero, nothing
    written yet. *)
Definition start : LoopVars :=
  {| offset := Num 0; downloadedRows := 0; isFirstChunk := true |}.

(** What the loop writes for a page that has rows: in JSON mode the
    records of the parsed array, in text mode the whole body for the first
    page of the file and the lines after the header line for a later one. *)
Definition committedText (JSON_parse : string -> option json)
    (JSON_stringify : json -> string) (f : Format) (first : bool)
    (body : string) : string :=
  match f with
  | Json =>
      match JSON_parse body with
      | Some (JArr items) => recordsText first (map JSON_stringify items)
      | _ => ""
      end
  | Csv => if first then body else join LF (slice1 (split body))
  end.

Definition isLog (e : Event) : bool :=
  match e with
  | EvLog _ => true
  | _ => false
  end.

(** Nothing but lines on the console. *)
Definition quiet (evs : list Event) : bool := forallb isLog evs.

(** The stretches of a run of [downloadDataset] around its three awaited
    phases: the console lines after the metadata arrived, the events from
    the announcement of the destination to the first pass of the loop, and
    the events after the loop. *)
Definition preamble (metadata : DatasetMetadata) : list Event :=
  EvLog (MsgDataset (name metadata)) ::
  EvLog (MsgColumnCount (List.length (columns metadata))) ::
  fst (listColumns metadata).

Definition opening (args : CliArgs) (path : string) : list Event :=
  EvLog (MsgDownloadingTo (output args)) :: EvOpen path ::
  fst (writeFraming args ("[" ++ LF)%string).

Definition closing (args : CliArgs) (v : LoopVars) : list Event :=
  fst (writeFraming args (LF ++ "]" ++ LF)%string) ++
  [EvEnd; EvLog (MsgComplete (downloadedRows v))].

Definition isEmpty {A : Type} (l : list A) : bool :=
  match l with
  | [] => true
  | _ :: _ => false
  end.

(** Every event that satisfies [q] comes after one that satisfies [p]. *)
Fixpoint firstThen (p q : Event -> bool) (evs : list Event) : bool :=
  match evs with
  | [] => true
  | e :: rest => p e || (negb (q e) && firstThen p q rest)
  end.

(** The events of the loop: requests, writes and progress lines. *)
Definition isPageEvent (e : Event) : bool :=
  match e with
  | EvFetchChunk _ _ => true
  | EvWrite _ => true
  | EvProgress _ _ => true
  | _ => false
  end.

(** The events of [parseArgs]: console lines, directories, the exit. *)
Definition isSetupEvent (e : Event) : bool :=
  match e with
  | EvLog _ => true
  | EvMkdir _ => true
  | EvExit _ => true
  | _ => false
  end.

(** The events before the destination is opened: console lines, the two
    requests about the dataset, the prompt, the exit. *)
Definition isGateEvent (e : Event) : bool :=
  match e with
  | EvLog _ => true
  | EvFetchMetadata => true
  | EvCountRows => true
  | EvPrompt _ => true
  | EvExit _ => true
  | _ => false
  end.

(** The events up to the prompt: console lines and the two requests
    about the dataset. *)
Definition isInquiry (e : Event) : bool :=
  match e with
  | EvLog _ => true
  | EvFetchMetadata => true
  | EvCountRows => true
  | _ => false
  end.

Definition isMkdir (e : Event) : bool :=
  match e with
  | EvMkdir _ => true
  | _ => false
  end.

Definition isEnd (e : Event) : bool :=
  match e with
  | EvEnd => true
  | _ => false
  end.

(** A call of [process.exit]. *)
Definition isExit (e : Event) : bool :=
  match e with
  | EvExit _ => true
  | _ => false
  end.

(** Requests that follow one another without a gap: each asks for a
    positive number of rows, at most [p], from the offset where the one
    before it stopped asking. *)
Fixpoint contiguous (p off : Z) (requests : list (jsnum * jsnum)) : Prop :=
  match requests with
  | [] => True
  | (c, o) :: rest =>
      exists cap, c = Num cap /\ o = Num off /\ 0 < cap <= p /\
                  contiguous p (off + cap) rest
  end.

(** A remote source that never returns more rows than it was asked for:
    an array it sends for a request has at most [cap] elements. *)
Definition honoursCap (JSON_parse : string -> option json) (env : Env) : Prop :=
  forall cap off body items,
    0 < cap -> 0 <= off ->
    chunkResponse env (Num cap) (Num off) = Body body ->
    JSON_parse body = Some (JArr items) ->
    Z.of_nat (List.length items) <= cap.

(** A remote source without an end: every request gets as many rows as it
    asked for. *)
Definition endless (JSON_parse : string -> option json) (f : Format)
    (env : Env) : Prop :=
  forall cap off, 0 < cap -> 0 <= off ->
    exists body,
      chunkResponse env (Num cap) (Num off) = Body body /\
      pageRows JSON_parse f body = Some cap.

End Trace.

(* ================================================================= *)
(** ** A simulated runtime and remote source *)

Module Sim.

Import Js Download.

(** The double quote character. *)
Definition dq : ascii := "034"%char.
Definition quote : string := String dq "".

(** [JSON.stringify(v)] on values whose strings need no escaping. *)
Fixpoint stringify (v : json) : string :=
  match v with
  | JNull => "null"
  | JBool true => "true"
  | JBool false => "false"
  | JNum n => string_of_Z n
  | JStr s => (quote ++ s ++ quote)%string
  | JArr items => ("[" ++ join "," (map stringify items) ++ "]")%string
  | JObj props =>
      ("{" ++ join "," (map (fun kv => (quote ++ fst kv ++ quote ++ ":" ++
                                         stringify (snd kv))%string) props)
           ++ "}")%string
  end.

Fixpoint skipWs (s : string) : string :=
  match s with
  | String c rest => if Trace.isWs c then skipWs rest else s
  | EmptyString => EmptyString
  end.

(** The characters up to the closing quote; no escapes. *)
Fixpoint untilQuote (s : string) : option (string * string) :=
  match s with
  | EmptyString => None
  | String c rest =>
      if Ascii.eqb c dq then Some (EmptyString, rest)
      else if Ascii.eqb c "\"%char then None
      else match untilQuote rest with
           | Some (body, rest') => Some (String c body, rest')
           | None => None
           end
  end.

Fixpoint spanDigits (s : string) (acc : Z) : Z * string :=
  match s with
  | String c rest =>
      match digit c with
      | Some d => spanDigits rest (10 * acc + d)
      | None => (acc, s)
      end
  | EmptyString => (acc, s)
  end.

Definition isDigit (s : string) : bool :=
  match s with
  | String c _ => match digit c with Some _ => true | None => false end
  | EmptyString => false
  end.

(** [s] without the prefix [p], when it starts with it. *)
Fixpoint strip (p s : string) : option string :=
  match p, s with
  | EmptyString, _ => Some s
  | String a p', String b s' => if Ascii.eqb a b then strip p' s' else None
  | String _ _, EmptyString => None
  end.

(** The first character of [s] is [c]. *)
Definition heads (c : string) (s : string) : bool :=
  match strip c s with
  | Some _ => true
  | None => false
  end.

Definition behead (s : string) : string :=
  match s with
  | String _ rest => rest
  | EmptyString => EmptyString
  end.

(** A recursive-descent reader for JSON texts without escapes, fractions
    or exponents: [value] reads one value, [elements] the rest of an array
    after its bracket or a comma, [members] the rest of an object. *)
Fixpoint value (fuel : nat) (s : string) : option (json * string) :=
  match fuel with
  | O => None
  | S fuel' =>
      let t := skipWs s in
      match strip "null" t, strip "true" t, strip "false" t with
      | Some rest, _, _ => Some (JNull, rest)
      | _, Some rest, _ => Some (JBool true, rest)
      | _, _, Some rest => Some (JBool false, rest)
      | None, None, None =>
          if heads "[" t then
            if heads "]" (skipWs (behead t))
            then Some (JArr [], behead (skipWs (behead t)))
            else match elements fuel' (behead t) with
                 | Some (items, rest) => Some (JArr items, rest)
                 | None => None
                 end
          else if heads "{" t then
            if heads "}" (skipWs (behead t))
            then Some (JObj [], behead (skipWs (behead t)))
            else match members fuel' (behead t) with
                 | Some (props, rest) => Some (JObj props, rest)
                 | None => None
                 end
          else if heads quote t then
            match untilQuote (behead t) with
            | Some (body, rest) => Some (JStr body, rest)
            | None => None
            end
          else if heads "-" t then
            if isDigit (behead t)
            then Some (JNum (- fst (spanDigits (behead t) 0)),
                       snd (spanDigits (behead t) 0))
            else None
          else if isDigit t
          then Some (JNum (fst (spanDigits t 0)), snd (spanDigits t 0))
          else None
      end
  end
with elements (fuel : nat) (s : string) : option (list json * string) :=
  match fuel with
  | O => None
  | S fuel' =>
      match value fuel' s with
      | Some (v, rest) =>
          let t := skipWs rest in
          if heads "," t then
            match elements fuel' (behead t) with
            | Some (vs, rest') => Some (v :: vs, rest')
            | None => None
            end
          else if heads "]" t then Some ([v], behead t)
          else None
      | None => None
      end
  end
with members (fuel : nat) (s : string) : option (list (string * json) * string) :=
  match fuel with
  | O => None
  | S fuel' =>
      let t := skipWs s in
      if heads quote t then
        match untilQuote (behead t) with
        | Some (key, rest) =>
            let t1 := skipWs rest in
            if heads ":" t1 then
              match value fuel' (behead t1) with
              | Some (v, rest') =>
                  let t2 := skipWs rest' in
                  if heads "," t2 then
                    match members fuel' (behead t2) with
                    | Some (kvs, rest'') => Some ((key, v) :: kvs, rest'')
                    | None => None
                    end
                  else if heads "}" t2 then Some ([(key, v)], behead t2)
                  else None
              | None => None
              end
            else None
        | None => None
        end
      else None
  end.

(** [JSON.parse] on such texts; [None] is the [SyntaxError]. *)
Definition parse (s : string) : option json :=
  match value (2 * String.length s + 2) s with
  | Some (v, rest) =>
      match skipWs rest with
      | EmptyString => Some v
      | _ => None
      end
  | None => None
  end.

(** [path.dirname]: the path up to its last slash, ["."] when it has
    none and ["/"] when that slash is the first character. *)
Fixpoint beforeLastSlash (p : string) : option string :=
  match p with
  | EmptyString => None
  | String c rest =>
      match beforeLastSlash rest with
      | Some d => Some (String c d)
      | None => if Ascii.eqb c "/"%char then Some EmptyString else None
      end
  end.

Definition dirname (p : string) : string :=
  match beforeLastSlash p with
  | None => "."
  | Some EmptyString => "/"
  | Some d => d
  end.

(** [rows.slice(off, off + cap)]. *)
Definition window {A : Type} (rows : list A) (cap off : Z) : list A :=
  firstn (Z.to_nat cap) (skipn (Z.to_nat off) rows).

(** The page of a table for a request; a request that is not a pair of
    numbers gets the error object of the remote. *)
Definition jsonPage (rows : list json) (cap off : jsnum) : Response :=
  match cap, off with
  | Num c, Num o => Body (stringify (JArr (window rows c o)))
  | _, _ => Body (stringify (JObj [("error", JBool true)]))
  end.

(** A text page: the header line and the rows of the window, separated by
    line feeds, with one more line feed at the end when [terminated]. *)
Definition csvBody (terminated : bool) (header : string) (rows : list string) : string :=
  (join LF (header :: rows) ++ (if terminated then LF else ""))%string.

Definition csvPage (terminated : bool) (header : string) (rows : list string)
    (cap off : jsnum) : Response :=
  match cap, off with
  | Num c, Num o => Body (csvBody terminated header (window rows c o))
  | _, _ => Body (stringify (JObj [("error", JBool true)]))
  end.

(** The metadata document of a small dataset. *)
Definition metadataDoc : json :=
  JObj [("name", JStr "Daily Ridership");
        ("columns", JArr [JObj [("fieldName", JStr "date");
                                ("name", JStr "Date");
                                ("dataTypeName", JStr "calendar_date")];
                          JObj [("fieldName", JStr "count");
                                ("name", JStr "Count");
                                ("dataTypeName", JStr "number")]])].

(** The answer of the count query for [n] rows. *)
Definition countDoc (n : Z) : json :=
  JArr [JObj [("count", JStr (string_of_Z n))]].

(** A remote source with the given pages, for an operator who types
    [reply]; every directory exists. *)
Definition remote (count : Response) (reply : string)
    (pages : jsnum -> jsnum -> Response) : Env :=
  {| metadataResponse := Body (stringify metadataDoc);
     countResponse := count;
     answer := reply;
     chunkResponse := pages;
     existsSync := fun _ => true;
     mkdirFails := fun _ => false |}.

(** The records [{"n": 1}], ..., [{"n": k}] and the lines [row 1], ... *)
Definition record (i : nat) : json := JObj [("n", JNum (Z.of_nat i))].
Definition records (k : nat) : list json := map record (seq 1 k).
Definition line (i : nat) : string := ("row" ++ string_of_Z (Z.of_nat i))%string.
Definition lines (k : nat) : list string := map line (seq 1 k).

Definition jsonRemote (k : nat) (reply : string) : Env :=
  remote (Body (stringify (countDoc (Z.of_nat k)))) reply (jsonPage (records k)).

Definition csvRemote (terminated : bool) (k : nat) (reply : string) : Env :=
  remote (Body (stringify (countDoc (Z.of_nat k)))) reply
         (csvPage terminated "n" (lines k)).

(** The command lines of the examples. *)
Definition argsFor (f : Format) (lim : option jsnum) (chunk : Z) (quiet : bool) : CliArgs :=
  {| datasetId := "vxuj-8kew"; format := f; output := Some "./data/vxuj-8kew.out";
     outputDir := "./data"; limit := lim; where_ := None; select := None;
     order := None; chunkSize := Num chunk; noConfirm := quiet |}.

(** No line feed inside a line. *)
Definition oneLine (s : string) : bool := negb (includes s LF).





(** A text source without an end: the header and as many lines as were
    asked for, whatever the offset. *)
Definition endlessPage (cap off : jsnum) : Response :=
  match cap with
  | Num c => Body (csvBody false "n" (repeat "x" (Z.to_nat c)))
  | NaN => Body (stringify (JObj [("error", JBool true)]))
  end.

(** A source that answers every page request with an error object, as the
    remote service does for a query it rejects. *)
Definition refusal (cap off : jsnum) : Response :=
  Body (stringify (JObj [("error", JBool true)])).


(** The same source, seen from a machine on which no directory exists yet. *)
Definition emptyDisk (env : Env) : Env :=
  {| metadataResponse := metadataResponse env;
     countResponse := countResponse env;
     answer := answer env;
     chunkResponse := chunkResponse env;
     existsSync := fun _ => false;
     mkdirFails := mkdirFails env |}.



(** The reader gives back every window of [rows] from its text. *)
Definition readsBack (rows : list json) : Prop :=
  Forall (fun i =>
    Forall (fun j =>
      parse (stringify (JArr (firstn j (skipn i rows))))
      = Some (JArr (firstn j (skipn i rows))))
      (seq 0 (S (List.length rows))))
    (seq 0 (S (List.length rows))).

End Sim.

(** Lists of events in right-nested form. *)
Ltac flatten := repeat progress (cbn [app]; rewrite <- ?app_assoc).

(** Reads every window of a table of [n] rows back, one by one. *)
Ltac read_windows n :=
  unfold Sim.readsBack;
  match goal with
  | |- context [List.length ?rows] => change (List.length rows) with n
  end;
  cbn [seq];
  repeat match goal with
         | |- Forall _ [] => apply Forall_nil
         | |- Forall _ (_ :: _) => apply Forall_cons
         | |- _ = _ => vm_compute; reflexivity
         end.

(* ================================================================= *)
(** ** Properties *)

Import Js Download Trace.

(** *** Computations *)

Lemma bind_unfold {A B : Type} (m : Eff A) (k : A -> Eff B) :
  bind m k =
  match snd m with
  | Value a => (fst m ++ fst (k a), snd (k a))
  | Thrown e => (fst m, Thrown e)
  | Exited c => (fst m, Exited c)
  | OutOfFuel => (fst m, OutOfFuel)
  end.
Proof.
  destruct m as [evs [a | e | c |]]; simpl; try reflexivity.
  destruct (k a); reflexivity.
Qed.

Lemma bind_value {A B : Type} (evs : list Event) (a : A) (k : A -> Eff B) :
  bind (evs, Value a) k = (evs ++ fst (k a), snd (k a)).
Proof. rewrite bind_unfold; reflexivity. Qed.

Lemma bind_emit {B : Type} (e : Event) (k : unit -> Eff B) :
  bind (emit e) k = (e :: fst (k tt), snd (k tt)).
Proof. unfold emit; rewrite bind_value; reflexivity. Qed.

Lemma bind_log {B : Type} (m : Message) (k : unit -> Eff B) :
  bind (log m) k = (EvLog m :: fst (k tt), snd (k tt)).
Proof. apply bind_emit. Qed.

Lemma bind_ret {A B : Type} (a : A) (k : A -> Eff B) :
  bind (ret a) k = k a.
Proof. unfold ret; rewrite bind_value; destruct (k a); reflexivity. Qed.

Lemma bind_throw {A B : Type} (e : Error) (k : A -> Eff B) :
  bind (throw e) k = ([], Thrown e).
Proof. reflexivity. Qed.

Lemma pair_eta {A B : Type} (p : A * B) : p = (fst p, snd p).
Proof. destruct p; reflexivity. Qed.

#[local] Arguments bind : simpl never.

(** *** Observations distribute over the events of a run *)

Lemma fetches_app (a b : list Event) : fetches (a ++ b) = fetches a ++ fetches b.
Proof.
  induction a as [| e a IH]; simpl; [reflexivity |].
  destruct e; simpl; rewrite ?IH; reflexivity.
Qed.

Lemma progressLines_app (a b : list Event) :
  progressLines (a ++ b) = progressLines a ++ progressLines b.
Proof.
  induction a as [| e a IH]; simpl; [reflexivity |].
  destruct e; simpl; rewrite ?IH; reflexivity.
Qed.

Lemma string_app_assoc (a b c : string) : ((a ++ b) ++ c = a ++ (b ++ c))%string.
Proof. induction a; simpl; congruence. Qed.

Lemma string_app_nil_r (a : string) : (a ++ "" = a)%string.
Proof. induction a; simpl; congruence. Qed.

Lemma written_app (a b : list Event) : written (a ++ b) = (written a ++ written b)%string.
Proof.
  induction a as [| e a IH]; simpl; [reflexivity |].
  destruct e; simpl; rewrite ?IH; try reflexivity.
  now rewrite string_app_assoc.
Qed.

Lemma onlyWrites_fetches (w : list Event) : onlyWrites w = true -> fetches w = [].
Proof.
  induction w as [| e w IH]; simpl; [reflexivity |].
  destruct e; simpl; try discriminate; auto.
Qed.

Lemma onlyWrites_progress (w : list Event) : onlyWrites w = true -> progressLines w = [].
Proof.
  induction w as [| e w IH]; simpl; [reflexivity |].
  destruct e; simpl; try discriminate; auto.
Qed.

Lemma onlyWrites_app (a b : list Event) :
  onlyWrites (a ++ b) = onlyWrites a && onlyWrites b.
Proof. apply forallb_app. Qed.

Section Pagination.

Variable JSON_parse : string -> option json.
Variable JSON_stringify : json -> string.

Local Abbreviation writeRows := (writeRows JSON_stringify).
Local Abbreviation iteration := (iteration JSON_parse JSON_stringify).
Local Abbreviation loop := (loop JSON_parse JSON_stringify).
Local Abbreviation pageRows := (pageRows JSON_parse).
Local Abbreviation servesRows := (servesRows JSON_parse).
Local Abbreviation committedText := (committedText JSON_parse JSON_stringify).

(** *** The writes of one JSON page *)

Lemma writeRows_run (rows : list json) (index : nat) (first : bool) :
  exists w,
    writeRows rows index first = (w, Value (match rows with [] => first | _ => false end)) /\
    onlyWrites w = true /\
    (rows <> [] -> w <> []) /\
    written w = recordsText (first && (index =? 0)%nat) (map JSON_stringify rows).
Proof.
  revert index first.
  induction rows as [| row rest IH]; intros index first.
  - exists []. simpl. repeat split; try reflexivity. intros H; now elim H.
  - destruct (IH (S index) false) as (w & Hrun & Hw & _ & Htext).
    replace (match rest with [] => false | _ :: _ => false end) with false in Hrun
      by (destruct rest; reflexivity).
    change (writeRows (row :: rest) index first) with
      ((if negb first || (0 <? index)%nat
        then emit (EvWrite ("," ++ LF)%string) else ret tt) ;;
       emit (EvWrite ("  " ++ JSON_stringify row)%string) ;;
       writeRows rest (S index) false).
    assert (Hsep : negb first || (0 <? index)%nat = negb (first && (index =? 0)%nat)).
    { destruct first, index; reflexivity. }
    rewrite Hsep.
    destruct (first && (index =? 0)%nat) eqn:Hfirst; simpl negb; cbv iota.
    + rewrite bind_ret, bind_emit, Hrun. cbn [fst snd].
      eexists; split; [reflexivity |].
      repeat split.
      * simpl. exact Hw.
      * discriminate.
      * simpl. rewrite Htext. simpl. reflexivity.
    + rewrite bind_emit, bind_emit, Hrun. cbn [fst snd].
      eexists; split; [reflexivity |].
      repeat split.
      * simpl. exact Hw.
      * discriminate.
      * simpl. rewrite Htext. simpl. reflexivity.
Qed.

(** *** One pass of the loop on a page of [k] rows *)

Lemma advance_run (rtd : option jsnum) (c : jsnum) (v : LoopVars) :
  advance rtd c v =
  ([EvProgress (downloadedRows v) (shownTotal rtd)],
   Value (Continue, {| offset := Js.add (offset v) c;
                       downloadedRows := downloadedRows v;
                       isFirstChunk := isFirstChunk v |})).
Proof. reflexivity. Qed.

Lemma fetchChunk_body (env : Env) (c o : jsnum) (body : string) :
  chunkResponse env c o = Body body ->
  fetchChunk env c o = ([EvFetchChunk c o], Value body).
Proof. intros H. unfold fetchChunk. rewrite bind_emit, H. reflexivity. Qed.

Lemma fetchChunk_error (env : Env) (c o : jsnum) :
  chunkResponse env c o = NetError ->
  fetchChunk env c o = ([EvFetchChunk c o], Thrown NetworkFailure).
Proof. intros H. unfold fetchChunk. rewrite bind_emit, H. reflexivity. Qed.

Lemma iteration_page (args : CliArgs) (env : Env) (rtd : option jsnum)
    (v : LoopVars) (c : jsnum) (body : string) (k : Z) :
  chunkLimitOf args rtd (downloadedRows v) = c ->
  Js.le c (Num 0) = false ->
  chunkResponse env c (offset v) = Body body ->
  pageRows (format args) body = Some k ->
  exists w,
    onlyWrites w = true /\ (0 < k -> w <> []) /\
    (0 < k -> written w = committedText (format args) (isFirstChunk v) body) /\
    iteration args env rtd v =
      if k <=? 0 then ([EvFetchChunk c (offset v)], Value (Break, v))
      else if Js.lt (Num k) c then
        (EvFetchChunk c (offset v) :: w,
         Value (Break, {| offset := offset v;
                          downloadedRows := downloadedRows v + k;
                          isFirstChunk := false |}))
      else
        (EvFetchChunk c (offset v) :: w ++ [EvProgress (downloadedRows v + k) (shownTotal rtd)],
         Value (Continue, {| offset := Js.add (offset v) c;
                             downloadedRows := downloadedRows v + k;
                             isFirstChunk := false |})).
Proof.
  intros Hc Hpos Hresp Hrows.
  unfold Download.iteration. rewrite Hc, Hpos.
  rewrite (fetchChunk_body _ _ _ _ Hresp), bind_value.
  unfold Trace.pageRows in Hrows. unfold Trace.committedText.
  destruct (format args).
  - (* text *)
    injection Hrows as Hk.
    destruct (List.length (split body) <=? 1)%nat eqn:Hlen.
    + apply Nat.leb_le in Hlen.
      exists []. split; [reflexivity | split; [lia | split; [lia |]]].
      replace (k <=? 0) with true by (symmetry; apply Z.leb_le; lia).
      reflexivity.
    + apply Nat.leb_gt in Hlen.
      replace (k <=? 0) with false by (symmetry; apply Z.leb_gt; lia).
      rewrite Hk.
      exists [EvWrite (if isFirstChunk v then body else join LF (slice1 (split body)))].
      split; [reflexivity | split; [discriminate |]].
      split; [intros _; simpl; apply string_app_nil_r |].
      destruct (isFirstChunk v); rewrite bind_emit;
        (destruct (Js.lt (Num k) c);
         [ reflexivity | rewrite advance_run; reflexivity ]).
  - (* JSON *)
    destruct (JSON_parse body) as [[ | | | | items | ] |]; try discriminate.
    injection Hrows as Hk.
    destruct items as [| row more].
    + simpl in Hk. subst k. exists [].
      split; [reflexivity | split; [lia | split; [lia | reflexivity]]].
    + destruct (writeRows_run (row :: more) 0 (isFirstChunk v))
        as (w & Hrun & Hw & Hne & Htext).
      replace (k <=? 0) with false
        by (symmetry; apply Z.leb_gt; rewrite <- Hk; simpl List.length; lia).
      rewrite Hk.
      exists w. split; [exact Hw | split; [intros _; apply Hne; discriminate |]].
      split; [intros _; rewrite Htext, andb_true_r; reflexivity |].
      rewrite Hrun, bind_value. cbn [fst snd].
      destruct (Js.lt (Num k) c).
      * simpl. rewrite app_nil_r. reflexivity.
      * rewrite advance_run. reflexivity.
Qed.

(** A pass that finds the budget exhausted issues no request. *)
Lemma iteration_exhausted (args : CliArgs) (env : Env) (rtd : option jsnum)
    (v : LoopVars) :
  Js.le (chunkLimitOf args rtd (downloadedRows v)) (Num 0) = true ->
  iteration args env rtd v = ([], Value (Break, v)).
Proof. intros H. unfold Download.iteration. rewrite H. reflexivity. Qed.

Lemma loop_step (fuel : nat) (args : CliArgs) (env : Env) (rtd : option jsnum)
    (v : LoopVars) :
  loop (S fuel) args env rtd v =
  match snd (iteration args env rtd v) with
  | Value (Break, v') => (fst (iteration args env rtd v), Value v')
  | Value (Continue, v') =>
      (fst (iteration args env rtd v) ++ fst (loop fuel args env rtd v'),
       snd (loop fuel args env rtd v'))
  | Thrown e => (fst (iteration args env rtd v), Thrown e)
  | Exited code => (fst (iteration args env rtd v), Exited code)
  | OutOfFuel => (fst (iteration args env rtd v), OutOfFuel)
  end.
Proof.
  simpl Download.loop. rewrite bind_unfold.
  destruct (iteration args env rtd v) as [evs [[[|] v'] | | |]]; simpl; try reflexivity.
  rewrite app_nil_r. reflexivity.
Qed.

(** *** Arithmetic of page counts *)

Lemma ceilDiv_zero (p : Z) : 0 < p -> ceilDiv 0 p = 0.
Proof. intros Hp. unfold ceilDiv. apply Z.div_small. lia. Qed.

Lemma ceilDiv_small (m p : Z) : 0 < m <= p -> ceilDiv m p = 1.
Proof.
  intros Hm. unfold ceilDiv.
  replace (m + p - 1) with (1 * p + (m - 1)) by lia.
  rewrite Z.div_add_l by lia. rewrite Z.div_small by lia. reflexivity.
Qed.

Lemma ceilDiv_step (m p : Z) : 0 < p -> ceilDiv m p = ceilDiv (m - p) p + 1.
Proof.
  intros Hp. unfold ceilDiv.
  replace (m + p - 1) with (m - p + p - 1 + 1 * p) by lia.
  rewrite Z.div_add by lia. reflexivity.
Qed.

Lemma div_step (m p : Z) : 0 < p -> m / p = (m - p) / p + 1.
Proof.
  intros Hp. replace m with (m - p + 1 * p) at 1 by lia.
  rewrite Z.div_add by lia. reflexivity.
Qed.

Lemma ceilDiv_nonneg (m p : Z) : 0 < p -> 0 <= m -> 0 <= ceilDiv m p.
Proof. intros Hp Hm. unfold ceilDiv. apply Z.div_pos; lia. Qed.

(** [ceil] and [floor] differ exactly when [p] does not divide [m]. *)
Lemma ceilDiv_floor (m p : Z) :
  0 < p -> ceilDiv m p + (if m mod p =? 0 then 1 else 0) = m / p + 1.
Proof.
  intros Hp. unfold ceilDiv.
  pose proof (Z.div_mod m p ltac:(lia)) as Hdm.
  pose proof (Z.mod_pos_bound m p Hp) as Hb.
  destruct (m mod p =? 0) eqn:Hz.
  - apply Z.eqb_eq in Hz.
    replace (m + p - 1) with ((m / p) * p + (p - 1)) by lia.
    rewrite Z.div_add_l by lia. rewrite (Z.div_small (p - 1)) by lia. lia.
  - apply Z.eqb_neq in Hz.
    replace (m + p - 1) with ((m / p + 1) * p + (m mod p - 1)) by lia.
    rewrite Z.div_add_l by lia. rewrite (Z.div_small (m mod p - 1)) by lia. lia.
Qed.

(** *** The loop against a source that serves exactly what is asked *)

Section Served.

Variable args : CliArgs.
Variable env : Env.
Variable P N : Z.
Hypothesis chunk_is_P : chunkSize args = Num P.
Hypothesis P_positive : 0 < P.
Hypothesis served : servesRows (format args) N env.

Lemma chunkLimit_unknown (rtd : option jsnum) (d : Z) :
  truthy_opt rtd = false -> chunkLimitOf args rtd d = Num P.
Proof.
  intros H. unfold chunkLimitOf. rewrite chunk_is_P.
  destruct rtd as [r |]; simpl in H |- *; [rewrite H |];
    simpl; now rewrite Z.min_id.
Qed.

Lemma chunkLimit_known (R d : Z) :
  R <> 0 -> chunkLimitOf args (Some (Num R)) d = Num (Z.min P (R - d)).
Proof.
  intros H. unfold chunkLimitOf. rewrite chunk_is_P. simpl.
  destruct (R =? 0) eqn:E; [apply Z.eqb_eq in E; contradiction |].
  reflexivity.
Qed.

(** Without a total to work towards the loop asks for full pages until
    one comes back short or empty. *)
Lemma loop_unknown_total (rtd : option jsnum) :
  truthy_opt rtd = false ->
  forall (n : nat) (o d : Z) (first : bool) (fuel : nat),
    0 <= o ->
    n = Z.to_nat (Z.max 0 (N - o) / P) ->
    (n < fuel)%nat ->
    exists evs v',
      loop fuel args env rtd
        {| offset := Num o; downloadedRows := d; isFirstChunk := first |}
      = (evs, Value v') /\
      downloadedRows v' = d + Z.max 0 (N - o) /\
      fetches evs = pagesFrom (S n) P o /\
      List.length (progressLines evs) = n.
Proof.
  intros Hrtd.
  induction n as [| n IH]; intros o d first fuel Ho Hn Hfuel;
    (destruct fuel as [| fuel]; [lia |]);
    rewrite loop_step;
    destruct (served P o P_positive Ho) as (body & Hresp & Hrows);
    destruct (iteration_page args env rtd
                {| offset := Num o; downloadedRows := d; isFirstChunk := first |}
                (Num P) body _ (chunkLimit_unknown rtd d Hrtd)
                ltac:(simpl; apply Z.leb_gt; lia) Hresp Hrows)
      as (w & Hw & Hne & Htext & Hit);
    rewrite Hit; clear Hit; cbn [downloadedRows offset].
  - (* the last page *)
    assert (Hsmall : Z.max 0 (N - o) < P).
    { destruct (Z_lt_ge_dec (Z.max 0 (N - o)) P) as [| Hge]; [assumption |].
      pose proof (div_step (Z.max 0 (N - o)) P P_positive) as Hd.
      assert (0 <= (Z.max 0 (N - o) - P) / P) by (apply Z.div_pos; lia). lia. }
    rewrite (Z.min_r P) by lia.
    destruct (Z.max 0 (N - o) <=? 0) eqn:Hz.
    + apply Z.leb_le in Hz. cbn [fst snd].
      eexists; eexists; split; [reflexivity |].
      split; [cbn; lia | split; reflexivity].
    + simpl Js.lt. replace (Z.max 0 (N - o) <? P) with true
        by (symmetry; apply Z.ltb_lt; lia).
      cbn [fst snd].
      eexists; eexists; split; [reflexivity |].
      split; [reflexivity |].
      split; simpl; [rewrite (onlyWrites_fetches w Hw); reflexivity
                    | rewrite (onlyWrites_progress w Hw); reflexivity].
  - (* a full page, and more to come *)
    assert (Hfull : P <= Z.max 0 (N - o)).
    { destruct (Z_lt_ge_dec (Z.max 0 (N - o)) P) as [Hlt |]; [| lia].
      rewrite Z.div_small in Hn by lia. discriminate. }
    rewrite (Z.min_l P) by lia.
    replace (P <=? 0) with false by (symmetry; apply Z.leb_gt; lia).
    simpl Js.lt. rewrite Z.ltb_irrefl. cbn [fst snd]. simpl Js.add.
    destruct (IH (o + P) (d + P) false fuel ltac:(lia)) as (evs & v' & Hrun & Hd & Hf & Hp).
    { replace (Z.max 0 (N - (o + P))) with (Z.max 0 (N - o) - P) by lia.
      pose proof (div_step (Z.max 0 (N - o)) P P_positive). lia. }
    { lia. }
    rewrite Hrun. cbn [fst snd].
    eexists; eexists; split; [reflexivity |].
    split; [lia |].
    split.
    + simpl. rewrite !fetches_app, (onlyWrites_fetches w Hw). simpl.
      rewrite Hf. reflexivity.
    + simpl. rewrite !progressLines_app, (onlyWrites_progress w Hw). simpl.
      rewrite Hp. reflexivity.
Qed.

(** With a total [R] to work towards, no larger than what the source
    holds, every page is full and the loop stops on its own count. *)
Lemma loop_known_total (R : Z) :
  R <= N ->
  forall (n : nat) (o : Z) (first : bool) (fuel : nat),
    0 <= o -> o <= R -> R <> 0 ->
    n = Z.to_nat (ceilDiv (R - o) P) ->
    (n < fuel)%nat ->
    exists evs v',
      loop fuel args env (Some (Num R))
        {| offset := Num o; downloadedRows := o; isFirstChunk := first |}
      = (evs, Value v') /\
      downloadedRows v' = R /\
      fetches evs = requestsFrom n P R o /\
      List.length (progressLines evs) = n.
Proof.
  intros HRN.
  induction n as [| n IH]; intros o first fuel Ho HoR HR Hn Hfuel;
    (destruct fuel as [| fuel]; [lia |]);
    rewrite loop_step.
  - (* nothing left to ask for *)
    assert (R - o = 0).
    { destruct (Z.eq_dec (R - o) 0) as [| Hne]; [assumption |].
      destruct (Z_le_gt_dec (R - o) P).
      - rewrite ceilDiv_small in Hn by lia. discriminate.
      - rewrite ceilDiv_step in Hn by lia.
        pose proof (ceilDiv_nonneg (R - o - P) P P_positive ltac:(lia)). lia. }
    rewrite iteration_exhausted.
    + cbn [fst snd]. eexists; eexists; split; [reflexivity |].
      split; [cbn; lia | split; reflexivity].
    + cbn [downloadedRows]. rewrite chunkLimit_known by assumption.
      simpl. apply Z.leb_le. lia.
  - assert (Hleft : 0 < R - o).
    { destruct (Z.eq_dec (R - o) 0) as [Hz |]; [| lia].
      rewrite Hz, ceilDiv_zero in Hn by lia. discriminate. }
    set (c := Z.min P (R - o)).
    assert (Hc : 0 < c) by (unfold c; lia).
    destruct (served c o Hc Ho) as (body & Hresp & Hrows).
    replace (Z.min c (Z.max 0 (N - o))) with c in Hrows by lia.
    destruct (iteration_page args env (Some (Num R))
                {| offset := Num o; downloadedRows := o; isFirstChunk := first |}
                (Num c) body c (chunkLimit_known R o HR)
                ltac:(simpl; apply Z.leb_gt; lia) Hresp Hrows)
      as (w & Hw & Hne & Htext & Hit).
    rewrite Hit; clear Hit; cbn [downloadedRows offset].
    replace (c <=? 0) with false by (symmetry; apply Z.leb_gt; lia).
    simpl Js.lt. rewrite Z.ltb_irrefl. cbn [fst snd]. simpl Js.add.
    destruct (IH (o + c) false fuel ltac:(lia) ltac:(lia) HR) as (evs & v' & Hrun & Hd & Hf & Hp).
    { destruct (Z_le_gt_dec (R - o) P).
      - replace (R - (o + c)) with 0 by lia. rewrite ceilDiv_zero by lia.
        rewrite ceilDiv_small in Hn by lia. lia.
      - replace (R - (o + c)) with (R - o - P) by lia.
        rewrite ceilDiv_step in Hn by lia.
        pose proof (ceilDiv_nonneg (R - o - P) P P_positive ltac:(lia)). lia. }
    { lia. }
    rewrite Hrun. cbn [fst snd].
    eexists; eexists; split; [reflexivity |].
    split; [exact Hd |].
    split.
    + simpl. rewrite !fetches_app, (onlyWrites_fetches w Hw). simpl.
      rewrite Hf. fold c.
      destruct n as [| n']; [reflexivity |].
      replace (o + P) with (o + c); [reflexivity |].
      destruct (Z_le_gt_dec (R - o) P); [| lia].
      rewrite ceilDiv_small in Hn by lia. lia.
    + simpl. rewrite !progressLines_app, (onlyWrites_progress w Hw). simpl.
      rewrite Hp. reflexivity.
Qed.

End Served.

Lemma requestsFrom_length (n : nat) (p rows off : Z) :
  List.length (requestsFrom n p rows off) = n.
Proof. revert off; induction n; intros; simpl; auto. Qed.

Lemma pagesFrom_length (n : nat) (p off : Z) :
  List.length (pagesFrom n p off) = n.
Proof. revert off; induction n; intros; simpl; auto. Qed.

Lemma requestsFrom_capped (n : nat) (p rows off : Z) :
  Forall (fun r => exists c o, r = (Num c, Num o) /\ c <= p /\ c <= rows - o)
         (requestsFrom n p rows off).
Proof.
  revert off; induction n as [| n IH]; intros off; simpl; constructor.
  - exists (Z.min p (rows - off)), off. split; [reflexivity | lia].
  - apply IH.
Qed.

(** *** Pages that end the loop *)

Lemma split_nonempty (s : string) : (1 <= List.length (split s))%nat.
Proof.
  induction s as [| c s IH]; simpl; [lia |].
  destruct (Ascii.eqb c nl); simpl; [lia |].
  destruct (split s); simpl in *; lia.
Qed.

Lemma pageRows_nonneg (f : Format) (body : string) (k : Z) :
  pageRows f body = Some k -> 0 <= k.
Proof.
  unfold Trace.pageRows. destruct f.
  - intros H. injection H as <-. pose proof (split_nonempty body). lia.
  - destruct (JSON_parse body) as [[ | | | | items | ] |]; try discriminate.
    intros H. injection H as <-. lia.
Qed.

(** A page with at least as many rows as were asked for is committed and
    reported, and the loop goes on from the next offset. *)
Lemma loop_full_page (args : CliArgs) (env : Env) (rtd : option jsnum)
    (v : LoopVars) (fuel : nat) (c k : Z) (body : string) :
  chunkLimitOf args rtd (downloadedRows v) = Num c -> 0 < c ->
  chunkResponse env (Num c) (offset v) = Body body ->
  pageRows (format args) body = Some k -> c <= k ->
  let v' := {| offset := Js.add (offset v) (Num c);
               downloadedRows := downloadedRows v + k;
               isFirstChunk := false |} in
  exists w,
    onlyWrites w = true /\ w <> [] /\
    written w = committedText (format args) (isFirstChunk v) body /\
    loop (S fuel) args env rtd v =
      (EvFetchChunk (Num c) (offset v) ::
         w ++ [EvProgress (downloadedRows v + k) (shownTotal rtd)] ++
         fst (loop fuel args env rtd v'),
       snd (loop fuel args env rtd v')).
Proof.
  intros Hc Hpos Hresp Hrows Hfull v'.
  destruct (iteration_page args env rtd v (Num c) body k Hc
              ltac:(simpl; apply Z.leb_gt; lia) Hresp Hrows)
    as (w & Hw & Hne & Htext & Hit).
  exists w. split; [exact Hw |]. split; [apply Hne; lia |].
  split; [apply Htext; lia |].
  rewrite loop_step, Hit.
  replace (k <=? 0) with false by (symmetry; apply Z.leb_gt; lia).
  simpl Js.lt. replace (k <? c) with false by (symmetry; apply Z.ltb_ge; lia).
  cbn [fst snd app]. rewrite <- app_assoc. reflexivity.
Qed.

(** A page with fewer rows than were asked for is the last one: its rows,
    if any, are committed and no other request follows. *)
Lemma loop_last_page (args : CliArgs) (env : Env) (rtd : option jsnum)
    (v : LoopVars) (fuel : nat) (c k : Z) (body : string) :
  chunkLimitOf args rtd (downloadedRows v) = Num c -> 0 < c ->
  chunkResponse env (Num c) (offset v) = Body body ->
  pageRows (format args) body = Some k -> k < c ->
  exists w v',
    loop (S fuel) args env rtd v = (EvFetchChunk (Num c) (offset v) :: w, Value v') /\
    onlyWrites w = true /\
    downloadedRows v' = downloadedRows v + k /\
    offset v' = offset v /\
    (k = 0 -> w = [] /\ v' = v) /\
    (0 < k -> written w = committedText (format args) (isFirstChunk v) body).
Proof.
  intros Hc Hpos Hresp Hrows Hshort.
  pose proof (pageRows_nonneg _ _ _ Hrows) as Hk.
  destruct (iteration_page args env rtd v (Num c) body k Hc
              ltac:(simpl; apply Z.leb_gt; lia) Hresp Hrows)
    as (w & Hw & Hne & Htext & Hit).
  rewrite loop_step, Hit.
  destruct (k <=? 0) eqn:Hz.
  - apply Z.leb_le in Hz. assert (k = 0) by lia. subst k.
    exists [], v. cbn [fst snd].
    repeat (split; [first [reflexivity | lia] |]).
    split; [intros _; split; reflexivity | lia].
  - apply Z.leb_gt in Hz.
    simpl Js.lt. replace (k <? c) with true by (symmetry; apply Z.ltb_lt; lia).
    cbn [fst snd].
    eexists w, _. split; [reflexivity |].
    split; [exact Hw |].
    split; [reflexivity |]. split; [reflexivity |].
    split; [lia | exact Htext].
Qed.


(** *** The records of a JSON-mode run *)

Lemma recordsText_app (first : bool) (a b : list string) :
  recordsText first (a ++ b) =
  (recordsText first a ++ recordsText (first && isEmpty a) b)%string.
Proof.
  revert first; induction a as [| r a IH]; intros first; simpl.
  - now rewrite andb_true_r.
  - rewrite IH, andb_false_r. simpl.
    rewrite !string_app_assoc. simpl. rewrite !string_app_assoc. reflexivity.
Qed.

Lemma rowsOf_app (env : Env) (a b : list (jsnum * jsnum)) :
  rowsOf JSON_parse env (a ++ b) = rowsOf JSON_parse env a ++ rowsOf JSON_parse env b.
Proof. unfold rowsOf. apply flat_map_app. Qed.

Lemma isEmpty_app {A : Type} (a b : list A) : isEmpty (a ++ b) = isEmpty a && isEmpty b.
Proof. destruct a; reflexivity. Qed.

Lemma isEmpty_map {A B : Type} (f : A -> B) (a : list A) : isEmpty (map f a) = isEmpty a.
Proof. destruct a; reflexivity. Qed.

(** What one pass writes in JSON mode is the text of the records of the
    page it fetched, whatever the page and however the pass ends. *)
Lemma iteration_json (args : CliArgs) (env : Env) (rtd : option jsnum) (v : LoopVars) :
  format args = Json ->
  let run := iteration args env rtd v in
  let rows := rowsOf JSON_parse env (fetches (fst run)) in
  written (fst run) = recordsText (isFirstChunk v) (map JSON_stringify rows) /\
  (forall ctl v', snd run = Value (ctl, v') ->
     isFirstChunk v' = isFirstChunk v && isEmpty rows).
Proof.
  intros Hjson. unfold Download.iteration.
  destruct (Js.le _ _).
  { simpl. split; [reflexivity |]. intros ctl v' H. injection H as _ <-.
    now rewrite andb_true_r. }
  set (c := chunkLimitOf args rtd (downloadedRows v)).
  destruct (chunkResponse env c (offset v)) as [| body] eqn:Hresp.
  { rewrite (fetchChunk_error _ _ _ Hresp). simpl. unfold rowsOf. simpl.
    rewrite Hresp. simpl. split; [reflexivity | discriminate]. }
  rewrite (fetchChunk_body _ _ _ _ Hresp), bind_value, Hjson.
  assert (Hone : forall evs, fetches evs = [] ->
            rowsOf JSON_parse env (fetches (EvFetchChunk c (offset v) :: evs)) =
            match JSON_parse body with Some (JArr items) => items | _ => [] end).
  { intros evs He. simpl. rewrite He. unfold rowsOf. simpl. rewrite Hresp.
    now rewrite app_nil_r. }
  destruct (JSON_parse body) as [[ | | | | items | ] |] eqn:Hparse;
    try (cbn [fst snd ret throw app]; rewrite ?app_nil_r; rewrite (Hone [] eq_refl); simpl;
         split; [reflexivity |];
         first [ discriminate
               | intros ctl v' H; injection H as _ <-; now rewrite andb_true_r ]).
  destruct items as [| row more].
  { cbn [fst snd ret app]. rewrite ?app_nil_r. rewrite (Hone [] eq_refl). simpl.
    split; [reflexivity |]. intros ctl v' H. injection H as _ <-.
    now rewrite andb_true_r. }
  destruct (writeRows_run (row :: more) 0 (isFirstChunk v))
    as (w & Hrun & Hw & _ & Htext).
  rewrite Hrun, bind_value. rewrite andb_true_r in Htext.
  destruct (Js.lt _ c).
  - cbn [fst snd ret app]. rewrite app_nil_r.
    rewrite (Hone w (onlyWrites_fetches w Hw)).
    split; [simpl; exact Htext |].
    intros ctl v' H. injection H as _ <-. simpl. now rewrite andb_false_r.
  - rewrite advance_run. cbn [fst snd app].
    rewrite (Hone (w ++ _)) by (rewrite fetches_app, (onlyWrites_fetches w Hw); reflexivity).
    split.
    + simpl. rewrite written_app. simpl. rewrite string_app_nil_r. exact Htext.
    + intros ctl v' H. injection H as _ <-. simpl. now rewrite andb_false_r.
Qed.

Lemma loop_json (args : CliArgs) (env : Env) (rtd : option jsnum) :
  format args = Json ->
  forall (fuel : nat) (v : LoopVars),
    let run := loop fuel args env rtd v in
    let rows := rowsOf JSON_parse env (fetches (fst run)) in
    written (fst run) = recordsText (isFirstChunk v) (map JSON_stringify rows) /\
    (forall v', snd run = Value v' ->
       isFirstChunk v' = isFirstChunk v && isEmpty rows).
Proof.
  intros Hjson. induction fuel as [| fuel IH]; intros v.
  - simpl. split; [reflexivity | discriminate].
  - cbv zeta. rewrite loop_step.
    destruct (iteration_json args env rtd v Hjson) as [Htext Hfirst].
    destruct (iteration args env rtd v) as [evs [[[|] v1] | e | code |]];
      cbn [fst snd] in *;
      try (split; [exact Htext | first [discriminate | idtac]]).
    + (* the loop goes on *)
      destruct (IH v1) as [Htext' Hfirst'].
      rewrite fetches_app, rowsOf_app, map_app, recordsText_app, written_app.
      rewrite Htext, Htext', (Hfirst _ _ eq_refl), isEmpty_map.
      split; [reflexivity |].
      intros v' Hv'. rewrite (Hfirst' v' Hv'), (Hfirst _ _ eq_refl).
      rewrite isEmpty_app, andb_assoc. reflexivity.
    + intros v' H. injection H as <-. exact (Hfirst _ _ eq_refl).
Qed.

(** The framed records are an array in the syntax of the specification. *)
Lemma recordsText_elements (r : string) (rs : list string) :
  Elements (r :: rs) (LF ++ recordsText true (r :: rs) ++ LF)%string.
Proof.
  assert (H : forall r rs,
             Elements (r :: rs) ((LF ++ "  ") ++ r ++ recordsText false rs ++ LF)%string).
  { clear r rs. intros r rs. revert r.
    induction rs as [| r' rs IH]; intros r.
    - replace (recordsText false [] ++ LF)%string with LF by reflexivity.
      apply ElemLast; reflexivity.
    - replace (recordsText false (r' :: rs) ++ LF)%string
        with ("" ++ "," ++ ((LF ++ "  ") ++ r' ++ recordsText false rs ++ LF))%string
        by (simpl; rewrite !string_app_assoc; reflexivity).
      apply ElemMore; [reflexivity | reflexivity | apply IH]. }
  specialize (H r rs).
  replace (LF ++ recordsText true (r :: rs) ++ LF)%string
    with ((LF ++ "  ") ++ r ++ recordsText false rs ++ LF)%string; [exact H |].
  simpl. rewrite !string_app_assoc. reflexivity.
Qed.

Lemma arrayFile_syntax (records : list string) :
  ArrayText records (arrayFile records).
Proof.
  unfold arrayFile. destruct records as [| r rs].
  - change ("[" ++ LF ++ recordsText true [] ++ LF ++ "]" ++ LF)%string
      with ("[" ++ (LF ++ LF) ++ "]" ++ LF)%string.
    apply ArrEmpty; reflexivity.
  - replace ("[" ++ LF ++ recordsText true (r :: rs) ++ LF ++ "]" ++ LF)%string
      with ("[" ++ (LF ++ recordsText true (r :: rs) ++ LF) ++ "]" ++ LF)%string.
    + apply ArrRecords; [apply recordsText_elements | reflexivity].
    + simpl. rewrite !string_app_assoc. reflexivity.
Qed.

(** *** A source that serves a table *)

Lemma rowsAt_length {A : Type} (rows : list A) (cap off : Z) :
  0 < cap -> 0 <= off ->
  Z.of_nat (List.length (rowsAt rows cap off))
  = Z.min cap (Z.max 0 (Z.of_nat (List.length rows) - off)).
Proof.
  intros Hcap Hoff. unfold rowsAt. rewrite length_firstn, length_skipn. lia.
Qed.

(** The loop counts the arrays of such a source as the rows they hold. *)
Lemma served_table_counts (rows : list json) (env : Env) :
  servesTable JSON_parse rows env ->
  servesRows Json (Z.of_nat (List.length rows)) env.
Proof.
  intros Hserved cap off Hcap Hoff.
  destruct (Hserved cap off Hcap Hoff) as (body & Hresp & Hparse).
  exists body. split; [exact Hresp |].
  unfold Trace.pageRows. rewrite Hparse, (rowsAt_length rows cap off Hcap Hoff).
  reflexivity.
Qed.

Lemma firstn_plus {A : Type} (a b : nat) (l : list A) :
  firstn (a + b) l = firstn a l ++ firstn b (skipn a l).
Proof.
  revert l. induction a as [| a IH]; intros l; [reflexivity |].
  destruct l as [| x l]; cbn [Nat.add firstn skipn app].
  - now rewrite firstn_nil.
  - now rewrite IH.
Qed.

(** Two neighbouring windows of a table make one. *)
Lemma rowsAt_app {A : Type} (rows : list A) (c m off : Z) :
  0 <= c -> 0 <= m -> 0 <= off ->
  rowsAt rows c off ++ rowsAt rows m (off + c) = rowsAt rows (c + m) off.
Proof.
  intros Hc Hm Hoff. unfold rowsAt.
  rewrite (Z2Nat.inj_add c m Hc Hm), firstn_plus, skipn_skipn.
  rewrite (Z2Nat.inj_add off c Hoff Hc), (Nat.add_comm (Z.to_nat c)). reflexivity.
Qed.

Lemma rowsAt_all {A : Type} (rows : list A) (c : Z) :
  Z.of_nat (List.length rows) <= c -> rowsAt rows c 0 = rows.
Proof.
  intros Hc. unfold rowsAt. cbn [Z.to_nat skipn]. apply firstn_all2. lia.
Qed.

Lemma rowsOf_page (rows : list json) (env : Env) (c off : Z) :
  servesTable JSON_parse rows env -> 0 < c -> 0 <= off ->
  rowsOf JSON_parse env [(Num c, Num off)] = rowsAt rows c off.
Proof.
  intros Hserved Hc Hoff.
  destruct (Hserved c off Hc Hoff) as (body & Hresp & Hparse).
  cbn [rowsOf flat_map fst snd]. rewrite Hresp, Hparse. apply app_nil_r.
Qed.

(** The rows of a run of full-page requests. *)
Lemma rowsOf_pagesFrom (rows : list json) (env : Env) (p : Z) :
  servesTable JSON_parse rows env -> 0 < p ->
  forall (n : nat) (off : Z),
    0 <= off ->
    rowsOf JSON_parse env (pagesFrom n p off) = rowsAt rows (Z.of_nat n * p) off.
Proof.
  intros Hserved Hp. induction n as [| n IH]; intros off Hoff.
  { unfold rowsAt. reflexivity. }
  cbn [pagesFrom].
  change ((Num p, Num off) :: pagesFrom n p (off + p))
    with ([(Num p, Num off)] ++ pagesFrom n p (off + p)).
  rewrite (rowsOf_app env), (rowsOf_page rows env p off Hserved Hp Hoff), IH by lia.
  rewrite rowsAt_app by lia. f_equal. lia.
Qed.

(** The rows of the requests that work towards a total. *)
Lemma rowsOf_requestsFrom (rows : list json) (env : Env) (p total : Z) :
  servesTable JSON_parse rows env -> 0 < p ->
  forall (n : nat) (off : Z),
    0 <= off -> off <= total ->
    n = Z.to_nat (ceilDiv (total - off) p) ->
    rowsOf JSON_parse env (requestsFrom n p total off) = rowsAt rows (total - off) off.
Proof.
  intros Hserved Hp. induction n as [| n IH]; intros off Hoff Hle Hn.
  { assert (total - off = 0) as ->.
    { destruct (Z.eq_dec (total - off) 0) as [E | E]; [exact E |].
      pose proof (ceilDiv_step (total - off) p Hp) as Hstep.
      pose proof (ceilDiv_nonneg (total - off - p) p Hp) as Hnn.
      destruct (Z_le_gt_dec (total - off) p) as [Hsmall | Hbig].
      - rewrite ceilDiv_small in Hn by lia. discriminate.
      - specialize (Hnn ltac:(lia)). lia. }
    reflexivity. }
  assert (Hrest : 0 < total - off).
  { destruct (Z_le_gt_dec (total - off) 0) as [Hz | Hz]; [| lia].
    assert (total - off = 0) as Hzero by lia.
    rewrite Hzero, ceilDiv_zero in Hn by lia. discriminate. }
  cbn [requestsFrom].
  change ((Num (Z.min p (total - off)), Num off) :: requestsFrom n p total (off + p))
    with ([(Num (Z.min p (total - off)), Num off)] ++ requestsFrom n p total (off + p)).
  rewrite (rowsOf_app env),
    (rowsOf_page rows env (Z.min p (total - off)) off Hserved ltac:(lia) Hoff).
  destruct (Z_le_gt_dec (total - off) p) as [Hsmall | Hbig].
  - rewrite ceilDiv_small in Hn by lia.
    assert (n = 0%nat) as -> by lia. cbn [requestsFrom rowsOf flat_map].
    rewrite app_nil_r. f_equal. lia.
  - rewrite (ceilDiv_step (total - off) p Hp) in Hn.
    pose proof (ceilDiv_nonneg (total - off - p) p Hp ltac:(lia)) as Hnn.
    rewrite IH; [| lia | lia |].
    + replace (Z.min p (total - off)) with p by lia.
      rewrite rowsAt_app by lia. f_equal. lia.
    + replace (total - (off + p)) with (total - off - p) by lia. lia.
Qed.

(** *** Page counts *)

(** C1 (amended).  In JSON mode, for a page size [P > 0] and a source
    that holds a table of [N] rows and serves exactly the
    [min(cap, remaining)] rows asked for, a download without a row limit
    commits the [N] rows of the table: the pages it fetched hold them, in
    order, and the records written are theirs.  It issues [ceil(N / P)]
    requests when the loop works towards the pre-counted total [N > 0];
    when it has no total (the count was skipped) it issues
    [floor(N / P) + 1] requests: [ceil(N / P)], and one more, empty, page
    when [P] divides [N]. *)
Theorem C1_requests_without_limit (args : CliArgs) (env : Env) (rows : list json)
    (P : Z) (totalRows : option jsnum) (fuel : nat) :
  format args = Json ->
  chunkSize args = Num P -> 0 < P ->
  servesTable JSON_parse rows env ->
  truthy_opt (limit args) = false ->
  totalRows = None \/
  (totalRows = Some (Num (Z.of_nat (List.length rows))) /\ rows <> []) ->
  (Z.to_nat (Z.of_nat (List.length rows) / P) + 1 < fuel)%nat ->
  exists evs v,
    loop fuel args env (Js.or (limit args) totalRows) start = (evs, Value v) /\
    rowsOf JSON_parse env (fetches evs) = rows /\
    written evs = recordsText true (map JSON_stringify rows) /\
    downloadedRows v = Z.of_nat (List.length rows) /\
    Z.of_nat (List.length (fetches evs)) =
      ceilDiv (Z.of_nat (List.length rows)) P +
      (if negb (truthy_opt totalRows) && (Z.of_nat (List.length rows) mod P =? 0)
       then 1 else 0).
Proof.
  intros Hjson HP Hpos Htable Hlimit Htotal Hfuel.
  pose proof (served_table_counts rows env Htable) as Hserved.
  rewrite <- Hjson in Hserved.
  set (N := Z.of_nat (List.length rows)) in *.
  assert (HN : 0 <= N) by (unfold N; lia).
  assert (Htext : forall run : Eff LoopVars,
             run = loop fuel args env (Js.or (limit args) totalRows) start ->
             rowsOf JSON_parse env (fetches (fst run)) = rows ->
             written (fst run) = recordsText true (map JSON_stringify rows)).
  { intros run -> Hrows.
    destruct (loop_json args env (Js.or (limit args) totalRows) Hjson fuel start)
      as [Hwritten _].
    rewrite Hwritten, Hrows. reflexivity. }
  revert Htext. unfold Js.or. rewrite Hlimit. intros Htext.
  destruct Htotal as [-> | [-> Hrows]].
  - destruct (loop_unknown_total args env P N HP Hpos Hserved None eq_refl
                (Z.to_nat (N / P)) 0 0 true fuel ltac:(lia))
      as (evs & v & Hrun & Hd & Hf & _).
    { replace (Z.max 0 (N - 0)) with N by lia. reflexivity. }
    { lia. }
    assert (Hfetched : rowsOf JSON_parse env (fetches evs) = rows).
    { rewrite Hf, (rowsOf_pagesFrom rows env P Htable Hpos) by lia.
      apply rowsAt_all. fold N.
      assert (0 <= N / P) by (apply Z.div_pos; lia).
      rewrite Nat2Z.inj_succ, Z2Nat.id by lia.
      pose proof (Z.mul_succ_div_gt N P Hpos). lia. }
    exists evs, v. split; [exact Hrun |].
    split; [exact Hfetched |].
    split; [apply (Htext (evs, Value v)); [symmetry; exact Hrun | exact Hfetched] |].
    split; [lia |].
    rewrite Hf, pagesFrom_length. simpl negb. simpl andb.
    pose proof (ceilDiv_floor N P Hpos) as Hc.
    assert (0 <= N / P) by (apply Z.div_pos; lia).
    destruct (N mod P =? 0); lia.
  - assert (HN0 : 0 < N).
    { unfold N. destruct rows; [now elim Hrows | cbn [List.length]; lia]. }
    destruct (loop_known_total args env P N HP Hpos Hserved N (Z.le_refl N)
                (Z.to_nat (ceilDiv (N - 0) P)) 0 true fuel
                ltac:(lia) ltac:(lia) ltac:(lia) eq_refl)
      as (evs & v & Hrun & Hd & Hf & _).
    { pose proof (ceilDiv_floor (N - 0) P Hpos) as Hc.
      replace (N - 0) with N in * by lia.
      assert (0 <= N / P) by (apply Z.div_pos; lia).
      destruct (N mod P =? 0); lia. }
    assert (Htruthy : truthy_opt (Some (Num N)) = true).
    { simpl. destruct (N =? 0) eqn:E; [apply Z.eqb_eq in E; lia | reflexivity]. }
    assert (Hfetched : rowsOf JSON_parse env (fetches evs) = rows).
    { rewrite Hf, (rowsOf_requestsFrom rows env P N Htable Hpos _ 0) by (lia || reflexivity).
      replace (N - 0) with N by lia. apply rowsAt_all. fold N. lia. }
    exists evs, v. split; [exact Hrun |].
    split; [exact Hfetched |].
    split; [apply (Htext (evs, Value v)); [symmetry; exact Hrun | exact Hfetched] |].
    split; [exact Hd |].
    rewrite Hf, requestsFrom_length.
    replace (N - 0) with N by lia.
    rewrite Htruthy. simpl.
    pose proof (ceilDiv_nonneg N P Hpos HN). lia.
Qed.

(** *** The limit and the short page, in JSON mode *)

(** What the loop writes for a page that is an array. *)
Lemma committedText_json (first : bool) (body : string) (items : list json) :
  JSON_parse body = Some (JArr items) ->
  committedText Json first body = recordsText first (map JSON_stringify items).
Proof. intros H. unfold Trace.committedText. rewrite H. reflexivity. Qed.

(** X21.  In JSON mode a row limit [0 < L < N] is kept: against a source
    that serves the rows asked for, the loop fetches and writes exactly the
    first [L] rows of the table, in [ceil(L / P)] requests; each request is
    capped to the page size and to what is left to reach [L], so that a
    limit smaller than a page costs a single request for [L] rows. *)
Theorem limit_is_kept_in_json_mode (args : CliArgs) (env : Env) (rows : list json)
    (P L : Z) (totalRows : option jsnum) (fuel : nat) :
  format args = Json ->
  chunkSize args = Num P -> 0 < P ->
  servesTable JSON_parse rows env ->
  limit args = Some (Num L) -> 0 < L -> L < Z.of_nat (List.length rows) ->
  (Z.to_nat (ceilDiv L P) < fuel)%nat ->
  exists evs v,
    loop fuel args env (Js.or (limit args) totalRows) start = (evs, Value v) /\
    rowsOf JSON_parse env (fetches evs) = firstn (Z.to_nat L) rows /\
    written evs = recordsText true (map JSON_stringify (firstn (Z.to_nat L) rows)) /\
    downloadedRows v = L /\
    fetches evs = requestsFrom (Z.to_nat (ceilDiv L P)) P L 0 /\
    (L < P -> fetches evs = [(Num L, Num 0)]) /\
    Forall (fun r => exists c o, r = (Num c, Num o) /\ c <= P /\ c <= L - o)
           (fetches evs).
Proof.
  intros Hjson HP Hpos Htable Hlimit HL HLN Hfuel.
  pose proof (served_table_counts rows env Htable) as Hserved.
  rewrite <- Hjson in Hserved.
  assert (Hrtd : Js.or (limit args) totalRows = Some (Num L)).
  { unfold Js.or. rewrite Hlimit. simpl.
    destruct (L =? 0) eqn:E; [apply Z.eqb_eq in E; lia | reflexivity]. }
  rewrite Hrtd.
  destruct (loop_json args env (Some (Num L)) Hjson fuel start) as [Hwritten _].
  destruct (loop_known_total args env P (Z.of_nat (List.length rows)) HP Hpos Hserved
              L ltac:(lia)
              (Z.to_nat (ceilDiv (L - 0) P)) 0 true fuel
              ltac:(lia) ltac:(lia) ltac:(lia) eq_refl)
    as (evs & v & Hrun & Hd & Hf & _).
  { replace (L - 0) with L by lia. exact Hfuel. }
  change {| offset := Num 0; downloadedRows := 0; isFirstChunk := true |}
    with start in Hrun.
  rewrite Hrun in Hwritten. cbn [fst isFirstChunk start] in Hwritten.
  assert (Hfetched : rowsOf JSON_parse env (fetches evs) = firstn (Z.to_nat L) rows).
  { rewrite Hf, (rowsOf_requestsFrom rows env P L Htable Hpos _ 0) by (lia || reflexivity).
    replace (L - 0) with L by lia. reflexivity. }
  replace (L - 0) with L in Hf by lia.
  exists evs, v. split; [exact Hrun |].
  split; [exact Hfetched |].
  split; [rewrite Hwritten, Hfetched; reflexivity |].
  split; [exact Hd |].
  split; [exact Hf |].
  rewrite Hf. split.
  - intros HLP. rewrite ceilDiv_small by lia. simpl.
    replace (Z.min P (L - 0)) with L by lia. reflexivity.
  - apply requestsFrom_capped.
Qed.

(** X22.  In JSON mode a short page ends the loop.  A page whose array
    holds fewer rows than were asked for (none included) is the last: its
    records are written and no further request is made.  Once the counter
    has reached the total the loop works towards, the loop ends without
    another request.  So when pages 1 and 2 hold the 10 rows asked for and
    page 3 holds 7, the loop stops after page 3 with the 27 records of the
    three pages written, and never asks for page 4. *)
Theorem short_json_page_ends_loop (args : CliArgs) (env : Env)
    (rtd : option jsnum) (P : Z) :
  format args = Json ->
  chunkSize args = Num P ->
  (forall (v : LoopVars) (fuel : nat) (c : Z) (body : string) (items : list json),
      chunkLimitOf args rtd (downloadedRows v) = Num c -> 0 < c ->
      chunkResponse env (Num c) (offset v) = Body body ->
      JSON_parse body = Some (JArr items) ->
      Z.of_nat (List.length items) < c ->
      exists w v',
        loop (S fuel) args env rtd v
          = (EvFetchChunk (Num c) (offset v) :: w, Value v') /\
        fetches w = [] /\
        written w = recordsText (isFirstChunk v) (map JSON_stringify items) /\
        downloadedRows v' = downloadedRows v + Z.of_nat (List.length items) /\
        (items = [] -> w = [] /\ v' = v)) /\
  (forall (v : LoopVars) (fuel : nat) (R : Z),
      rtd = Some (Num R) -> R <> 0 -> R <= downloadedRows v ->
      loop (S fuel) args env rtd v = ([], Value v)) /\
  (forall (fuel : nat) (b1 b2 b3 : string) (i1 i2 i3 : list json),
      P = 10 ->
      truthy_opt rtd = false \/ (exists R, rtd = Some (Num R) /\ 30 <= R) ->
      chunkResponse env (Num 10) (Num 0) = Body b1 ->
      JSON_parse b1 = Some (JArr i1) -> List.length i1 = 10%nat ->
      chunkResponse env (Num 10) (Num 10) = Body b2 ->
      JSON_parse b2 = Some (JArr i2) -> List.length i2 = 10%nat ->
      chunkResponse env (Num 10) (Num 20) = Body b3 ->
      JSON_parse b3 = Some (JArr i3) -> List.length i3 = 7%nat ->
      (3 <= fuel)%nat ->
      exists evs v',
        loop fuel args env rtd start = (evs, Value v') /\
        fetches evs = [(Num 10, Num 0); (Num 10, Num 10); (Num 10, Num 20)] /\
        downloadedRows v' = 27 /\
        written evs = recordsText true (map JSON_stringify (i1 ++ i2 ++ i3))).
Proof.
  intros Hjson HP.
  assert (Hrows : forall body items,
             JSON_parse body = Some (JArr items) ->
             pageRows (format args) body = Some (Z.of_nat (List.length items))).
  { intros body items H. unfold Trace.pageRows. rewrite Hjson, H. reflexivity. }
  split; [| split].
  - intros v fuel c body items Hc Hpos Hresp Hparse Hshort.
    destruct (loop_last_page args env rtd v fuel c _ body Hc Hpos Hresp
                (Hrows body items Hparse) Hshort)
      as (w & v' & Hrun & Hw & Hd & _ & Hzero & Htext).
    exists w, v'. split; [exact Hrun |].
    split; [apply onlyWrites_fetches; exact Hw |].
    split; [| split; [exact Hd |]].
    + destruct items as [| item items].
      * destruct (Hzero eq_refl) as [-> _]. reflexivity.
      * rewrite Htext by (cbn [List.length]; lia).
        rewrite Hjson. apply committedText_json. exact Hparse.
    + intros ->. apply Hzero. reflexivity.
  - intros v fuel R -> HR Hreached.
    rewrite loop_step, iteration_exhausted; [reflexivity |].
    rewrite (chunkLimit_known args P HP R _ HR). simpl. apply Z.leb_le. lia.
  - intros fuel b1 b2 b3 i1 i2 i3 -> Hrtd H1 P1 L1 H2 P2 L2 H3 P3 L3 Hfuel.
    pose proof (Hrows b1 i1 P1) as R1. pose proof (Hrows b2 i2 P2) as R2.
    pose proof (Hrows b3 i3 P3) as R3. rewrite L1 in R1. rewrite L2 in R2. rewrite L3 in R3.
    assert (Hlimit : forall d, d <= 20 -> chunkLimitOf args rtd d = Num 10).
    { intros d Hd. destruct Hrtd as [Hu | (R & -> & HR)].
      - apply (chunkLimit_unknown args 10 HP); exact Hu.
      - rewrite (chunkLimit_known args 10 HP R d) by lia. f_equal. lia. }
    destruct fuel as [| [| [| fuel]]]; try lia.
    destruct (loop_full_page args env rtd start (S (S fuel)) 10 10 b1
                (Hlimit 0 ltac:(lia)) ltac:(lia) H1 R1 ltac:(lia))
      as (w1 & Hw1 & _ & Ht1 & Hrun1).
    rewrite Hrun1; clear Hrun1.
    change (Js.add (offset start) (Num 10)) with (Num 10).
    change (downloadedRows start + 10) with 10.
    change (isFirstChunk start) with true in Ht1.
    destruct (loop_full_page args env rtd
                {| offset := Num 10; downloadedRows := 10; isFirstChunk := false |}
                (S fuel) 10 10 b2
                (Hlimit 10 ltac:(lia)) ltac:(lia) H2 R2 ltac:(lia))
      as (w2 & Hw2 & _ & Ht2 & Hrun2).
    rewrite Hrun2; clear Hrun2. cbn [downloadedRows offset isFirstChunk] in *.
    change (Js.add (Num 10) (Num 10)) with (Num 20).
    change (10 + 10) with 20.
    destruct (loop_last_page args env rtd
                {| offset := Num 20; downloadedRows := 20; isFirstChunk := false |}
                fuel 10 7 b3
                (Hlimit 20 ltac:(lia)) ltac:(lia) H3 R3 ltac:(lia))
      as (w3 & v' & Hrun3 & Hw3 & Hd3 & _ & _ & Ht3).
    rewrite Hrun3; clear Hrun3. cbn [fst snd downloadedRows offset isFirstChunk] in *.
    eexists; exists v'. split; [reflexivity |].
    split; [| split; [lia |]].
    + simpl. rewrite !fetches_app. simpl. rewrite !fetches_app. simpl.
      rewrite (onlyWrites_fetches _ Hw1), (onlyWrites_fetches _ Hw2),
        (onlyWrites_fetches _ Hw3). reflexivity.
    + simpl. rewrite !written_app. simpl. rewrite !written_app. simpl.
      rewrite Ht1, Ht2, (Ht3 ltac:(lia)), Hjson.
      rewrite (committedText_json true b1 i1 P1), (committedText_json false b2 i2 P2),
        (committedText_json false b3 i3 P3).
      rewrite !map_app, !recordsText_app, !isEmpty_map.
      destruct i1; [discriminate L1 |]. destruct i2; [discriminate L2 |].
      cbn [isEmpty andb]. rewrite ?string_app_nil_r. reflexivity.
Qed.

(** *** The phases of [downloadDataset] *)

Lemma fetchMetadata_events (env : Env) :
  fst (fetchMetadata JSON_parse env) = [EvFetchMetadata] /\
  (forall code, snd (fetchMetadata JSON_parse env) <> Exited code) /\
  snd (fetchMetadata JSON_parse env) <> OutOfFuel.
Proof.
  unfold fetchMetadata. rewrite bind_emit.
  destruct (metadataResponse env) as [| data]; cbn [fst snd throw].
  { repeat split; discriminate. }
  destruct (JSON_parse data) as [metadata |]; cbn [fst snd throw].
  2: { repeat split; discriminate. }
  destruct metadata; cbn [fst snd throw]; try (repeat split; discriminate);
    destruct (columnsOf _); cbn [fst snd throw ret]; repeat split; discriminate.
Qed.

Lemma columnLines_run (cols : list Column) :
  exists logs,
    fold_right (fun col k => log (MsgColumn col) ;; k) (ret tt) cols = (logs, Value tt) /\
    quiet logs = true.
Proof.
  induction cols as [| col cols (logs & IH & Hq)]; simpl.
  - exists []. split; reflexivity.
  - rewrite bind_log, IH. exists (EvLog (MsgColumn col) :: logs).
    split; [reflexivity | exact Hq].
Qed.

Lemma quiet_app (a b : list Event) : quiet (a ++ b) = quiet a && quiet b.
Proof. apply forallb_app. Qed.

Lemma listColumns_run (metadata : DatasetMetadata) :
  exists logs, listColumns metadata = (logs, Value tt) /\ quiet logs = true.
Proof.
  unfold listColumns. destruct (columns metadata) as [| col cols] eqn:Hcols.
  - exists []. split; reflexivity.
  - destruct (columnLines_run (col :: cols)) as (logs & Hrun & Hq).
    rewrite bind_log, Hrun, bind_value. cbn [fst snd].
    eexists; split; [reflexivity |].
    simpl. rewrite quiet_app, Hq. reflexivity.
Qed.

Lemma preamble_quiet (metadata : DatasetMetadata) : quiet (preamble metadata) = true.
Proof.
  unfold preamble. destruct (listColumns_run metadata) as (logs & -> & Hq).
  exact Hq.
Qed.

Lemma suggestFilters_run (metadata : DatasetMetadata) :
  exists logs o,
    suggestFilters metadata = (logs, o) /\ quiet logs = true /\
    (o = Value tt \/ o = Thrown TypeError).
Proof.
  unfold suggestFilters. rewrite !bind_log.
  destruct (filterDateColumns (columns metadata)) as [[| col rest] |].
  - rewrite bind_ret. eexists; eexists; split; [reflexivity |]. split; [reflexivity | now left].
  - rewrite bind_log. cbn [fst snd log emit]. rewrite bind_value.
    eexists; eexists; split; [reflexivity |]. split; [reflexivity | now left].
  - eexists; eexists; split; [reflexivity |]. split; [reflexivity | now right].
Qed.

Lemma suggestFilters_ok (metadata : DatasetMetadata) (dateColumns : list Column) :
  filterDateColumns (columns metadata) = Some dateColumns ->
  exists logs, suggestFilters metadata = (logs, Value tt) /\ quiet logs = true.
Proof.
  intros H. unfold suggestFilters. rewrite !bind_log, H.
  destruct dateColumns as [| col rest].
  - rewrite bind_ret. eexists; split; reflexivity.
  - rewrite bind_log. cbn [fst snd log emit]. rewrite bind_value.
    eexists; split; reflexivity.
Qed.

Lemma suggestFilters_crash (metadata : DatasetMetadata) :
  filterDateColumns (columns metadata) = None ->
  suggestFilters metadata
  = ([EvLog MsgLargeDataset; EvLog MsgExampleFilters], Thrown TypeError).
Proof. intros H. unfold suggestFilters. rewrite !bind_log, H. reflexivity. Qed.

Lemma countRows_run (env : Env) :
  exists o,
    countRows JSON_parse env = ([EvCountRows], o) /\
    ((exists n, o = Value n) \/ (exists e, o = Thrown e)).
Proof.
  unfold countRows. rewrite bind_emit.
  destruct (countResponse env) as [| data]; cbn [fst snd throw].
  { eexists; split; [reflexivity | right; eexists; reflexivity]. }
  destruct (JSON_parse data) as [result |]; cbn [fst snd throw].
  2: { eexists; split; [reflexivity | right; eexists; reflexivity]. }
  destruct (index0 result) as [first |]; cbn [fst snd throw ret].
  - destruct (toString (orElse (countField first) (JStr "0"))); cbn [fst snd throw ret].
    + eexists; split; [reflexivity | left; eexists; reflexivity].
    + eexists; split; [reflexivity | right; eexists; reflexivity].
  - eexists; split; [reflexivity | right; eexists; reflexivity].
Qed.

(** When the count is skipped the block does nothing at all. *)
Lemma countAndConfirm_skipped (args : CliArgs) (env : Env) (metadata : DatasetMetadata) :
  noConfirm args = true \/ truthy_opt (limit args) = true ->
  countAndConfirm JSON_parse args env metadata = ([], Value None).
Proof.
  intros [H | H]; unfold countAndConfirm; rewrite H; simpl;
    [reflexivity | now rewrite andb_false_r].
Qed.

(** When it is not, the rows are counted, then the operator is asked, and
    the block hands over a total only after an affirmative answer.  It
    fails when the count fails, and when the hint for a large download
    without a filter meets a column whose name it cannot search. *)
Lemma countAndConfirm_gate (args : CliArgs) (env : Env) (metadata : DatasetMetadata) :
  noConfirm args = false -> truthy_opt (limit args) = false ->
  exists logs,
    quiet logs = true /\
    ((exists e,
        countRows JSON_parse env = ([EvCountRows], Thrown e) /\
        countAndConfirm JSON_parse args env metadata
        = (EvLog MsgCounting :: EvCountRows :: logs, Thrown e)) \/
     (exists n,
        countRows JSON_parse env = ([EvCountRows], Value n) /\
        Js.gt n (Num 50000) && negb (truthy_str (where_ args)) = true /\
        filterDateColumns (columns metadata) = None /\
        countAndConfirm JSON_parse args env metadata
        = (EvLog MsgCounting :: EvCountRows :: logs, Thrown TypeError)) \/
     (exists n,
        countRows JSON_parse env = ([EvCountRows], Value n) /\
        accepted (answer env) = true /\
        countAndConfirm JSON_parse args env metadata
        = (EvLog MsgCounting :: EvCountRows :: logs ++ [EvPrompt n], Value (Some n))) \/
     (exists n,
        countRows JSON_parse env = ([EvCountRows], Value n) /\
        accepted (answer env) = false /\
        countAndConfirm JSON_parse args env metadata
        = (EvLog MsgCounting :: EvCountRows ::
             logs ++ [EvPrompt n; EvLog MsgCancelled; EvExit 0],
           Exited 0))).
Proof.
  intros Hconfirm Hlimit. unfold countAndConfirm.
  rewrite Hconfirm, Hlimit. cbn [negb andb]. rewrite bind_log.
  destruct (countRows_run env) as (o & Hcount & [[n ->] | [e ->]]); rewrite Hcount.
  2: { exists []. split; [reflexivity |]. left. exists e. split; reflexivity. }
  rewrite bind_value, bind_log. unfold confirmDownload.
  destruct (Js.gt n (Num 50000) && negb (truthy_str (where_ args))) eqn:Hlarge.
  - destruct (filterDateColumns (columns metadata)) as [dateColumns |] eqn:Hdates.
    + destruct (suggestFilters_ok metadata dateColumns Hdates) as (logs & Hs & Hq).
      rewrite Hs, bind_value, bind_unfold, bind_emit. cbn [fst snd ret].
      destruct (accepted (answer env)) eqn:Hans.
      * exists (EvLog (MsgTotalRows n) :: logs). split; [exact Hq |].
        right; right; left. exists n. repeat split.
      * exists (EvLog (MsgTotalRows n) :: logs). split; [exact Hq |].
        right; right; right. exists n. repeat split.
    + rewrite (suggestFilters_crash metadata Hdates).
      exists [EvLog (MsgTotalRows n); EvLog MsgLargeDataset; EvLog MsgExampleFilters].
      split; [reflexivity |].
      right; left. exists n. repeat split. exact Hlarge.
  - rewrite bind_ret, bind_unfold, bind_emit. cbn [fst snd ret].
    destruct (accepted (answer env)) eqn:Hans.
    + exists [EvLog (MsgTotalRows n)]. split; [reflexivity |].
      right; right; left. exists n. repeat split.
    + exists [EvLog (MsgTotalRows n)]. split; [reflexivity |].
      right; right; right. exists n. repeat split.
Qed.

Lemma writeFraming_run (args : CliArgs) (text : string) :
  writeFraming args text = (fst (writeFraming args text), Value tt).
Proof. unfold writeFraming. destruct (format args); reflexivity. Qed.

Lemma listColumns_value (metadata : DatasetMetadata) :
  listColumns metadata = (fst (listColumns metadata), Value tt).
Proof. destruct (listColumns_run metadata) as (logs & -> & _). reflexivity. Qed.

(** The run of [downloadDataset], phase by phase: it ends where the first
    phase that does not return ends, with the events up to there. *)
Lemma downloadDataset_phases (fuel : nat) (args : CliArgs) (env : Env) :
  downloadDataset JSON_parse JSON_stringify fuel args env =
  match fetchMetadata JSON_parse env with
  | (em, Value metadata) =>
      let head := EvLog MsgFetchingMetadata :: em ++ preamble metadata in
      match countAndConfirm JSON_parse args env metadata with
      | (ec, Value totalRows) =>
          match output args with
          | Some path =>
              let body := head ++ ec ++ opening args path in
              match loop fuel args env (Js.or (limit args) totalRows) start with
              | (el, Value v) => (body ++ el ++ closing args v, Value tt)
              | (el, Thrown e) => (body ++ el, Thrown e)
              | (el, Exited code) => (body ++ el, Exited code)
              | (el, OutOfFuel) => (body ++ el, OutOfFuel)
              end
          | None =>
              (head ++ ec ++ [EvLog (MsgDownloadingTo None)], Thrown TypeError)
          end
      | (ec, Thrown e) => (head ++ ec, Thrown e)
      | (ec, Exited code) => (head ++ ec, Exited code)
      | (ec, OutOfFuel) => (head ++ ec, OutOfFuel)
      end
  | (em, Thrown e) => (EvLog MsgFetchingMetadata :: em, Thrown e)
  | (em, Exited code) => (EvLog MsgFetchingMetadata :: em, Exited code)
  | (em, OutOfFuel) => (EvLog MsgFetchingMetadata :: em, OutOfFuel)
  end.
Proof.
  unfold downloadDataset. rewrite bind_log.
  destruct (fetchMetadata JSON_parse env) as [em [metadata | e | code |]];
    try reflexivity.
  rewrite bind_value. cbn [fst snd]. rewrite !bind_log. cbn [fst snd].
  rewrite (listColumns_value metadata), bind_value. cbn [fst snd].
  unfold preamble.
  destruct (countAndConfirm JSON_parse args env metadata) as [ec [totalRows | e | code |]];
    try (cbn [fst snd bind app]; flatten; reflexivity).
  rewrite bind_value, bind_log. cbn [fst snd].
  unfold openOutput, opening.
  destruct (output args) as [path |].
  2: { cbn [fst snd bind throw app]. flatten. reflexivity. }
  rewrite bind_emit, (writeFraming_run args ("[" ++ LF)), bind_value. cbn [fst snd].
  change {| offset := Num 0; downloadedRows := 0; isFirstChunk := true |} with start.
  destruct (loop fuel args env (Js.or (limit args) totalRows) start) as [el [v | e | code |]];
    try (cbn [fst snd bind app]; flatten; reflexivity).
  rewrite bind_value, (writeFraming_run args (LF ++ "]" ++ LF)), bind_value, bind_emit.
  unfold closing. cbn [fst snd log emit app]. flatten. reflexivity.
Qed.

(** *** What the events before the loop cannot be *)

Lemma gate_written (evs : list Event) :
  forallb isGateEvent evs = true ->
  written evs = "" /\ fetches evs = [] /\ progressLines evs = [] /\
  existsb isOpen evs = false /\ existsb isWrite evs = false.
Proof.
  induction evs as [| e evs IH]; simpl; [repeat split |].
  intros H. apply andb_prop in H as [He H].
  destruct e; simpl in *; try discriminate; auto.
Qed.

Lemma quiet_gate (evs : list Event) : quiet evs = true -> forallb isGateEvent evs = true.
Proof.
  induction evs as [| e evs IH]; simpl; [reflexivity |].
  intros H. apply andb_prop in H as [He H].
  destruct e; simpl in *; try discriminate; auto.
Qed.

Lemma countAndConfirm_events (args : CliArgs) (env : Env) (metadata : DatasetMetadata) :
  forallb isGateEvent (fst (countAndConfirm JSON_parse args env metadata)) = true.
Proof.
  destruct (noConfirm args) eqn:Hc.
  { rewrite countAndConfirm_skipped by now left. reflexivity. }
  destruct (truthy_opt (limit args)) eqn:Hl.
  { rewrite countAndConfirm_skipped by now right. reflexivity. }
  destruct (countAndConfirm_gate args env metadata Hc Hl)
    as (logs & Hq & [(e & _ & ->) | [(n & _ & _ & _ & ->) | [(n & _ & _ & ->) | (n & _ & _ & ->)]]]);
    cbn [fst forallb isGateEvent andb]; rewrite ?forallb_app;
    rewrite (quiet_gate _ Hq); reflexivity.
Qed.

Lemma head_events (em : list Event) (metadata : DatasetMetadata) (o : Outcome DatasetMetadata)
    (env : Env) :
  fetchMetadata JSON_parse env = (em, o) ->
  forallb isGateEvent (EvLog MsgFetchingMetadata :: em ++ preamble metadata) = true.
Proof.
  intros H. pose proof (fetchMetadata_events env) as [Hem _]. rewrite H in Hem.
  cbn [fst] in Hem. subst em. simpl.
  apply quiet_gate, preamble_quiet.
Qed.

(** *** The output of JSON mode *)

(** C4.  Whenever a JSON-mode download completes, the file holds exactly
    one array in the syntax of the specification: the opening bracket, the
    records of the pages fetched, in order, with a comma between
    neighbours and none before the first or after the last, and the
    closing bracket; with no record between the brackets when no row was
    returned. *)
Theorem C4_json_output_is_one_array (fuel : nat) (args : CliArgs) (env : Env)
    (evs : list Event) :
  format args = Json ->
  downloadDataset JSON_parse JSON_stringify fuel args env = (evs, Value tt) ->
  let records := map JSON_stringify (rowsOf JSON_parse env (fetches evs)) in
  fileContent evs = Some (arrayFile records) /\
  ArrayText records (arrayFile records).
Proof.
  intros Hjson Hrun records. split; [| apply arrayFile_syntax].
  rewrite downloadDataset_phases in Hrun.
  destruct (fetchMetadata JSON_parse env) as [em [metadata | e | code |]] eqn:Hmeta;
    try discriminate.
  pose proof (head_events em metadata _ env Hmeta) as Hhead.
  cbv zeta in Hrun.
  set (head := EvLog MsgFetchingMetadata :: em ++ preamble metadata) in *.
  pose proof (countAndConfirm_events args env metadata) as Hgate.
  destruct (countAndConfirm JSON_parse args env metadata) as [ec [totalRows | e | code |]];
    try discriminate.
  destruct (output args) as [path |]; [| discriminate].
  pose proof (loop_json args env (Js.or (limit args) totalRows) Hjson fuel start)
    as [Htext _].
  destruct (loop fuel args env (Js.or (limit args) totalRows) start) as [el [v | e | code |]];
    try discriminate.
  cbn [fst snd] in *. injection Hrun as Hevs.
  assert (Hshape : evs = head ++ ec ++ opening args path ++ el ++ closing args v)
    by (rewrite <- Hevs; unfold head; flatten; reflexivity).
  clear Hevs.
  apply gate_written in Hhead as (Hw1 & Hf1 & _ & Ho1 & _).
  apply gate_written in Hgate as (Hw2 & Hf2 & _ & Ho2 & _).
  assert (Hfetches : fetches evs = fetches el).
  { rewrite Hshape. rewrite !fetches_app, Hf1, Hf2.
    unfold opening, closing, writeFraming. rewrite Hjson. simpl.
    now rewrite app_nil_r. }
  assert (Hwritten : written evs = arrayFile records).
  { unfold records. rewrite Hfetches, Hshape.
    rewrite !written_app, Hw1, Hw2, Htext.
    unfold opening, closing, writeFraming, arrayFile. rewrite Hjson. simpl.
    rewrite ?string_app_assoc, ?string_app_nil_r. reflexivity. }
  unfold fileContent. rewrite Hwritten.
  replace (existsb isOpen evs) with true; [reflexivity |].
  rewrite Hshape. rewrite !existsb_app. unfold opening. simpl.
  now rewrite !orb_true_r.
Qed.

(** *** The shape of the events of the loop *)

(** One pass either commits a page, reports it and goes on, or is the
    last one: with no request at all, or with one request followed by
    nothing but the writes of its page. *)
Lemma iteration_shape (args : CliArgs) (env : Env) (rtd : option jsnum) (v : LoopVars) :
  let run := iteration args env rtd v in
  (exists c w v',
      run = (EvFetchChunk c (offset v) :: w ++ [EvProgress (downloadedRows v') (shownTotal rtd)],
             Value (Continue, v')) /\
      onlyWrites w = true /\ w <> []) \/
  ((forall v', snd run <> Value (Continue, v')) /\
   (fst run = [] \/
    exists c w, fst run = EvFetchChunk c (offset v) :: w /\ onlyWrites w = true)).
Proof.
  unfold Download.iteration.
  destruct (Js.le _ _).
  { right. split; [discriminate | now left]. }
  set (c := chunkLimitOf args rtd (downloadedRows v)).
  destruct (chunkResponse env c (offset v)) as [| body] eqn:Hresp.
  { rewrite (fetchChunk_error _ _ _ Hresp). right. split; [discriminate |].
    right. exists c, []. split; reflexivity. }
  rewrite (fetchChunk_body _ _ _ _ Hresp), bind_value.
  assert (Hlast : forall (w : list Event) (o : Outcome (LoopCtl * LoopVars)),
             onlyWrites w = true -> (forall v', o <> Value (Continue, v')) ->
             (exists c0 w0 v',
                 ([EvFetchChunk c (offset v)] ++ w, o)
                 = (EvFetchChunk c0 (offset v) :: w0 ++
                      [EvProgress (downloadedRows v') (shownTotal rtd)],
                    Value (Continue, v')) /\
                 onlyWrites w0 = true /\ w0 <> []) \/
             ((forall v', snd ([EvFetchChunk c (offset v)] ++ w, o) <> Value (Continue, v')) /\
              (fst ([EvFetchChunk c (offset v)] ++ w, o) = [] \/
               exists c0 w0, fst ([EvFetchChunk c (offset v)] ++ w, o)
                             = EvFetchChunk c0 (offset v) :: w0 /\ onlyWrites w0 = true))).
  { intros w o Hw Ho. right. split; [exact Ho |]. right. exists c, w. split; [reflexivity | exact Hw]. }
  destruct (format args).
  - (* text *)
    destruct (List.length (split body) <=? 1)%nat.
    { apply (Hlast []); [reflexivity | discriminate]. }
    set (text := if isFirstChunk v then body else join LF (slice1 (split body))).
    assert (Hwrite : (if isFirstChunk v then emit (EvWrite body)
                      else emit (EvWrite (join LF (slice1 (split body)))))
                     = emit (EvWrite text)) by (unfold text; destruct (isFirstChunk v); reflexivity).
    rewrite Hwrite, bind_emit.
    destruct (Js.lt _ c).
    + apply (Hlast [EvWrite text]); [reflexivity | discriminate].
    + rewrite advance_run. left.
      exists c, [EvWrite text],
        {| offset := Js.add (offset v) c;
           downloadedRows := downloadedRows v + (Z.of_nat (List.length (split body)) - 1);
           isFirstChunk := false |}.
      split; [reflexivity | split; [reflexivity | discriminate]].
  - (* JSON *)
    destruct (JSON_parse body) as [[ | | | | items | ] |];
      try (apply (Hlast []); [reflexivity | discriminate]).
    destruct items as [| row more].
    { apply (Hlast []); [reflexivity | discriminate]. }
    destruct (writeRows_run (row :: more) 0 (isFirstChunk v)) as (w & Hrun & Hw & Hne & _).
    rewrite Hrun, bind_value.
    destruct (Js.lt _ c).
    + cbn [fst snd ret]. rewrite app_nil_r. apply (Hlast w); [exact Hw | discriminate].
    + rewrite advance_run. left.
      exists c, w,
        {| offset := Js.add (offset v) c;
           downloadedRows := downloadedRows v + Z.of_nat (List.length (row :: more));
           isFirstChunk := false |}.
      cbn [fst snd app].
      split; [reflexivity | split; [exact Hw | apply Hne; discriminate]].
Qed.

Lemma onlyWrites_pageEvents (w : list Event) :
  onlyWrites w = true -> forallb isPageEvent w = true.
Proof.
  induction w as [| e w IH]; simpl; [reflexivity |].
  destruct e; simpl; try discriminate; auto.
Qed.

Lemma iteration_events (args : CliArgs) (env : Env) (rtd : option jsnum) (v : LoopVars) :
  forallb isPageEvent (fst (iteration args env rtd v)) = true.
Proof.
  destruct (iteration_shape args env rtd v)
    as [(c & w & v' & -> & Hw & _) | [_ [-> | (c & w & -> & Hw)]]]; simpl.
  - rewrite forallb_app, (onlyWrites_pageEvents w Hw). reflexivity.
  - reflexivity.
  - apply onlyWrites_pageEvents, Hw.
Qed.

(** The loop produces nothing but requests, writes and progress lines. *)
Lemma loop_events (fuel : nat) (args : CliArgs) (env : Env) (rtd : option jsnum)
    (v : LoopVars) :
  forallb isPageEvent (fst (loop fuel args env rtd v)) = true.
Proof.
  revert v. induction fuel as [| fuel IH]; intros v; [reflexivity |].
  rewrite loop_step. pose proof (iteration_events args env rtd v) as Hit.
  destruct (iteration args env rtd v) as [evs [[[|] v1] | | |]]; cbn [fst snd] in *;
    try exact Hit.
  rewrite forallb_app, Hit. apply IH.
Qed.

Lemma Reported_app (total : option jsnum) (a b : list Event) :
  Reported total a -> Reported total b -> Reported total (a ++ b).
Proof.
  induction 1 as [| c o w d rest Hw Hne Hrest IH]; intros Hb; [exact Hb |].
  cbn [app]. rewrite <- app_assoc. cbn [app].
  apply ReportedPage; auto.
Qed.

(** Every page but the one that ends the loop is committed and then
    reported. *)
Lemma loop_reported (fuel : nat) (args : CliArgs) (env : Env) (rtd : option jsnum)
    (v : LoopVars) :
  exists body last,
    fst (loop fuel args env rtd v) = body ++ last /\
    Reported (shownTotal rtd) body /\
    (last = [] \/ exists c o w, last = EvFetchChunk c o :: w /\ onlyWrites w = true).
Proof.
  revert v. induction fuel as [| fuel IH]; intros v.
  { exists [], []. split; [reflexivity |]. split; [constructor | now left]. }
  rewrite loop_step.
  destruct (iteration_shape args env rtd v)
    as [(c & w & v' & Hrun & Hw & Hne) | [Hstop Hlast]].
  - rewrite Hrun. cbn [fst snd].
    destruct (IH v') as (body & last & Hloop & Hrep & Hend).
    rewrite Hloop.
    exists (EvFetchChunk c (offset v) :: w ++ EvProgress (downloadedRows v') (shownTotal rtd) :: body), last.
    split; [cbn [app]; rewrite <- !app_assoc; reflexivity |].
    split; [apply ReportedPage; assumption | exact Hend].
  - destruct (iteration args env rtd v) as [evs [[[|] v1] | | |]]; cbn [fst snd] in *;
      try (exists [], evs; split; [reflexivity |]; split; [constructor |];
           destruct Hlast as [-> | (c & w & -> & Hw)];
           [now left | right; exists c, (offset v), w; split; [reflexivity | exact Hw]]).
    now elim (Hstop v1).
Qed.

(** *** Progress lines *)

(** C8 (amended).  A progress line follows every committed page after
    which the loop goes on: it shows the rows committed so far, together
    with the total when the loop works towards one and alone otherwise.
    The page that ends the loop -- short, empty or failed -- is followed by
    no progress line. *)
Theorem C8_progress_after_pages_that_continue (args : CliArgs) (env : Env)
    (rtd : option jsnum) :
  (forall (fuel : nat) (v : LoopVars),
      exists body last,
        fst (loop fuel args env rtd v) = body ++ last /\
        Reported (shownTotal rtd) body /\
        progressLines last = [] /\
        (last = [] \/ exists c o w, last = EvFetchChunk c o :: w /\ onlyWrites w = true)) /\
  (forall (v : LoopVars),
      (exists c w v',
          iteration args env rtd v
          = (EvFetchChunk c (offset v) :: w ++
               [EvProgress (downloadedRows v') (shownTotal rtd)],
             Value (Continue, v')) /\
          onlyWrites w = true /\ w <> []) \/
      ((forall v', snd (iteration args env rtd v) <> Value (Continue, v')) /\
       progressLines (fst (iteration args env rtd v)) = [])) /\
  (forall total, rtd = Some (Num total) -> total <> 0 -> shownTotal rtd = Some (Num total)) /\
  (truthy_opt rtd = false -> shownTotal rtd = None).
Proof.
  split; [| split; [| split]].
  - intros fuel v.
    destruct (loop_reported fuel args env rtd v) as (body & last & Hrun & Hrep & Hend).
    exists body, last. split; [exact Hrun |]. split; [exact Hrep |].
    split; [| exact Hend].
    destruct Hend as [-> | (c & o & w & -> & Hw)]; [reflexivity |].
    simpl. apply onlyWrites_progress, Hw.
  - intros v.
    destruct (iteration_shape args env rtd v) as [Hgo | [Hstop Hlast]]; [left; exact Hgo |].
    right. split; [exact Hstop |].
    destruct Hlast as [-> | (c & w & -> & Hw)]; [reflexivity |].
    simpl. apply onlyWrites_progress, Hw.
  - intros total -> Htotal. unfold shownTotal. simpl.
    destruct (total =? 0) eqn:E; [apply Z.eqb_eq in E; contradiction | reflexivity].
  - intros H. unfold shownTotal. now rewrite H.
Qed.

(** *** Order of events *)

Lemma firstThen_app (p q : Event -> bool) (a b : list Event) :
  firstThen p q (a ++ b) = firstThen p q a && (existsb p a || firstThen p q b).
Proof.
  induction a as [| e a IH]; simpl; [reflexivity |].
  rewrite IH. destruct (p e), (q e); simpl; try reflexivity.
Qed.

Lemma firstThen_none (p q : Event -> bool) (a : list Event) :
  existsb q a = false -> firstThen p q a = true.
Proof.
  induction a as [| e a IH]; simpl; [reflexivity |].
  intros H. apply orb_false_elim in H as [-> H]. rewrite (IH H).
  now rewrite orb_true_r.
Qed.

Lemma existsb_excluded (f g : Event -> bool) (l : list Event) :
  (forall e, f e = true -> g e = false) ->
  forallb f l = true -> existsb g l = false.
Proof.
  intros Hfg. induction l as [| e l IH]; simpl; [reflexivity |].
  intros H. apply andb_prop in H as [He H]. now rewrite (Hfg e He), (IH H).
Qed.



Lemma gate_no_fetch (l : list Event) :
  forallb isGateEvent l = true -> existsb isFetch l = false.
Proof. apply existsb_excluded. intros []; simpl; congruence. Qed.


Lemma page_no_open (l : list Event) :
  forallb isPageEvent l = true -> existsb isOpen l = false.
Proof. apply existsb_excluded. intros []; simpl; congruence. Qed.

Lemma page_no_metadata (l : list Event) :
  forallb isPageEvent l = true -> existsb isMetadata l = false.
Proof. apply existsb_excluded. intros []; simpl; congruence. Qed.




Lemma firstThen_reached (p q : Event -> bool) (pre rest : list Event) (e : Event) :
  existsb q pre = false -> p e = true ->
  firstThen p q (pre ++ e :: rest) = true.
Proof.
  intros Hq Hp. rewrite firstThen_app, (firstThen_none p q pre Hq). simpl.
  rewrite Hp. simpl. now rewrite orb_true_r.
Qed.


Lemma existsb_In (f : Event -> bool) (l : list Event) (e : Event) :
  existsb f l = false -> In e l -> f e = false.
Proof.
  intros H Hin. destruct (f e) eqn:He; [| reflexivity].
  assert (existsb f l = true) by (apply existsb_exists; eauto). congruence.
Qed.

(** *** The confirmation gate *)


(** *** From the command line to the destination file *)

Variable dirname : string -> string.

Local Abbreviation parseArgs := (parseArgs dirname).
Local Abbreviation main := (main JSON_parse JSON_stringify dirname).

Lemma usage_run {A : Type} (reason : string) :
  @usage A reason = ([EvLog (MsgUsage reason); EvExit 1], Exited 1).
Proof. reflexivity. Qed.

(** Reading the options prints and exits with code 1, or returns the
    arguments; it raises nothing. *)
Lemma parseOptions_run (n : nat) :
  forall (rest : list string) (parsed : CliArgs),
    (List.length rest <= n)%nat ->
    exists ep,
      forallb isSetupEvent ep = true /\
      (parseOptions rest parsed = (ep, Exited 1) \/
       exists a, parseOptions rest parsed = (ep, Value a)).
Proof.
  induction n as [| n IH]; intros rest parsed Hlen.
  - destruct rest; [| simpl in Hlen; lia].
    exists []. split; [reflexivity | right; eexists; reflexivity].
  - destruct rest as [| flag values].
    { exists []. split; [reflexivity | right; eexists; reflexivity]. }
    cbn [parseOptions].
    repeat match goal with
           | |- context [if (flag =? ?s)%string then _ else _] =>
               destruct (flag =? s)%string
           end;
      try (destruct values as [| v rest'];
           [ (rewrite usage_run; eexists; (split; [| left; reflexivity]); reflexivity)
           | try (apply IH; simpl in Hlen |- *; lia) ]);
      try (rewrite usage_run; eexists; (split; [| left; reflexivity]); reflexivity);
      try (apply IH; simpl in Hlen |- *; lia).
    repeat match goal with
           | |- context [if ?b then _ else _] => destruct b
           end;
      try (rewrite usage_run; eexists; (split; [| left; reflexivity]); reflexivity); apply IH; simpl in Hlen |- *; lia.
Qed.

(** Making sure of a directory: nothing when it exists, otherwise the
    call of [mkdirSync], which may throw. *)
Lemma ensureDir_cases (env : Env) (dir : string) :
  ensureDir env dir =
  if negb (dir =? "")%string && existsSync env dir then ([], Value tt)
  else if (dir =? "")%string || mkdirFails env dir
       then ([EvMkdir dir], Thrown FsError)
       else ([EvMkdir dir], Value tt).
Proof.
  unfold ensureDir.
  destruct (negb (dir =? "")%string && existsSync env dir); [reflexivity |].
  rewrite bind_emit.
  destruct ((dir =? "")%string || mkdirFails env dir); reflexivity.
Qed.

Lemma ensureDir_run (env : Env) (dir : string) :
  exists ep,
    forallb isSetupEvent ep = true /\
    (ensureDir env dir = (ep, Value tt) \/ ensureDir env dir = (ep, Thrown FsError)).
Proof.
  rewrite ensureDir_cases.
  destruct (negb (dir =? "")%string && existsSync env dir).
  { exists []. split; [reflexivity | left; reflexivity]. }
  destruct ((dir =? "")%string || mkdirFails env dir);
    eexists; (split; [| first [left; reflexivity | right; reflexivity]]); reflexivity.
Qed.

(** [parseArgs] prints and exits with code 1, or makes sure of the
    directory of the destination and returns the arguments, or fails in
    making that directory. *)
Lemma parseArgs_run (env : Env) (argv : list string) :
  exists ep,
    forallb isSetupEvent ep = true /\
    (parseArgs env argv = (ep, Exited 1) \/
     (exists a, parseArgs env argv = (ep, Value a)) \/
     parseArgs env argv = (ep, Thrown FsError)).
Proof.
  unfold Download.parseArgs. destruct argv as [| id rest].
  { eexists; split; [| left; reflexivity]; reflexivity. }
  destruct (prefix "--" id).
  { eexists; split; [| left; reflexivity]; reflexivity. }
  destruct (parseOptions_run (List.length rest) rest
              {| datasetId := id; format := Csv; output := None;
                 outputDir := "./data"; limit := None; where_ := None;
                 select := None; order := None; chunkSize := Num 10000;
                 noConfirm := false |} (Nat.le_refl _))
    as (ep & Hep & [Hrun | (parsed & Hrun)]); rewrite Hrun.
  { exists ep. split; [exact Hep | left; reflexivity]. }
  rewrite bind_value.
  destruct (truthy_str (output parsed)).
  - destruct (output parsed) as [o |].
    + destruct (negb (dirname o =? "")%string).
      * destruct (ensureDir_run env (dirname o)) as (ed & Hed & [Hd | Hd]);
          rewrite Hd; [rewrite bind_value | rewrite bind_unfold]; cbn [fst snd ret];
          (eexists; split; [| first [right; left; eexists; reflexivity
                                    | right; right; reflexivity]]);
          rewrite ?forallb_app, ?Hep, ?Hed; reflexivity.
      * rewrite bind_ret. cbn [fst snd ret].
        eexists; split; [| right; left; eexists; reflexivity].
        rewrite !forallb_app, Hep. reflexivity.
    + cbn [fst snd ret].
      eexists; split; [| right; left; eexists; reflexivity].
      rewrite !forallb_app, Hep. reflexivity.
  - destruct (ensureDir_run env (outputDir parsed)) as (ed & Hed & [Hd | Hd]);
      rewrite Hd; [rewrite bind_value | rewrite bind_unfold]; cbn [fst snd ret];
      (eexists; split; [| first [right; left; eexists; reflexivity
                                | right; right; reflexivity]]);
      rewrite ?forallb_app, ?Hep, ?Hed; reflexivity.
Qed.

Lemma setup_no_open (l : list Event) :
  forallb isSetupEvent l = true ->
  existsb isOpen l = false /\ existsb isWrite l = false /\
  existsb isMetadata l = false /\ written l = "" /\ fetches l = [].
Proof.
  induction l as [| e l IH]; simpl; [repeat split |].
  intros H. apply andb_prop in H as [He H]. specialize (IH H).
  destruct e; simpl in *; try discriminate; exact IH.
Qed.

Lemma downloadDataset_starts (fuel : nat) (args : CliArgs) (env : Env) :
  exists rest,
    fst (downloadDataset JSON_parse JSON_stringify fuel args env)
    = EvLog MsgFetchingMetadata :: EvFetchMetadata :: rest.
Proof.
  rewrite downloadDataset_phases.
  pose proof (fetchMetadata_events env) as (Hem & _).
  destruct (fetchMetadata JSON_parse env) as [em o]. cbn [fst] in Hem. subst em.
  destruct o as [metadata | e | code |]; try (eexists; reflexivity).
  cbv zeta.
  destruct (countAndConfirm JSON_parse args env metadata) as [ec [totalRows | e | code |]];
    try (eexists; reflexivity).
  destruct (output args) as [path |]; [| eexists; reflexivity].
  destruct (loop fuel args env (Js.or (limit args) totalRows) start) as [el [v | e | code |]];
    eexists; reflexivity.
Qed.

Lemma downloadDataset_without_metadata (fuel : nat) (args : CliArgs) (env : Env)
    (e : Error) :
  snd (fetchMetadata JSON_parse env) = Thrown e ->
  downloadDataset JSON_parse JSON_stringify fuel args env
  = ([EvLog MsgFetchingMetadata; EvFetchMetadata], Thrown e).
Proof.
  intros H. rewrite downloadDataset_phases.
  pose proof (fetchMetadata_events env) as (Hem & _).
  destruct (fetchMetadata JSON_parse env) as [em o]. cbn [fst snd] in *. subst em o.
  reflexivity.
Qed.

(** The destination is opened only when the metadata arrived. *)
Lemma downloadDataset_opens (fuel : nat) (args : CliArgs) (env : Env) :
  existsb isOpen (fst (downloadDataset JSON_parse JSON_stringify fuel args env)) = true ->
  exists metadata, snd (fetchMetadata JSON_parse env) = Value metadata.
Proof.
  intros H.
  pose proof (fetchMetadata_events env) as (_ & Hexit & Hfuel).
  destruct (snd (fetchMetadata JSON_parse env)) as [metadata | e | code |] eqn:Hmeta.
  - eexists; reflexivity.
  - rewrite (downloadDataset_without_metadata fuel args env e Hmeta) in H. discriminate.
  - now elim (Hexit code).
  - now elim Hfuel.
Qed.

Lemma main_run (fuel : nat) (argv : list string) (env : Env) :
  exists ep,
    forallb isSetupEvent ep = true /\
    (main fuel argv env = (ep, Exited 1) \/
     exists a,
       main fuel argv env =
       catch_exit1 (ep ++ fst (downloadDataset JSON_parse JSON_stringify fuel a env),
                    snd (downloadDataset JSON_parse JSON_stringify fuel a env))).
Proof.
  unfold Download.main.
  destruct (parseArgs_run env argv) as (ep & Hep & [Hrun | [(a & Hrun) | Hrun]]);
    rewrite Hrun.
  - exists ep. split; [exact Hep |]. left. reflexivity.
  - exists ep. split; [exact Hep |]. right. exists a. rewrite bind_value. reflexivity.
  - exists (ep ++ [EvLog (MsgError FsError); EvExit 1]).
    split; [rewrite forallb_app, Hep; reflexivity |]. left. reflexivity.
Qed.

Lemma catch_exit1_events {A : Type} (m : Eff A) :
  exists tail,
    fst (catch_exit1 m) = fst m ++ tail /\ forallb isSetupEvent tail = true.
Proof.
  unfold catch_exit1. destruct m as [evs [a | e | code |]]; cbn [fst snd].
  all: try (exists []; rewrite app_nil_r; split; reflexivity).
  eexists; split; reflexivity.
Qed.

(** *** Metadata before the destination *)

(** C10.  In every run of the tool the destination is opened only after
    the metadata request, and only when that request produced the
    metadata.  When the request fails, or its body is not JSON, the process
    exits with code 1 and the destination is never opened or written. *)
Theorem C10_metadata_before_destination (fuel : nat) (argv : list string) (env : Env) :
  let run := main fuel argv env in
  firstThen isMetadata isOpen (fst run) = true /\
  (existsb isOpen (fst run) = true ->
   exists metadata, snd (fetchMetadata JSON_parse env) = Value metadata) /\
  (metadataResponse env = NetError \/
   (exists data, metadataResponse env = Body data /\ JSON_parse data = None) ->
   exists e, snd (fetchMetadata JSON_parse env) = Thrown e) /\
  (forall e,
      snd (fetchMetadata JSON_parse env) = Thrown e ->
      snd run = Exited 1 /\
      exitCode run = Some 1 /\
      fileContent (fst run) = None /\
      existsb isWrite (fst run) = false).
Proof.
  cbv zeta.
  destruct (main_run fuel argv env) as (ep & Hep & [Hrun | (a & Hrun)]); rewrite Hrun;
    destruct (setup_no_open ep Hep) as (Hopen & Hwrite & Hmeta & _ & _).
  - (* the command line was rejected *)
    cbn [fst snd].
    split; [apply firstThen_none; exact Hopen |].
    split; [intros H; congruence |].
    split.
    + intros [H | (data & H & Hparse)]; unfold fetchMetadata; rewrite bind_emit, H;
        [| rewrite Hparse]; eexists; reflexivity.
    + intros e _. split; [reflexivity |]. split; [reflexivity |].
      split; [unfold fileContent; now rewrite Hopen | exact Hwrite].
  - set (dd := downloadDataset JSON_parse JSON_stringify fuel a env) in *.
    destruct (catch_exit1_events (ep ++ fst dd, snd dd)) as (tail & Hevs & Htail).
    destruct (setup_no_open tail Htail) as (Hopen' & Hwrite' & _ & _ & _).
    cbn [fst] in Hevs. rewrite Hevs.
    destruct (downloadDataset_starts fuel a env) as (rest & Hstart). fold dd in Hstart.
    split.
    { rewrite <- app_assoc, firstThen_app, (firstThen_none _ _ ep Hopen), Hstart.
      simpl. now rewrite orb_true_r. }
    split.
    { rewrite !existsb_app, Hopen, Hopen', orb_false_r. simpl.
      apply downloadDataset_opens. }
    split.
    { intros [H | (data & H & Hparse)]; unfold fetchMetadata; rewrite bind_emit, H;
        [| rewrite Hparse]; eexists; reflexivity. }
    intros e Hfail.
    pose proof (downloadDataset_without_metadata fuel a env e Hfail) as Hdd. fold dd in Hdd.
    rewrite Hdd in *. cbn [fst snd] in *.
    unfold catch_exit1 in *. cbn [fst snd] in *.
    split; [reflexivity |]. split; [reflexivity |].
    split.
    + unfold fileContent. rewrite !existsb_app, Hopen, Hopen'. reflexivity.
    + rewrite !existsb_app, Hwrite, Hwrite'. reflexivity.
Qed.

(** *** [parseInt] on the decimal text of an integer *)

Lemma digits_acc (d : Decimal.uint) :
  forall p : positive,
    digits (NilEmpty.string_of_uint d) true (Z.pos p)
    = Some (Z.pos (Pos.of_uint_acc d p)).
Proof.
  induction d as [| d IH | d IH | d IH | d IH | d IH | d IH | d IH | d IH | d IH | d IH];
    intros p; [reflexivity | ..];
    cbn [NilEmpty.string_of_uint digits Pos.of_uint_acc]; unfold digit;
    simpl andb; cbv iota;
    match goal with
    | |- digits _ true (10 * Z.pos p + ?k) = Some (Z.pos (Pos.of_uint_acc _ ?q)) =>
        let k' := eval vm_compute in k in
        replace (10 * Z.pos p + k) with (Z.pos q) by (change k with k'; lia);
        apply IH
    end.
Qed.

Lemma digits_zero (d : Decimal.uint) :
  forall seen : bool,
    seen = true \/ d <> Decimal.Nil ->
    digits (NilEmpty.string_of_uint d) seen 0 = Some (Z.of_N (Pos.of_uint d)).
Proof.
  induction d as [| d IH | d IH | d IH | d IH | d IH | d IH | d IH | d IH | d IH | d IH];
    intros seen Hseen.
  - destruct Hseen as [-> | H]; [reflexivity | now elim H].
  - cbn [NilEmpty.string_of_uint digits]. unfold digit. cbn [nat_of_ascii].
    simpl andb. cbv iota. simpl Z.add. apply IH. now left.
  - exact (digits_acc d 1).
  - exact (digits_acc d 2).
  - exact (digits_acc d 3).
  - exact (digits_acc d 4).
  - exact (digits_acc d 5).
  - exact (digits_acc d 6).
  - exact (digits_acc d 7).
  - exact (digits_acc d 8).
  - exact (digits_acc d 9).
Qed.

Lemma digits_of_positive (p : positive) :
  digits (NilZero.string_of_uint (Pos.to_uint p)) false 0 = Some (Z.pos p).
Proof.
  pose proof (DecimalPos.Unsigned.of_to p) as Hp.
  destruct (Pos.to_uint p) eqn:Hd; try discriminate;
    (etransitivity; [apply digits_zero; right; discriminate |]);
    rewrite Hp; reflexivity.
Qed.

(** White space beyond ASCII starts with a byte above 127: a text that
    starts with an ASCII character other than white space has none to skip. *)
Lemma trimStart_ascii (a : ascii) (r : string) :
  (nat_of_ascii a < 128)%nat -> is_space a = false ->
  trimStart (String a r) = String a r.
Proof.
  intros Hascii Hspace. cbn [trimStart]. rewrite Hspace.
  destruct r as [| b r2]; [reflexivity |].
  assert (H2 : is_space2 a b = false).
  { unfold is_space2. destruct (Nat.eqb_spec (nat_of_ascii a) 194); [lia | reflexivity]. }
  rewrite H2. destruct r2 as [| c r3]; [reflexivity |].
  assert (H3 : is_space3 a b c = false).
  { unfold is_space3.
    destruct (Nat.eqb_spec (nat_of_ascii a) 225); [lia |].
    destruct (Nat.eqb_spec (nat_of_ascii a) 226); [lia |].
    destruct (Nat.eqb_spec (nat_of_ascii a) 227); [lia |].
    destruct (Nat.eqb_spec (nat_of_ascii a) 239); [lia |].
    reflexivity. }
  rewrite H3. reflexivity.
Qed.

Lemma trimStart_of_positive (p : positive) :
  trimStart (NilZero.string_of_uint (Pos.to_uint p))
  = NilZero.string_of_uint (Pos.to_uint p).
Proof.
  destruct (Pos.to_uint p); try reflexivity;
    cbn [NilZero.string_of_uint NilEmpty.string_of_uint];
    (apply trimStart_ascii; [cbn; lia | reflexivity]).
Qed.

(** [parseInt] reads back the decimal text of every integer. *)
Lemma parseInt_string_of_Z (z : Z) : parseInt (string_of_Z z) = Num z.
Proof.
  unfold string_of_Z, Z.to_int. destruct z as [| p | p].
  - reflexivity.
  - unfold parseInt. cbn [NilZero.string_of_int].
    rewrite trimStart_of_positive.
    assert (Hsign : (let '(sign, rest) :=
                       match NilZero.string_of_uint (Pos.to_uint p) with
                       | String "-" r => (-1, r)
                       | String "+" r => (1, r)
                       | _ => (1, NilZero.string_of_uint (Pos.to_uint p))
                       end in
                     match digits rest false 0 with
                     | Some n => Num (sign * n)
                     | None => NaN
                     end)
                    = match digits (NilZero.string_of_uint (Pos.to_uint p)) false 0 with
                      | Some n => Num (1 * n)
                      | None => NaN
                      end)
      by (destruct (Pos.to_uint p); reflexivity).
    rewrite Hsign, digits_of_positive. reflexivity.
  - unfold parseInt. cbn [NilZero.string_of_int].
    rewrite trimStart_ascii; [| cbn; lia | reflexivity].
    cbv iota beta. rewrite digits_of_positive. reflexivity.
Qed.

(** A text whose first character is an ASCII character that is neither
    white space, a sign nor a digit is not a number. *)
Lemma parseInt_not_a_number (c : ascii) (rest : string) :
  (nat_of_ascii c < 128)%nat ->
  is_space c = false -> digit c = None ->
  c <> "-"%char -> c <> "+"%char ->
  parseInt (String c rest) = NaN.
Proof.
  intros Hascii Hspace Hdigit Hminus Hplus. unfold parseInt.
  rewrite (trimStart_ascii c rest Hascii Hspace).
  assert (Hsign : (match String c rest with
                   | String "-" r => (-1, r)
                   | String "+" r => (1, r)
                   | _ => (1, String c rest)
                   end) = (1, String c rest)).
  { destruct c as [[|] [|] [|] [|] [|] [|] [|] [|]]; try reflexivity;
      [now elim Hminus | now elim Hplus]. }
  rewrite Hsign. cbn [digits]. rewrite Hdigit. reflexivity.
Qed.

(** *** The row count *)

(** C9 (amended).  The count request resolves to
    [parseInt(result[0]?.count || '0', 10)] of the parsed response.  A count
    field that is absent, [null], [false], [0] or the empty string gives 0.
    An integer of magnitude below 2^53, or its decimal text, gives that
    integer.  A malformed field does not give zero: a text that starts
    with an ASCII character other than white space, a sign or a digit gives
    [NaN], and an object with a property [toString] of its own makes the
    request fail with a [TypeError]. *)
Theorem C9_count_is_parseInt_of_field (env : Env) (data : string) (result : json)
    (first : option json) :
  countResponse env = Body data ->
  JSON_parse data = Some result ->
  index0 result = Some first ->
  (truthy_prop (countField first) = false ->
   countRows JSON_parse env = ([EvCountRows], Value (Num 0))) /\
  (forall z,
      Z.abs z < 2 ^ 53 ->
      countField first = Some (JStr (string_of_Z z)) ->
      countRows JSON_parse env = ([EvCountRows], Value (Num z))) /\
  (forall z,
      Z.abs z < 2 ^ 53 ->
      countField first = Some (JNum z) ->
      countRows JSON_parse env = ([EvCountRows], Value (Num z))) /\
  (forall c rest,
      countField first = Some (JStr (String c rest)) ->
      (nat_of_ascii c < 128)%nat ->
      is_space c = false -> digit c = None ->
      c <> "-"%char -> c <> "+"%char ->
      countRows JSON_parse env = ([EvCountRows], Value NaN)) /\
  (forall props own,
      countField first = Some (JObj props) ->
      lookup "toString" props = Some own ->
      countRows JSON_parse env = ([EvCountRows], Thrown TypeError)).
Proof.
  intros Hresp Hparse Hfirst.
  assert (Hrun : countRows JSON_parse env =
                 match toString (orElse (countField first) (JStr "0")) with
                 | None => ([EvCountRows], Thrown TypeError)
                 | Some text => ([EvCountRows], Value (parseInt text))
                 end).
  { unfold countRows. rewrite bind_emit, Hresp, Hparse, Hfirst.
    destruct (toString _); reflexivity. }
  rewrite Hrun. split; [| split; [| split; [| split]]].
  - intros Hfalsy. unfold orElse, truthy_prop in *.
    destruct (countField first) as [v |]; [rewrite Hfalsy |]; reflexivity.
  - intros z _ ->. unfold orElse. cbn [truthy].
    assert (Hne : (string_of_Z z =? "")%string = false).
    { destruct z as [| p | p]; [reflexivity | |];
        unfold string_of_Z, Z.to_int; cbn [NilZero.string_of_int];
        [destruct (Pos.to_uint p) | ]; reflexivity. }
    rewrite Hne. cbn [negb toString]. rewrite parseInt_string_of_Z. reflexivity.
  - intros z _ ->. unfold orElse. cbn [truthy].
    destruct (z =? 0) eqn:Hz; cbn [negb toString].
    + apply Z.eqb_eq in Hz. subst z. reflexivity.
    + rewrite parseInt_string_of_Z. reflexivity.
  - intros c rest -> Hascii Hspace Hdigit Hminus Hplus. unfold orElse. cbn [truthy].
    cbn [String.eqb negb toString].
    rewrite parseInt_not_a_number by assumption. reflexivity.
  - intros props own -> Hown. unfold orElse. cbn [truthy toString].
    rewrite Hown. reflexivity.
Qed.

End Pagination.

(* ================================================================= *)
(** ** The simulated source *)

(** *** Lines and pages of text *)

Lemma includes_LF_cons (c : ascii) (s : string) :
  includes (String c s) LF = Ascii.eqb c nl || includes s LF.
Proof.
  cbn [includes prefix LF]. destruct (ascii_dec nl c) as [<- | Hne].
  - rewrite Ascii.eqb_refl. destruct s; reflexivity.
  - destruct (Ascii.eqb c nl) eqn:E; [apply Ascii.eqb_eq in E; congruence |].
    reflexivity.
Qed.

(** A text without a line feed is one line, and the lines of a text that
    was joined from such lines are those lines. *)
Lemma split_one_line (s : string) : Sim.oneLine s = true -> split s = [s].
Proof.
  unfold Sim.oneLine. induction s as [| c s IH]; [reflexivity |].
  rewrite includes_LF_cons. intros H. apply negb_true_iff, orb_false_elim in H as [Hc Hs].
  cbn [split]. rewrite Hc, IH by now rewrite Hs. reflexivity.
Qed.

Lemma split_line_then (s rest : string) :
  Sim.oneLine s = true -> split (s ++ LF ++ rest) = s :: split rest.
Proof.
  unfold Sim.oneLine. induction s as [| c s IH]; [reflexivity |].
  rewrite includes_LF_cons. intros H. apply negb_true_iff, orb_false_elim in H as [Hc Hs].
  cbn [append split]. rewrite Hc. cbn [append] in IH. rewrite IH by now rewrite Hs.
  reflexivity.
Qed.

Lemma split_join (l : string) (ls : list string) :
  forallb Sim.oneLine (l :: ls) = true -> split (join LF (l :: ls)) = l :: ls.
Proof.
  revert l. induction ls as [| l' ls IH]; intros l H; simpl in H.
  - apply andb_prop in H as [H _]. now apply split_one_line.
  - apply andb_prop in H as [Hl H].
    change (join LF (l :: l' :: ls)) with (l ++ LF ++ join LF (l' :: ls))%string.
    rewrite split_line_then by exact Hl. f_equal. apply IH. exact H.
Qed.

(** *** Windows of a table *)

Lemma window_bounded {A : Type} (rows : list A) (i j : nat) :
  firstn j (skipn i rows)
  = firstn (Nat.min j (List.length rows)) (skipn (Nat.min i (List.length rows)) rows).
Proof.
  destruct (Nat.le_gt_cases i (List.length rows)) as [Hi | Hi].
  - rewrite (Nat.min_l i) by lia.
    destruct (Nat.le_gt_cases j (List.length rows)) as [Hj | Hj].
    + now rewrite (Nat.min_l j) by lia.
    + rewrite (Nat.min_r j) by lia.
      rewrite !firstn_all2; [reflexivity | rewrite length_skipn; lia ..].
  - rewrite (Nat.min_r i) by lia.
    rewrite (skipn_all2 rows (n := i)) by lia. rewrite skipn_all. now rewrite !firstn_nil.
Qed.

(** A table whose windows all read back is served, as JSON, by its pages:
    every request gets exactly the rows asked for, as far as there are any. *)
Lemma jsonPage_servesTable (rows : list json) (count : Response) (reply : string) :
  Sim.readsBack rows ->
  servesTable Sim.parse rows (Sim.remote count reply (Sim.jsonPage rows)).
Proof.
  intros Hall cap off Hcap Hoff.
  exists (Sim.stringify (JArr (Sim.window rows cap off))).
  split; [reflexivity |].
  unfold rowsAt, Sim.window. rewrite window_bounded.
  set (n := List.length rows) in *.
  set (i := Nat.min (Z.to_nat off) n). set (j := Nat.min (Z.to_nat cap) n).
  unfold Sim.readsBack in Hall. fold n in Hall.
  rewrite Forall_forall in Hall.
  specialize (Hall i ltac:(apply in_seq; unfold i; lia)).
  rewrite Forall_forall in Hall.
  exact (Hall j ltac:(apply in_seq; unfold j; lia)).
Qed.

(* ================================================================= *)
(** ** Runs against the simulated source *)

(** C1, as stated, fails: a source of 20 rows serves what it is asked, and
    the download in pages of 10 that does not know the total issues three
    requests, not [ceil(20 / 10) = 2]: the third finds the end. *)
Lemma C1_counterexample :
  let env := Sim.jsonRemote 20 "" in
  let run := main Sim.parse Sim.stringify Sim.dirname 10
               ["vxuj-8kew"; "--format"; "json"; "--chunk-size"; "10"; "--no-confirm"]
               env in
  servesTable Sim.parse (Sim.records 20) env /\
  snd run = Value tt /\
  fetches (fst run) = [(Num 10, Num 0); (Num 10, Num 10); (Num 10, Num 20)] /\
  fileContent (fst run) = Some (arrayFile (map Sim.stringify (Sim.records 20))) /\
  In (EvLog (MsgComplete 20)) (fst run) /\
  Z.of_nat (List.length (fetches (fst run))) <> ceilDiv 20 10.
Proof.
  cbv zeta. split.
  { apply (jsonPage_servesTable (Sim.records 20)). read_windows 20%nat. }
  split; [vm_compute; reflexivity |].
  split; [vm_compute; reflexivity |].
  split; [vm_compute; reflexivity |].
  split; [vm_compute; intuition |].
  vm_compute. discriminate.
Qed.

Lemma C1_witness :
  exists evs v,
    loop Sim.parse Sim.stringify 5 (Sim.argsFor Json None 2 false)
      (Sim.jsonRemote 5 "y") (Js.or None (Some (Num 5))) start = (evs, Value v) /\
    rowsOf Sim.parse (Sim.jsonRemote 5 "y") (fetches evs) = Sim.records 5 /\
    written evs = recordsText true (map Sim.stringify (Sim.records 5)) /\
    downloadedRows v = 5 /\
    Z.of_nat (List.length (fetches evs)) = 3.
Proof.
  apply (C1_requests_without_limit Sim.parse Sim.stringify
           (Sim.argsFor Json None 2 false) (Sim.jsonRemote 5 "y") (Sim.records 5)
           2 (Some (Num 5)) 5).
  - reflexivity.
  - reflexivity.
  - lia.
  - apply (jsonPage_servesTable (Sim.records 5)). read_windows 5%nat.
  - reflexivity.
  - right. split; [reflexivity | discriminate].
  - vm_compute. lia.
Defined.

(** C2, evaluated.  A table of 25 one-line rows downloaded as text with
    [--limit 15] in pages of 10.  The claim has 15 rows committed.  When
    the pages carry no final line feed the second page is written straight
    after the first, so the file has 14 lines after its header ([row10] and
    [row11] are one line).  When they end in a line feed, as the lines of a
    text file do, the empty string after the last line feed is counted as
    a row: the second request asks for 4 rows, not 5, the file holds 14
    rows and the run reports 16.  It is the defect of C5. *)
Theorem C2_text_limit_is_not_kept :
  let run (terminated : bool) :=
    main Sim.parse Sim.stringify Sim.dirname 10
      ["vxuj-8kew"; "--limit"; "15"; "--chunk-size"; "10"; "--no-confirm"]
      (Sim.csvRemote terminated 25 "") in
  fetches (fst (run false)) = [(Num 10, Num 0); (Num 5, Num 10)] /\
  fileContent (fst (run false))
  = Some (Sim.csvBody false "n" (Sim.lines 10) ++
          join LF (Sim.window (Sim.lines 25) 5 10))%string /\
  option_map (fun text => List.length (split text)) (fileContent (fst (run false)))
  = Some 15%nat /\
  In (EvLog (MsgComplete 15)) (fst (run false)) /\
  fetches (fst (run true)) = [(Num 10, Num 0); (Num 4, Num 10)] /\
  fileContent (fst (run true)) = Some (Sim.csvBody true "n" (Sim.lines 14)) /\
  In (EvLog (MsgComplete 16)) (fst (run true)) /\
  fileContent (fst (run true)) <> Some (Sim.csvBody true "n" (Sim.lines 15)).
Proof.
  cbv zeta.
  repeat (split; [vm_compute; try reflexivity; intuition |]).
  intros H. vm_compute in H. discriminate H.
Qed.

(** C3, evaluated.  In text mode a page is counted as its lines after the
    first, so a page that ends in a line feed counts one row more than it
    holds.  A table of 29 rows in pages of 10, without a total: the third
    page holds 9 rows, fewer than the 10 asked for, and the loop does not
    end there; it asks for a fourth page, and reports 33 rows.  And with
    pages of 1 row even the empty page counts 1: the loop never ends (here
    after 40 passes it is still asking).  It is the defect of C5. *)
Theorem C3_text_short_page_does_not_end_loop :
  let run :=
    main Sim.parse Sim.stringify Sim.dirname 10
      ["vxuj-8kew"; "--chunk-size"; "10"; "--no-confirm"] (Sim.csvRemote true 29 "") in
  let single :=
    loop Sim.parse Sim.stringify 40 (Sim.argsFor Csv None 1 true)
      (Sim.csvRemote true 2 "") None start in
  List.length (Sim.window (Sim.lines 29) 10 20) = 9%nat /\
  fetches (fst run)
  = [(Num 10, Num 0); (Num 10, Num 10); (Num 10, Num 20); (Num 10, Num 30)] /\
  In (EvLog (MsgComplete 33)) (fst run) /\
  fileContent (fst run) = Some (Sim.csvBody true "n" (Sim.lines 29)) /\
  snd single = OutOfFuel /\
  List.length (fetches (fst single)) = 40%nat.
Proof.
  cbv zeta.
  repeat (split; [vm_compute; try reflexivity; intuition |]).
  vm_compute. reflexivity.
Qed.

Lemma C4_witness :
  let args := Sim.argsFor Json None 2 true in
  let env := Sim.jsonRemote 3 "" in
  let evs := fst (downloadDataset Sim.parse Sim.stringify 5 args env) in
  let records := map Sim.stringify (rowsOf Sim.parse env (fetches evs)) in
  fileContent evs = Some (arrayFile records) /\
  ArrayText records (arrayFile records).
Proof.
  apply (C4_json_output_is_one_array Sim.parse Sim.stringify 5
           (Sim.argsFor Json None 2 true) (Sim.jsonRemote 3 "")).
  - reflexivity.
  - vm_compute. reflexivity.
Defined.

(** C5, evaluated.  The same table of 25 one-line rows, counted and
    confirmed, downloaded as text in pages of 10 and in one page of 10,000.
    The single page gives the table as the source sends it.  In pages of
    10 the file differs, whether or not the source ends a page with a line
    feed: without one, the last line of a page and the first line of the
    next are written as one line; with one, the empty string after the last
    line feed is counted as a row, and the loop stops two rows short. *)
Theorem C5_text_output_depends_on_page_size :
  let paged (terminated : bool) (chunk : Z) :=
    fileContent (fst (downloadDataset Sim.parse Sim.stringify 10
                        (Sim.argsFor Csv None chunk false)
                        (Sim.csvRemote terminated 25 "y"))) in
  paged false 10000 = Some (Sim.csvBody false "n" (Sim.lines 25)) /\
  paged true 10000 = Some (Sim.csvBody true "n" (Sim.lines 25)) /\
  paged false 10
    = Some (Sim.csvBody false "n" (Sim.lines 10) ++
            join LF (Sim.window (Sim.lines 25) 10 10) ++
            join LF (Sim.window (Sim.lines 25) 5 20))%string /\
  paged true 10 = Some (Sim.csvBody true "n" (Sim.lines 23)) /\
  paged false 10 <> paged false 10000 /\
  paged true 10 <> paged true 10000.
Proof.
  cbv zeta.
  repeat (split; [vm_compute; reflexivity |]).
  split; intros H; vm_compute in H; discriminate H.
Qed.


(** C7, evaluated.  A total of zero is no total for the loop: with
    [rowsToDownload] equal to 0 the page cap is the page size, whatever has
    been downloaded.  So [--limit 0] with [--no-confirm] requests a page and
    saves the rows of the table, and a count of zero, once confirmed, still
    requests a page before the empty array is closed. *)
Theorem C7_zero_total_still_requests_a_page :
  let limited :=
    main Sim.parse Sim.stringify Sim.dirname 10
      ["vxuj-8kew"; "--format"; "json"; "--limit"; "0"; "--no-confirm"]
      (Sim.jsonRemote 3 "") in
  let counted :=
    main Sim.parse Sim.stringify Sim.dirname 10
      ["vxuj-8kew"; "--format"; "json"] (Sim.jsonRemote 0 "y") in
  (forall (args : CliArgs) (downloaded : Z),
      chunkLimitOf args (Js.or (Some (Num 0)) None) downloaded
      = Js.min (chunkSize args) (chunkSize args) /\
      chunkLimitOf args (Js.or None (Some (Num 0))) downloaded
      = Js.min (chunkSize args) (chunkSize args)) /\
  fetches (fst limited) = [(Num 10000, Num 0)] /\
  fileContent (fst limited) = Some (arrayFile (map Sim.stringify (Sim.records 3))) /\
  In (EvLog (MsgComplete 3)) (fst limited) /\
  In (EvLog (MsgTotalRows (Num 0))) (fst counted) /\
  fetches (fst counted) = [(Num 10000, Num 0)] /\
  fileContent (fst counted) = Some (arrayFile []).
Proof.
  cbv zeta. split; [intros args downloaded; split; reflexivity |].
  repeat (split; [vm_compute; try reflexivity; intuition |]).
  vm_compute. reflexivity.
Qed.

(** C8, as stated, fails: a table of 3 rows downloaded in pages of 10 is
    committed by a single short page, and no progress line is printed; of
    25 rows in pages of 10 the last 5 are committed without one. *)
Lemma C8_counterexample :
  let short := loop Sim.parse Sim.stringify 5 (Sim.argsFor Json None 10 true)
                 (Sim.jsonRemote 3 "") None start in
  let paged := loop Sim.parse Sim.stringify 5 (Sim.argsFor Json None 10 true)
                 (Sim.jsonRemote 25 "") None start in
  snd short = Value {| offset := Num 0; downloadedRows := 3; isFirstChunk := false |} /\
  written (fst short) = recordsText true (map Sim.stringify (Sim.records 3)) /\
  progressLines (fst short) = [] /\
  everyPageReported (fst short) = false /\
  snd paged = Value {| offset := Num 20; downloadedRows := 25; isFirstChunk := false |} /\
  progressLines (fst paged) = [(10, None); (20, None)] /\
  everyPageReported (fst paged) = false.
Proof.
  cbv zeta. repeat (split; [vm_compute; reflexivity |]). vm_compute. reflexivity.
Qed.

(** C9, as stated, fails: a count field that is not a number makes the
    count [NaN], not zero. *)
Lemma C9_counterexample :
  let env := Sim.remote (Body (Sim.stringify (JArr [JObj [("count", JStr "n/a")]]))) ""
               (Sim.jsonPage []) in
  countRows Sim.parse env = ([EvCountRows], Value NaN) /\
  NaN <> Num 0.
Proof. cbv zeta. split; [vm_compute; reflexivity | discriminate]. Qed.

Lemma C9_witness :
  countRows Sim.parse (Sim.jsonRemote 25 "") = ([EvCountRows], Value (Num 25)).
Proof.
  destruct (C9_count_is_parseInt_of_field Sim.parse (Sim.jsonRemote 25 "")
              (Sim.stringify (Sim.countDoc 25)) (Sim.countDoc 25)
              (Some (JObj [("count", JStr "25")])) eq_refl eq_refl eq_refl)
    as (_ & Hdecimal & _).
  apply (Hdecimal 25); reflexivity.
Defined.

(* ================================================================= *)
(** ** Further properties of the tool *)

Section Coverage.

Variable JSON_parse : string -> option json.
Variable JSON_stringify : json -> string.
Variable dirname : string -> string.

Local Abbreviation parseArgs := (parseArgs dirname).
Local Abbreviation fetchMetadata := (fetchMetadata JSON_parse).
Local Abbreviation countRows := (countRows JSON_parse).
Local Abbreviation iteration := (iteration JSON_parse JSON_stringify).
Local Abbreviation loop := (loop JSON_parse JSON_stringify).
Local Abbreviation downloadDataset := (downloadDataset JSON_parse JSON_stringify).
Local Abbreviation main := (main JSON_parse JSON_stringify dirname).
Local Abbreviation pageRows := (pageRows JSON_parse).

(** *** The command line *)

(** The options are read without any effect: either they are all
    accepted, or a single line names the first one that is not and the
    process exits with code 1. *)
Lemma parseOptions_cases (n : nat) :
  forall (rest : list string) (parsed : CliArgs),
    (List.length rest <= n)%nat ->
    (exists a,
        parseOptions rest parsed = ([], Value a) /\ datasetId a = datasetId parsed) \/
    (exists reason,
        parseOptions rest parsed = ([EvLog (MsgUsage reason); EvExit 1], Exited 1)).
Proof.
  induction n as [| n IH]; intros rest parsed Hlen.
  - destruct rest; [| simpl in Hlen; lia].
    left. exists parsed. split; reflexivity.
  - destruct rest as [| flag values].
    { left. exists parsed. split; reflexivity. }
    assert (Hnext : forall r p,
               (List.length r <= n)%nat -> datasetId p = datasetId parsed ->
               (exists a, parseOptions r p = ([], Value a) /\ datasetId a = datasetId parsed) \/
               (exists reason,
                   parseOptions r p = ([EvLog (MsgUsage reason); EvExit 1], Exited 1))).
    { intros r p Hr Hp. destruct (IH r p Hr) as [(a & Ha & Hid) | (reason & Hreason)].
      - left. exists a. split; [exact Ha | congruence].
      - right. exists reason. exact Hreason. }
    cbn [parseOptions].
    repeat match goal with
           | |- context [if (flag =? ?s)%string then _ else _] =>
               destruct (flag =? s)%string
           end;
      try (destruct values as [| v rest'];
           [ right; eexists; reflexivity
           | try (apply Hnext; [simpl in Hlen |- *; lia | reflexivity]) ]);
      try (right; eexists; reflexivity);
      try (apply Hnext; [simpl in Hlen |- *; lia | reflexivity]).
    repeat match goal with
           | |- context [if ?b then _ else _] => destruct b
           end;
      try (right; eexists; reflexivity);
      (apply Hnext; [simpl in Hlen |- *; lia | reflexivity]).
Qed.

Lemma append_not_empty (a b : string) : b <> EmptyString -> (a ++ b)%string <> EmptyString.
Proof. destruct a; simpl; [auto | discriminate]. Qed.

Lemma eqb_empty_false (s : string) : s <> EmptyString -> (s =? "")%string = false.
Proof. destruct s; [intros H; now elim H | reflexivity]. Qed.

(** The ways of [parseArgs]: a usage error; or, the options read, making
    sure of the directory of the destination that was given, or of the
    output directory for the default destination. *)
Lemma parseArgs_ways (env : Env) (argv : list string) :
  (exists logs reason,
      parseArgs env argv = (logs ++ [EvLog (MsgUsage reason); EvExit 1], Exited 1) /\
      quiet logs = true) \/
  (exists id rest parsed,
      argv = id :: rest /\ datasetId parsed = id /\
      parseOptions rest
        {| datasetId := id; format := Csv; output := None;
           outputDir := "./data"; limit := None; where_ := None;
           select := None; order := None; chunkSize := Num 10000;
           noConfirm := false |} = ([], Value parsed) /\
      ((exists path,
           output parsed = Some path /\ path <> EmptyString /\
           parseArgs env argv
           = ((if negb (dirname path =? "")%string
               then ensureDir env (dirname path) else ret tt) ;; ret parsed)) \/
       (truthy_str (output parsed) = false /\
        parseArgs env argv
        = (ensureDir env (outputDir parsed) ;;
           ret (with_output (outputDir parsed ++ "/" ++ datasetId parsed ++ "." ++
                             format_name (format parsed))%string parsed))))).
Proof.
  unfold Download.parseArgs.
  destruct argv as [| id rest].
  { left. exists [EvLog (MsgUsage "Dataset ID is required")], "Usage"%string.
    split; reflexivity. }
  destruct (prefix "--" id).
  { left. exists [EvLog (MsgUsage "Dataset ID is required")], "Usage"%string.
    split; reflexivity. }
  match goal with
  | |- context [parseOptions rest ?p] =>
      destruct (parseOptions_cases (List.length rest) rest p (Nat.le_refl _))
        as [(parsed & Hopts & Hid) | (reason & Hopts)]; rewrite Hopts
  end.
  - right. exists id, rest, parsed. split; [reflexivity |].
    split; [exact Hid |]. split; [exact Hopts |].
    rewrite bind_value. cbn [fst snd app].
    destruct (truthy_str (output parsed)) eqn:Hout.
    + left. destruct (output parsed) as [out |] eqn:Hpath; [| discriminate].
      exists out. split; [reflexivity |].
      split; [intros ->; discriminate |].
      destruct (_ ;; ret parsed); reflexivity.
    + right. split; [reflexivity |].
      destruct (ensureDir env (outputDir parsed) ;; _); reflexivity.
  - left. exists [], reason. split; reflexivity.
Qed.

(** X1.  [parseArgs] refuses a command line in two ways only.  A usage
    error ends the process with code 1 after one or two lines on the
    console, and no directory is made.  Or the directory of the destination
    cannot be made: [mkdirSync] throws (for the empty path always), and
    that call is the only thing that happened. *)
Theorem parseArgs_refuses_in_two_ways (env : Env) (argv : list string)
    (ep : list Event) (o : Outcome CliArgs) :
  parseArgs env argv = (ep, o) ->
  (forall a, o <> Value a) ->
  (o = Exited 1 /\
   existsb isMkdir ep = false /\
   exists logs reason,
     ep = logs ++ [EvLog (MsgUsage reason); EvExit 1] /\ quiet logs = true) \/
  (o = Thrown FsError /\
   exists dir,
     ep = [EvMkdir dir] /\
     ((dir =? "")%string || mkdirFails env dir = true) /\
     (negb (dir =? "")%string && existsSync env dir = false)).
Proof.
  intros Hrun Hrefused.
  assert (Hdir : forall (dir : string) (k : unit -> Eff CliArgs) (a : CliArgs),
             k tt = ([], Value a) ->
             (ensureDir env dir ;; k tt) = (ep, o) ->
             o = Thrown FsError /\
             exists dir,
               ep = [EvMkdir dir] /\
               ((dir =? "")%string || mkdirFails env dir = true) /\
               (negb (dir =? "")%string && existsSync env dir = false)).
  { intros dir k a Hk Hbind. rewrite ensureDir_cases in Hbind.
    destruct (negb (dir =? "")%string && existsSync env dir) eqn:Hexists.
    { rewrite bind_value, Hk in Hbind. injection Hbind as _ <-. now elim (Hrefused a). }
    destruct ((dir =? "")%string || mkdirFails env dir) eqn:Hfails.
    - rewrite bind_unfold in Hbind. cbn [fst snd] in Hbind. injection Hbind as <- <-.
      split; [reflexivity |]. exists dir. repeat split; assumption.
    - rewrite bind_value, Hk in Hbind. injection Hbind as _ <-. now elim (Hrefused a). }
  destruct (parseArgs_ways env argv)
    as [(logs & reason & Hexit & Hquiet) |
        (id & rest & parsed & _ & _ & _ & [(path & _ & _ & Hgiven) | (_ & Hdefault)])].
  - left. rewrite Hexit in Hrun. injection Hrun as <- <-.
    split; [reflexivity |]. split.
    + rewrite existsb_app. cbn [existsb isMkdir orb].
      rewrite orb_false_r. apply (existsb_excluded isLog); [| exact Hquiet].
      intros ev Hev. destruct ev; try discriminate. reflexivity.
    + exists logs, reason. split; [reflexivity | exact Hquiet].
  - right. rewrite Hgiven in Hrun.
    destruct (negb (dirname path =? "")%string).
    + exact (Hdir (dirname path) (fun _ => ret parsed) parsed eq_refl Hrun).
    + rewrite bind_ret in Hrun. injection Hrun as _ <-. now elim (Hrefused parsed).
  - right. rewrite Hdefault in Hrun.
    exact (Hdir (outputDir parsed) (fun _ => ret _) _ eq_refl Hrun).
Qed.

(** X2.  Arguments that are accepted always name a destination: the
    path given with [--output], or [<output-dir>/<dataset-id>.<format>]
    when none (or an empty one) was given; so opening the destination
    cannot fail for want of a path.  The dataset id is the first argument. *)
Theorem parseArgs_names_a_destination (env : Env) (argv : list string)
    (ep : list Event) (a : CliArgs) :
  parseArgs env argv = (ep, Value a) ->
  exists path rest,
    output a = Some path /\ path <> EmptyString /\
    openOutput a = ([EvOpen path], Value tt) /\
    argv = datasetId a :: rest.
Proof.
  intros Hrun.
  assert (Hdir : forall (dir : string) (b : CliArgs),
             (ensureDir env dir ;; ret b) = (ep, Value a) -> a = b).
  { intros dir b Hbind. rewrite ensureDir_cases in Hbind.
    destruct (negb (dir =? "")%string && existsSync env dir).
    { rewrite bind_value in Hbind. now injection Hbind as _ <-. }
    destruct ((dir =? "")%string || mkdirFails env dir).
    - rewrite bind_unfold in Hbind. discriminate.
    - rewrite bind_value in Hbind. now injection Hbind as _ <-. }
  destruct (parseArgs_ways env argv)
    as [(logs & reason & Hexit & _) |
        (id & rest & parsed & -> & Hid & _ &
         [(path & Hpath & Hne & Hgiven) | (_ & Hdefault)])].
  - rewrite Hexit in Hrun. discriminate.
  - rewrite Hgiven in Hrun.
    assert (Ha : a = parsed).
    { destruct (negb (dirname path =? "")%string).
      - exact (Hdir _ _ Hrun).
      - rewrite bind_ret in Hrun. now injection Hrun as _ <-. }
    subst a. exists path, rest.
    split; [exact Hpath |]. split; [exact Hne |].
    split; [unfold openOutput; rewrite Hpath; reflexivity | now rewrite Hid].
  - rewrite Hdefault in Hrun. rewrite (Hdir _ _ Hrun).
    eexists; exists rest. cbn [output with_output datasetId].
    split; [reflexivity |].
    split; [apply append_not_empty; discriminate |].
    split; [reflexivity | now rewrite Hid].
Qed.

(** *** The prompt *)

Lemma lower_y (c : ascii) : lower c = "y"%char -> c = "y"%char \/ c = "Y"%char.
Proof.
  destruct c as [[|] [|] [|] [|] [|] [|] [|] [|]]; vm_compute; intros H;
    first [discriminate H | now left | now right].
Qed.

Lemma lower_e (c : ascii) : lower c = "e"%char -> c = "e"%char \/ c = "E"%char.
Proof.
  destruct c as [[|] [|] [|] [|] [|] [|] [|] [|]]; vm_compute; intros H;
    first [discriminate H | now left | now right].
Qed.

Lemma lower_s (c : ascii) : lower c = "s"%char -> c = "s"%char \/ c = "S"%char.
Proof.
  destruct c as [[|] [|] [|] [|] [|] [|] [|] [|]]; vm_compute; intros H;
    first [discriminate H | now left | now right].
Qed.

(** X5.  The download goes ahead for exactly ten answers: [y] and [yes] in
    any mix of upper and lower case.  Everything else -- the empty answer,
    an answer with a space around it, [no] -- cancels it. *)
Theorem accepted_answers (reply : string) :
  accepted reply = true <->
  In reply ["y"; "Y"; "yes"; "yeS"; "yEs"; "yES"; "Yes"; "YeS"; "YEs"; "YES"]%string.
Proof.
  split.
  - unfold accepted. intros H. apply orb_prop in H as [H | H]; apply String.eqb_eq in H.
    + destruct reply as [| c [| c' rest]]; try discriminate.
      injection H as H. destruct (lower_y c H) as [-> | ->]; simpl; auto.
    + destruct reply as [| c1 [| c2 [| c3 [| c4 rest]]]]; try discriminate.
      injection H as H1 H2 H3.
      destruct (lower_y c1 H1) as [-> | ->], (lower_e c2 H2) as [-> | ->],
        (lower_s c3 H3) as [-> | ->]; simpl; auto 12.
  - intros H. simpl in H.
    repeat (destruct H as [<- | H]; [reflexivity |]). now elim H.
Qed.

(** *** The count request *)

(** X6.  The count request takes an answer that is not a list of counts
    for a count of zero: an empty array, or an object without a property
    [0] (such as the error object of the remote source) give 0 rows.  An
    answer that is [null] makes the request fail with a [TypeError], and a
    body that is not JSON with a [SyntaxError].  Once the answer has
    arrived there is one more way to fail and no other: a [count] that is
    truthy and cannot be turned into text (an object, or an array holding
    one, with a property [toString] of its own) is a [TypeError] too. *)
Theorem countRows_of_unusual_answers (env : Env) (data : string) :
  countResponse env = Body data ->
  (JSON_parse data = Some (JArr []) ->
   countRows env = ([EvCountRows], Value (Num 0))) /\
  (forall props,
      JSON_parse data = Some (JObj props) -> lookup "0" props = None ->
      countRows env = ([EvCountRows], Value (Num 0))) /\
  (JSON_parse data = Some JNull ->
   countRows env = ([EvCountRows], Thrown TypeError)) /\
  (JSON_parse data = None ->
   countRows env = ([EvCountRows], Thrown SyntaxError)) /\
  (forall first v,
      JSON_parse data = Some (JArr (first :: nil)) ->
      prop first "count" = Some v -> truthy v = true -> toString v = None ->
      countRows env = ([EvCountRows], Thrown TypeError)) /\
  (forall o, snd (countRows env) = o -> (forall n, o <> Value n) ->
      (o = Thrown SyntaxError /\ JSON_parse data = None) \/
      (o = Thrown TypeError /\
       (JSON_parse data = Some JNull \/
        exists result first v,
          JSON_parse data = Some result /\ index0 result = Some first /\
          countField first = Some v /\ truthy v = true /\ toString v = None))).
Proof.
  intros Hresp. unfold Download.countRows. rewrite bind_emit, Hresp.
  split; [| split; [| split; [| split; [| split]]]].
  - intros ->. reflexivity.
  - intros props -> Hzero. cbn [index0]. rewrite Hzero. reflexivity.
  - intros ->. reflexivity.
  - intros ->. reflexivity.
  - intros first v -> Hprop Htruthy Htext.
    cbn [index0 hd_error countField]. rewrite Hprop.
    cbn [orElse]. rewrite Htruthy, Htext. reflexivity.
  - intros o Hrun Hfails.
    destruct (JSON_parse data) as [result |] eqn:Hparse.
    2:{ left. split; [| reflexivity]. rewrite <- Hrun. reflexivity. }
    right.
    destruct (index0 result) as [first |] eqn:Hindex.
    2:{ split; [rewrite <- Hrun; reflexivity |]. left.
        destruct result as [| | | [| c rest] | |]; cbn [index0] in Hindex;
          try discriminate. reflexivity. }
    destruct (toString (orElse (countField first) (JStr "0"))) as [text |] eqn:Htext.
    { exfalso. apply (Hfails (parseInt text)). rewrite <- Hrun. reflexivity. }
    split; [rewrite <- Hrun; reflexivity |]. right.
    exists result, first.
    unfold orElse in Htext.
    destruct (countField first) as [v |] eqn:Hfield;
      [| cbn in Htext; discriminate].
    destruct (truthy v) eqn:Htruthy; [| cbn in Htext; discriminate].
    exists v. repeat split; assumption || reflexivity.
Qed.

(** *** One pass of the loop, case by case *)

Lemma iteration_cases (args : CliArgs) (env : Env) (rtd : option jsnum) (v : LoopVars) :
  let c := chunkLimitOf args rtd (downloadedRows v) in
  let request := EvFetchChunk c (offset v) in
  (Js.le c (Num 0) = true /\ iteration args env rtd v = ([], Value (Break, v))) \/
  (Js.le c (Num 0) = false /\
   ((chunkResponse env c (offset v) = NetError /\
     iteration args env rtd v = ([request], Thrown NetworkFailure)) \/
    (exists body,
        chunkResponse env c (offset v) = Body body /\
        ((pageRows (format args) body = None /\ JSON_parse body = None /\
          iteration args env rtd v = ([request], Thrown SyntaxError)) \/
         (pageRows (format args) body = None /\ JSON_parse body <> None /\
          iteration args env rtd v = ([request], Value (Break, v))) \/
         (exists k w,
             pageRows (format args) body = Some k /\ 0 <= k /\
             onlyWrites w = true /\ (0 < k -> w <> []) /\
             (0 < k -> written w = committedText JSON_parse JSON_stringify
                                     (format args) (isFirstChunk v) body) /\
             iteration args env rtd v =
               if k <=? 0 then ([request], Value (Break, v))
               else if Js.lt (Num k) c then
                 (request :: w,
                  Value (Break, {| offset := offset v;
                                   downloadedRows := downloadedRows v + k;
                                   isFirstChunk := false |}))
               else
                 (request :: w ++ [EvProgress (downloadedRows v + k) (shownTotal rtd)],
                  Value (Continue, {| offset := Js.add (offset v) c;
                                      downloadedRows := downloadedRows v + k;
                                      isFirstChunk := false |}))))))).
Proof.
  cbv zeta. set (c := chunkLimitOf args rtd (downloadedRows v)).
  destruct (Js.le c (Num 0)) eqn:Hle.
  { left. split; [reflexivity |]. apply iteration_exhausted. exact Hle. }
  right. split; [reflexivity |].
  destruct (chunkResponse env c (offset v)) as [| body] eqn:Hresp.
  { left. split; [reflexivity |].
    unfold Download.iteration. fold c. rewrite Hle, (fetchChunk_error _ _ _ Hresp).
    reflexivity. }
  right. exists body. split; [reflexivity |].
  destruct (pageRows (format args) body) as [k |] eqn:Hrows.
  - right; right.
    destruct (iteration_page JSON_parse JSON_stringify args env rtd v c body k
                eq_refl Hle Hresp Hrows) as (w & Hw & Hne & Htext & Hrun).
    exists k, w. split; [reflexivity |].
    split; [exact (pageRows_nonneg JSON_parse _ _ _ Hrows) |].
    repeat (split; [assumption |]). exact Hrun.
  - unfold Trace.pageRows in Hrows. destruct (format args) eqn:Hformat; [discriminate |].
    unfold Download.iteration. fold c.
    rewrite Hle, (fetchChunk_body _ _ _ _ Hresp), bind_value, Hformat.
    destruct (JSON_parse body) as [[ | | | | items | ] |]; try discriminate.
    all: try (right; left; split; [reflexivity |]; split; [discriminate | reflexivity]).
    left. split; [reflexivity |]. split; reflexivity.
Qed.

(** The loop itself never ends the process and, given passes to spare,
    ends in a value or an exception. *)
Lemma loop_no_exit (fuel : nat) (args : CliArgs) (env : Env) (rtd : option jsnum)
    (v : LoopVars) (code : Z) :
  snd (loop fuel args env rtd v) <> Exited code.
Proof.
  revert v. induction fuel as [| fuel IH]; intros v; [discriminate |].
  rewrite loop_step.
  destruct (iteration_cases args env rtd v)
    as [[_ Hrun] | [_ [[_ Hrun] | (body & _ & [(_ & _ & Hrun) | [(_ & _ & Hrun) |
         (k & w & _ & _ & _ & _ & _ & Hrun)]])]]];
    rewrite Hrun; try discriminate.
  destruct (k <=? 0); [discriminate |].
  destruct (Js.lt _ _); [discriminate |]. apply IH.
Qed.

(** *** The loop against any source *)

(** With a numeric page size and a total that is a number or unknown, the
    cap of a pass is a number no larger than the page size. *)
Lemma chunkLimit_number (args : CliArgs) (rtd : option jsnum) (p d : Z) :
  chunkSize args = Num p ->
  rtd = None \/ (exists n, rtd = Some (Num n)) ->
  exists c, chunkLimitOf args rtd d = Num c /\ c <= p /\
            (forall n, rtd = Some (Num n) -> n <> 0 -> c <= n - d).
Proof.
  intros Hp Hrtd. unfold chunkLimitOf. rewrite Hp.
  destruct Hrtd as [-> | [n ->]].
  - exists p. cbn. rewrite Z.min_id. split; [reflexivity |]. split; [lia |].
    intros n Hn. discriminate Hn.
  - cbn [truthy_num]. destruct (n =? 0) eqn:Hzero; cbn [negb Js.sub Js.min].
    + exists p. rewrite Z.min_id. split; [reflexivity |]. split; [lia |].
      intros n' Hn' Hne. injection Hn' as <-. lia.
    + exists (Z.min p (n - d)). split; [reflexivity |]. split; [lia |].
      intros n' Hn' _. injection Hn' as <-. lia.
Qed.

(** X8.  Whatever the source answers, the requests of the loop follow one
    another without a gap and without an overlap: each asks for a positive
    number of rows, at most the page size, starting where the request
    before it stopped asking. *)
Theorem loop_requests_are_contiguous (fuel : nat) (args : CliArgs) (env : Env)
    (rtd : option jsnum) (p off : Z) (v : LoopVars) :
  chunkSize args = Num p ->
  rtd = None \/ (exists n, rtd = Some (Num n)) ->
  offset v = Num off ->
  contiguous p off (fetches (fst (loop fuel args env rtd v))).
Proof.
  intros Hp Hrtd. revert v off.
  induction fuel as [| fuel IH]; intros v off Hoff; [exact I |].
  rewrite loop_step.
  destruct (chunkLimit_number args rtd p (downloadedRows v) Hp Hrtd) as (c & Hc & Hcp & _).
  destruct (iteration_cases args env rtd v)
    as [[_ Hrun] | [Hle [[_ Hrun] | (body & _ & [(_ & _ & Hrun) | [(_ & _ & Hrun) |
         (k & w & _ & _ & Hw & _ & _ & Hrun)]])]]];
    rewrite Hrun; clear Hrun; try exact I.
  all: rewrite Hc in *; cbn [Js.le] in Hle; apply Z.leb_gt in Hle.
  1-3: cbn [fst snd fetches contiguous]; exists c;
       (split; [reflexivity |]); (split; [exact Hoff |]); (split; [lia |]); exact I.
  destruct (k <=? 0).
  { cbn [fst snd fetches contiguous]. exists c.
    split; [reflexivity |]. split; [exact Hoff |]. split; [lia |]. exact I. }
  destruct (Js.lt (Num k) (Num c)); cbn [fst snd].
  - cbn [fetches]. rewrite (onlyWrites_fetches _ Hw). exists c.
    split; [reflexivity |]. split; [exact Hoff |]. split; [lia |]. exact I.
  - rewrite fetches_app. cbn [fetches].
    rewrite fetches_app, (onlyWrites_fetches _ Hw). cbn [fetches app].
    exists c. split; [reflexivity |]. split; [exact Hoff |]. split; [lia |].
    apply IH. cbn [offset]. rewrite Hoff. reflexivity.
Qed.

(** X9.  With a total to download that is a number other than zero (a
    limit, or the count the operator agreed to), the loop ends whatever
    the source sends: one pass more than the rows still missing is always
    enough. *)
Theorem loop_ends_under_a_total (fuel : nat) (args : CliArgs) (env : Env)
    (p total : Z) (v : LoopVars) :
  chunkSize args = Num p ->
  total <> 0 ->
  (Z.to_nat (total - downloadedRows v) < fuel)%nat ->
  exists evs o,
    loop fuel args env (Some (Num total)) v = (evs, o) /\
    ((exists v', o = Value v') \/ (exists e, o = Thrown e)).
Proof.
  intros Hp Htotal. revert v.
  induction fuel as [| fuel IH]; intros v Hfuel; [lia |].
  rewrite loop_step.
  destruct (chunkLimit_number args (Some (Num total)) p (downloadedRows v) Hp
              (or_intror (ex_intro _ total eq_refl))) as (c & Hc & _ & Hcap).
  specialize (Hcap total eq_refl Htotal).
  destruct (iteration_cases args env (Some (Num total)) v)
    as [[_ Hrun] | [Hle [[_ Hrun] | (body & _ & [(_ & _ & Hrun) | [(_ & _ & Hrun) |
         (k & w & _ & _ & _ & _ & _ & Hrun)]])]]];
    rewrite Hrun; clear Hrun; cbn [fst snd].
  1,4: eexists; eexists; split; [reflexivity | left; eexists; reflexivity].
  1,2: eexists; eexists; split; [reflexivity | right; eexists; reflexivity].
  rewrite Hc in *. cbn [Js.le] in Hle. apply Z.leb_gt in Hle.
  destruct (k <=? 0).
  { eexists; eexists; split; [reflexivity | left; eexists; reflexivity]. }
  cbn [Js.lt]. destruct (k <? c) eqn:Hkc; cbn [fst snd].
  { eexists; eexists; split; [reflexivity | left; eexists; reflexivity]. }
  apply Z.ltb_ge in Hkc.
  destruct (IH {| offset := Js.add (offset v) (Num c);
                  downloadedRows := downloadedRows v + k;
                  isFirstChunk := false |}) as (evs & o & Hloop & Ho).
  { cbn [downloadedRows]. lia. }
  rewrite Hloop. cbn [fst snd]. eexists; eexists; split; [reflexivity | exact Ho].
Qed.

(** X11.  Without a total to download (no limit, and the count skipped or
    zero) the loop has no bound of its own: against a source that always
    sends full pages every pass asks for another page, so a run of any
    number of passes is still unfinished. *)
Theorem loop_without_total_has_no_bound (fuel : nat) (args : CliArgs) (env : Env)
    (rtd : option jsnum) (p off : Z) (v : LoopVars) :
  chunkSize args = Num p -> 0 < p ->
  truthy_opt rtd = false ->
  endless JSON_parse (format args) env ->
  offset v = Num off -> 0 <= off ->
  snd (loop fuel args env rtd v) = OutOfFuel /\
  List.length (fetches (fst (loop fuel args env rtd v))) = fuel /\
  List.length (progressLines (fst (loop fuel args env rtd v))) = fuel.
Proof.
  intros Hp Hpos Hrtd Hsource. revert v off.
  induction fuel as [| fuel IH]; intros v off Hoff Hnonneg.
  { split; [reflexivity |]. split; reflexivity. }
  destruct (Hsource p off Hpos Hnonneg) as (body & Hresp & Hrows).
  rewrite <- Hoff in Hresp.
  destruct (loop_full_page JSON_parse JSON_stringify args env rtd v fuel p p body
              (chunkLimit_unknown args p Hp rtd (downloadedRows v) Hrtd)
              Hpos Hresp Hrows (Z.le_refl p)) as (w & Hw & _ & _ & Hloop).
  rewrite Hloop. cbn [fst snd].
  destruct (IH {| offset := Js.add (offset v) (Num p);
                  downloadedRows := downloadedRows v + p;
                  isFirstChunk := false |} (off + p)) as (Hout & Hfetches & Hlines).
  { cbn [offset]. rewrite Hoff. reflexivity. }
  { lia. }
  split; [exact Hout |].
  cbn [fetches progressLines].
  rewrite !fetches_app, !progressLines_app.
  rewrite (onlyWrites_fetches _ Hw), (onlyWrites_progress _ Hw).
  cbn [app fetches progressLines List.length].
  rewrite Hfetches, Hlines. split; reflexivity.
Qed.

(** *** Runs of [downloadDataset] *)

Lemma existsb_isEnd_excluded (f : Event -> bool) (l : list Event) :
  f EvEnd = false -> forallb f l = true -> existsb isEnd l = false.
Proof.
  intros Hf. apply existsb_excluded.
  intros e He. destruct e; try reflexivity. congruence.
Qed.


(** The events and the text written up to the first pass of the loop. *)
Lemma before_the_loop (args : CliArgs) (env : Env) (md : DatasetMetadata)
    (ec : list Event) (total : option jsnum) (path : string) :
  snd (fetchMetadata env) = Value md ->
  countAndConfirm JSON_parse args env md = (ec, Value total) ->
  let body := (EvLog MsgFetchingMetadata :: fst (fetchMetadata env) ++ preamble md)
              ++ ec ++ opening args path in
  written body = match format args with Json => ("[" ++ LF)%string | Csv => "" end /\
  fetches body = [] /\
  existsb isOpen body = true /\
  existsb isEnd body = false.
Proof.
  intros Hmd Hcount. cbv zeta.
  pose proof (head_events JSON_parse (fst (fetchMetadata env)) md
                (snd (fetchMetadata env)) env (pair_eta _)) as Hhead.
  pose proof (countAndConfirm_events JSON_parse args env md) as Hgate.
  rewrite Hcount in Hgate. cbn [fst] in Hgate.
  destruct (gate_written _ Hhead) as (Hw1 & Hf1 & _ & _ & _).
  destruct (gate_written _ Hgate) as (Hw2 & Hf2 & _ & _ & _).
  rewrite !written_app, !fetches_app, !existsb_app, Hw1, Hw2, Hf1, Hf2.
  rewrite (existsb_isEnd_excluded isGateEvent _ eq_refl Hhead).
  rewrite (existsb_isEnd_excluded isGateEvent _ eq_refl Hgate).
  unfold opening, writeFraming. destruct (format args); cbn.
  - repeat split; try reflexivity. now rewrite !orb_true_r.
  - repeat split; try reflexivity. now rewrite !orb_true_r.
Qed.



(** *** The exits of the process *)

Lemma quiet_no_exit (l : list Event) : quiet l = true -> existsb isExit l = false.
Proof.
  apply (existsb_excluded isLog). intros ev Hev. destruct ev; try discriminate. reflexivity.
Qed.

Lemma inquiry_no_exit (l : list Event) :
  forallb isInquiry l = true -> existsb isExit l = false.
Proof.
  apply (existsb_excluded isInquiry). intros ev Hev. destruct ev; try discriminate; reflexivity.
Qed.

Lemma page_no_exit (l : list Event) :
  forallb isPageEvent l = true -> existsb isExit l = false.
Proof.
  apply (existsb_excluded isPageEvent). intros ev Hev. destruct ev; try discriminate; reflexivity.
Qed.

(** The count and the prompt end the process in one way only: the
    operator declines, and the process exits with code 0 right after the
    cancellation line. *)
Lemma countAndConfirm_exits (args : CliArgs) (env : Env) (md : DatasetMetadata) :
  let gate := countAndConfirm JSON_parse args env md in
  (existsb isExit (fst gate) = false /\ forall code, snd gate <> Exited code) \/
  (exists pre n,
      gate = (pre ++ [EvPrompt n; EvLog MsgCancelled; EvExit 0], Exited 0) /\
      existsb isExit pre = false /\ accepted (answer env) = false).
Proof.
  cbv zeta.
  destruct (noConfirm args) eqn:Hno.
  { left. rewrite (countAndConfirm_skipped JSON_parse args env md (or_introl Hno)).
    split; [reflexivity | discriminate]. }
  destruct (truthy_opt (limit args)) eqn:Hlimit.
  { left. rewrite (countAndConfirm_skipped JSON_parse args env md (or_intror Hlimit)).
    split; [reflexivity | discriminate]. }
  destruct (countAndConfirm_gate JSON_parse args env md Hno Hlimit)
    as (logs & Hquiet & [(e & _ & H) | [(n & _ & _ & _ & H) | [(n & _ & _ & H) |
        (n & _ & Hanswer & H)]]]); rewrite H; cbn [fst snd].
  1-3: left; (split; [| discriminate]); cbn [existsb isExit orb];
       rewrite ?existsb_app, (quiet_no_exit logs Hquiet); reflexivity.
  right. exists (EvLog MsgCounting :: EvCountRows :: logs), n.
  split; [reflexivity |]. split; [| exact Hanswer].
  cbn [existsb isExit orb]. apply quiet_no_exit, Hquiet.
Qed.

(** A run of [downloadDataset] calls [process.exit] at most once, as its
    last act: with code 0, after the operator declined. *)
Lemma downloadDataset_exits (fuel : nat) (args : CliArgs) (env : Env) :
  let run := downloadDataset fuel args env in
  (existsb isExit (fst run) = false /\
   (forall code, snd run <> Exited code) /\
   (snd run = Value tt -> exists pre n, fst run = pre ++ [EvEnd; EvLog (MsgComplete n)])) \/
  (exists pre n,
      run = (pre ++ [EvPrompt n; EvLog MsgCancelled; EvExit 0], Exited 0) /\
      existsb isExit pre = false /\ accepted (answer env) = false).
Proof.
  cbv zeta.
  rewrite (downloadDataset_phases JSON_parse JSON_stringify fuel args env).
  destruct (fetchMetadata_events JSON_parse env) as (Hem & Hnoexit & Hfuel).
  destruct (Download.fetchMetadata JSON_parse env) as [em [md | e | code | ]];
    cbn [fst snd] in *; subst em.
  2: left; split; [reflexivity |]; split; discriminate.
  2: now elim (Hnoexit code).
  2: now elim Hfuel.
  cbv zeta.
  assert (Hhead : existsb isExit
                    (EvLog MsgFetchingMetadata :: [EvFetchMetadata] ++ preamble md) = false).
  { cbn [app existsb isExit orb]. apply quiet_no_exit, preamble_quiet. }
  destruct (countAndConfirm_exits args env md)
    as [[Hgate Hstays] | (pre & n & Hgate & Hpre & Hanswer)].
  2: { right. rewrite Hgate.
       exists ((EvLog MsgFetchingMetadata :: [EvFetchMetadata] ++ preamble md) ++ pre), n.
       split; [rewrite <- app_assoc; reflexivity |].
       split; [rewrite existsb_app, Hhead, Hpre; reflexivity | exact Hanswer]. }
  left.
  destruct (Download.countAndConfirm JSON_parse args env md) as [ec [total | e | code |]];
    cbn [fst snd] in *.
  2: split; [rewrite existsb_app, Hhead, Hgate; reflexivity |]; split; discriminate.
  2: now elim (Hstays code).
  2: split; [rewrite existsb_app, Hhead, Hgate; reflexivity |]; split; discriminate.
  destruct (output args) as [path |].
  2: { cbn [fst snd]. split; [| split; discriminate].
       rewrite !existsb_app, Hhead, Hgate. reflexivity. }
  pose proof (loop_no_exit fuel args env (Js.or (limit args) total) start) as Hloop.
  pose proof (page_no_exit _ (loop_events JSON_parse JSON_stringify fuel args env
                                (Js.or (limit args) total) start)) as Hpages.
  assert (Hopening : existsb isExit (opening args path) = false).
  { unfold opening, writeFraming. destruct (format args); reflexivity. }
  destruct (Download.loop JSON_parse JSON_stringify fuel args env
              (Js.or (limit args) total) start) as [el [v | e | code | ]];
    cbn [fst snd] in *.
  - split; [| split; [discriminate |]].
    + rewrite !existsb_app, Hhead, Hgate, Hopening, Hpages.
      unfold closing, writeFraming. destruct (format args); reflexivity.
    + intros _. unfold closing. eexists; eexists. rewrite !app_assoc. reflexivity.
  - split; [| split; discriminate].
    rewrite !existsb_app, Hhead, Hgate, Hopening, Hpages. reflexivity.
  - now elim (Hloop code).
  - split; [| split; discriminate].
    rewrite !existsb_app, Hhead, Hgate, Hopening, Hpages. reflexivity.
Qed.

(** X18.  The exits the program makes.  The promise of [main] is never
    rejected: what is thrown inside [parseArgs] and [downloadDataset] is
    caught.  [process.exit] is called at most once, as the last act of a
    run: with code 1 right after an error line on the console, or with
    code 0 right after the cancellation line that follows a declined
    prompt.  A run that comes to its end has ended the output stream and
    printed the completion line last. *)
Theorem exits_of_main (fuel : nat) (argv : list string) (env : Env) :
  let run := main fuel argv env in
  (forall e, snd run <> Thrown e) /\
  (forall code,
      In (EvExit code) (fst run) \/ snd run = Exited code ->
      snd run = Exited code /\
      exists pre,
        fst run = pre ++ [EvExit code] /\ existsb isExit pre = false /\
        ((code = 1 /\
          exists pre' m, pre = pre' ++ [EvLog m] /\ isError (EvLog m) = true) \/
         (code = 0 /\ accepted (answer env) = false /\
          exists pre' n, pre = pre' ++ [EvPrompt n; EvLog MsgCancelled]))) /\
  (snd run = Value tt ->
   exists pre n, fst run = pre ++ [EvEnd; EvLog (MsgComplete n)]).
Proof.
  cbv zeta.
  assert (Hways :
    (exists pre code,
        main fuel argv env = (pre ++ [EvExit code], Exited code) /\
        existsb isExit pre = false /\
        ((code = 1 /\
          exists pre' m, pre = pre' ++ [EvLog m] /\ isError (EvLog m) = true) \/
         (code = 0 /\ accepted (answer env) = false /\
          exists pre' n, pre = pre' ++ [EvPrompt n; EvLog MsgCancelled]))) \/
    (existsb isExit (fst (main fuel argv env)) = false /\
     (forall e, snd (main fuel argv env) <> Thrown e) /\
     (forall code, snd (main fuel argv env) <> Exited code) /\
     (snd (main fuel argv env) = Value tt ->
      exists pre n, fst (main fuel argv env) = pre ++ [EvEnd; EvLog (MsgComplete n)]))).
  { unfold Download.main.
    assert (Hdir : forall (dir : string) (k : unit -> Eff CliArgs),
               (ensureDir env dir ;; k tt) = (fst (k tt), snd (k tt)) \/
               (ensureDir env dir ;; k tt) = (EvMkdir dir :: fst (k tt), snd (k tt)) \/
               (ensureDir env dir ;; k tt) = ([EvMkdir dir], Thrown FsError)).
    { intros dir k. rewrite ensureDir_cases.
      destruct (negb (dir =? "")%string && existsSync env dir).
      { left. rewrite bind_value. reflexivity. }
      destruct ((dir =? "")%string || mkdirFails env dir).
      - right; right. rewrite bind_unfold. reflexivity.
      - right; left. rewrite bind_value. reflexivity. }
    assert (Hargs :
      (exists logs reason,
          parseArgs env argv = (logs ++ [EvLog (MsgUsage reason); EvExit 1], Exited 1) /\
          quiet logs = true) \/
      (exists dir, parseArgs env argv = ([EvMkdir dir], Thrown FsError)) \/
      (exists ep a, parseArgs env argv = (ep, Value a) /\ existsb isExit ep = false)).
    { destruct (parseArgs_ways env argv)
        as [Husage | (id & rest & parsed & _ & _ & _ &
                      [(path & _ & _ & Hgiven) | (_ & Hdefault)])].
      - left. exact Husage.
      - right. rewrite Hgiven.
        destruct (negb (dirname path =? "")%string).
        + destruct (Hdir (dirname path) (fun _ => ret parsed)) as [H | [H | H]]; rewrite H.
          * right. eexists; eexists. split; reflexivity.
          * right. eexists; eexists. split; reflexivity.
          * left. eexists. reflexivity.
        + right. rewrite bind_ret. eexists; eexists. split; reflexivity.
      - right. rewrite Hdefault.
        destruct (Hdir (outputDir parsed)
                    (fun _ => ret (with_output
                                     (outputDir parsed ++ "/" ++ datasetId parsed ++ "." ++
                                      format_name (format parsed))%string parsed)))
          as [H | [H | H]]; rewrite H.
        * right. eexists; eexists. split; reflexivity.
        * right. eexists; eexists. split; reflexivity.
        * left. eexists. reflexivity. }
    destruct Hargs as [(logs & reason & Hexit & Hquiet) |
                       [(dir & Hthrown) | (ep & a & Hvalue & Hep)]].
    - left. rewrite Hexit.
      exists (logs ++ [EvLog (MsgUsage reason)]), 1.
      split; [rewrite <- app_assoc; reflexivity |].
      split; [rewrite existsb_app, (quiet_no_exit logs Hquiet); reflexivity |].
      left. split; [reflexivity |]. exists logs, (MsgUsage reason). split; reflexivity.
    - left. rewrite Hthrown.
      exists [EvMkdir dir; EvLog (MsgError FsError)], 1.
      split; [reflexivity |]. split; [reflexivity |].
      left. split; [reflexivity |].
      exists [EvMkdir dir], (MsgError FsError). split; reflexivity.
    - rewrite Hvalue, bind_value.
      destruct (downloadDataset_exits fuel a env)
        as [(Hnone & Hstays & Hends) | (pre & n & Hrun & Hpre & Hanswer)].
      + destruct (Download.downloadDataset JSON_parse JSON_stringify fuel a env)
          as [ed [[] | e | code |]]; cbn [fst snd] in *; unfold catch_exit1; cbn [fst snd].
        * right. split; [rewrite existsb_app, Hep, Hnone; reflexivity |].
          split; [discriminate |]. split; [discriminate |].
          intros _. destruct (Hends eq_refl) as (pre & n & ->).
          exists (ep ++ pre), n. rewrite app_assoc. reflexivity.
        * left. exists ((ep ++ ed) ++ [EvLog (MsgError e)]), 1.
          split; [rewrite <- !app_assoc; reflexivity |].
          split; [rewrite !existsb_app, Hep, Hnone; reflexivity |].
          left. split; [reflexivity |].
          exists (ep ++ ed), (MsgError e). split; reflexivity.
        * now elim (Hstays code).
        * right. split; [rewrite existsb_app, Hep, Hnone; reflexivity |].
          split; [discriminate |]. split; discriminate.
      + left. rewrite Hrun. unfold catch_exit1. cbn [fst snd].
        exists (ep ++ pre ++ [EvPrompt n; EvLog MsgCancelled]), 0.
        split; [rewrite <- !app_assoc; reflexivity |].
        split; [rewrite !existsb_app, Hep, Hpre; reflexivity |].
        right. split; [reflexivity |]. split; [exact Hanswer |].
        exists (ep ++ pre), n. rewrite app_assoc. reflexivity. }
  destruct Hways as [(pre & c & Hrun & Hpre & Hshape) | (Hnone & Hcaught & Hstays & Hends)].
  - rewrite Hrun. cbn [fst snd].
    split; [discriminate |]. split; [| discriminate].
    intros code Hcode.
    assert (code = c) as ->.
    { destruct Hcode as [Hin | Hout]; [| now injection Hout].
      apply in_app_or in Hin as [Hin | [Hin | []]].
      - pose proof (existsb_In isExit pre (EvExit code) Hpre Hin). discriminate.
      - now injection Hin. }
    split; [reflexivity |]. exists pre. split; [reflexivity |]. split; assumption.
  - split; [exact Hcaught |]. split; [| exact Hends].
    intros code [Hin | Hout].
    + pose proof (existsb_In isExit _ (EvExit code) Hnone Hin). discriminate.
    + now elim (Hstays code).
Qed.


(** *** The metadata request *)

Lemma mapColumns_cases (items : list json) :
  (In JNull items /\ mapColumns items = None) \/
  (~ In JNull items /\
   exists cols,
     mapColumns items = Some cols /\
     map fieldName cols = map (fun col => prop col "fieldName") items /\
     map dataTypeName cols = map (fun col => prop col "dataTypeName") items).
Proof.
  induction items as [| col rest IH].
  - right. split; [intros [] |]. exists []. repeat split.
  - cbn [mapColumns].
    destruct col; cbn [toColumn];
      try (left; split; [left; reflexivity | reflexivity]).
    all: destruct IH as [[Hin Hnone] | (Hnot & cols & Hcols & Hfields & Htypes)];
      [ left; split; [right; exact Hin | rewrite Hnone; reflexivity]
      | right; split;
        [ intros [Habsurd | Hin]; [discriminate | contradiction]
        | rewrite Hcols; eexists; split; [reflexivity |];
          cbn [map fieldName dataTypeName]; rewrite Hfields, Htypes; split; reflexivity ] ].
Qed.

(** X7.  What [fetchMetadata] takes for metadata.  Any JSON value but
    [null] whose [columns] is missing or falsy resolves, with no columns
    and the name as found (so the error object of the source passes for a
    dataset without columns).  A [columns] array resolves exactly when it
    holds no [null], column for column; and a truthy [columns] that is not
    an array is rejected as unparseable. *)
Theorem fetchMetadata_resolves (env : Env) (data : string) (doc : json) :
  metadataResponse env = Body data ->
  JSON_parse data = Some doc ->
  doc <> JNull ->
  (truthy_prop (prop doc "columns") = false ->
   exists md,
     fetchMetadata env = ([EvFetchMetadata], Value md) /\
     columns md = [] /\ name md = prop doc "name") /\
  (forall items,
      prop doc "columns" = Some (JArr items) ->
      (In JNull items ->
       fetchMetadata env = ([EvFetchMetadata], Thrown FailedToParseMetadata)) /\
      (~ In JNull items ->
       exists md,
         fetchMetadata env = ([EvFetchMetadata], Value md) /\
         List.length (columns md) = List.length items /\
         map fieldName (columns md) = map (fun col => prop col "fieldName") items)) /\
  (forall v,
      prop doc "columns" = Some v -> truthy v = true ->
      (forall items, v <> JArr items) ->
      fetchMetadata env = ([EvFetchMetadata], Thrown FailedToParseMetadata)).
Proof.
  intros Hresp Hparse Hdoc.
  assert (Hrun : fetchMetadata env =
                 match columnsOf (prop doc "columns") with
                 | None => ([EvFetchMetadata], Thrown FailedToParseMetadata)
                 | Some cols =>
                     ([EvFetchMetadata],
                      Value {| name := prop doc "name";
                               description := orElse (prop doc "description") (JStr "");
                               columns := cols;
                               rowCount := if truthy_prop (prop doc "rowsUpdatedAt")
                                           then None else prop doc "rowCount" |})
                 end).
  { unfold Download.fetchMetadata. rewrite bind_emit, Hresp, Hparse.
    destruct doc; try (now elim Hdoc);
      destruct (columnsOf _); reflexivity. }
  split; [| split].
  - intros Hfalsy. rewrite Hrun. unfold columnsOf.
    destruct (prop doc "columns") as [v |]; cbn [truthy_prop] in Hfalsy.
    + rewrite Hfalsy. eexists. split; [reflexivity |]. split; reflexivity.
    + eexists. split; [reflexivity |]. split; reflexivity.
  - intros items Hcolumns. rewrite Hrun, Hcolumns. cbn [columnsOf truthy].
    destruct (mapColumns_cases items) as [[Hin Hnone] | (Hnot & cols & Hcols & Hfields & _)].
    + split; [intros _; rewrite Hnone; reflexivity | intros Hnot; contradiction].
    + split; [intros Hin; contradiction |].
      intros _. rewrite Hcols. eexists. split; [reflexivity |].
      cbn [columns]. split; [| exact Hfields].
      rewrite <- (length_map fieldName cols), Hfields, length_map. reflexivity.
  - intros v Hcolumns Htruthy Hnotarray. rewrite Hrun, Hcolumns.
    cbn [columnsOf]. rewrite Htruthy.
    destruct v; try reflexivity. now elim (Hnotarray items).
Qed.

(** *** Options and defaults *)

(** An option that does not occur among the arguments keeps the value it
    had before the options were read. *)
Lemma parseOptions_keeps (n : nat) :
  forall (rest : list string) (p a : CliArgs) (ep : list Event),
    (List.length rest <= n)%nat ->
    parseOptions rest p = (ep, Value a) ->
    (~ In "--format"%string rest -> format a = format p) /\
    (~ In "--output"%string rest -> output a = output p) /\
    (~ In "--output-dir"%string rest -> outputDir a = outputDir p) /\
    (~ In "--limit"%string rest -> limit a = limit p) /\
    (~ In "--where"%string rest -> where_ a = where_ p) /\
    (~ In "--select"%string rest -> select a = select p) /\
    (~ In "--order"%string rest -> order a = order p) /\
    (~ In "--chunk-size"%string rest -> chunkSize a = chunkSize p) /\
    (~ In "--no-confirm"%string rest -> noConfirm a = noConfirm p).
Proof.
  induction n as [| n IH]; intros rest p a ep Hlen Hrun.
  { destruct rest; [| simpl in Hlen; lia].
    injection Hrun as _ <-. repeat split; reflexivity. }
  destruct rest as [| flag values].
  { injection Hrun as _ <-. repeat split; reflexivity. }
  cbn [parseOptions] in Hrun.
  repeat match type of Hrun with
         | context [if (flag =? ?s)%string then _ else _] =>
             let E := fresh "E" in
             destruct (flag =? s)%string eqn:E; cbv iota in Hrun;
             [apply String.eqb_eq in E |]
         end.
  all: try (destruct values as [| v rest']; [discriminate Hrun |]).
  all: try discriminate Hrun.
  all: cbv zeta in Hrun.
  all: try (destruct (toLowerCase v =? "csv")%string;
            [| destruct (toLowerCase v =? "json")%string; [| discriminate Hrun]]).
  all: apply IH in Hrun; [| simpl in Hlen |- *; lia].
  all: destruct Hrun as (H1 & H2 & H3 & H4 & H5 & H6 & H7 & H8 & H9).
  all: subst flag.
  all: repeat split; intros Hnot;
       first [ exfalso; apply Hnot; left; reflexivity
             | match goal with
               | H : _ -> ?f ?x = _ |- ?f ?x = _ =>
                   rewrite H; [reflexivity |];
                   intros Hin; apply Hnot;
                   first [right; right; exact Hin | right; exact Hin]
               end ].
Qed.

(** The two ways [parseArgs] accepts its arguments, after the options
    were read into [parsed]: a destination that was given, or the default
    one. *)
Lemma parseArgs_accepts (env : Env) (argv : list string) (ep : list Event) (a : CliArgs) :
  parseArgs env argv = (ep, Value a) ->
  exists id rest parsed,
    argv = id :: rest /\
    parseOptions rest
      {| datasetId := id; format := Csv; output := None;
         outputDir := "./data"; limit := None; where_ := None;
         select := None; order := None; chunkSize := Num 10000;
         noConfirm := false |} = ([], Value parsed) /\
    ((exists path,
         output parsed = Some path /\ path <> EmptyString /\ a = parsed /\
         ep = if negb (dirname path =? "")%string && negb (existsSync env (dirname path))
              then [EvMkdir (dirname path)] else []) \/
     (truthy_str (output parsed) = false /\
      a = with_output (outputDir parsed ++ "/" ++ datasetId parsed ++ "." ++
                       format_name (format parsed))%string parsed /\
      ep = if existsSync env (outputDir parsed) then [] else [EvMkdir (outputDir parsed)])).
Proof.
  intros Hrun.
  assert (Hdir : forall (dir : string) (b : CliArgs),
             (ensureDir env dir ;; ret b) = (ep, Value a) ->
             a = b /\ ep = if existsSync env dir then [] else [EvMkdir dir]).
  { intros dir b Hbind. rewrite ensureDir_cases in Hbind.
    destruct (dir =? "")%string eqn:Hempty; cbn [negb andb orb] in Hbind.
    { rewrite bind_unfold in Hbind. discriminate. }
    destruct (existsSync env dir).
    { rewrite bind_value in Hbind. injection Hbind as <- <-. split; reflexivity. }
    destruct (mkdirFails env dir).
    - rewrite bind_unfold in Hbind. discriminate.
    - rewrite bind_value in Hbind. injection Hbind as <- <-. split; reflexivity. }
  destruct (parseArgs_ways env argv)
    as [(logs & reason & Hexit & _) |
        (id & rest & parsed & -> & _ & Hopts &
         [(path & Hpath & Hne & Hgiven) | (Hout & Hdefault)])].
  - rewrite Hexit in Hrun. discriminate.
  - exists id, rest, parsed. split; [reflexivity |]. split; [exact Hopts |].
    left. exists path. split; [exact Hpath |]. split; [exact Hne |].
    rewrite Hgiven in Hrun.
    destruct (negb (dirname path =? "")%string); cbn [andb].
    + destruct (Hdir _ _ Hrun) as [-> ->].
      split; [reflexivity |]. destruct (existsSync env (dirname path)); reflexivity.
    + rewrite bind_ret in Hrun. injection Hrun as <- <-. split; reflexivity.
  - exists id, rest, parsed. split; [reflexivity |]. split; [exact Hopts |].
    right. split; [exact Hout |].
    rewrite Hdefault in Hrun. destruct (Hdir _ _ Hrun) as [-> ->].
    split; reflexivity.
Qed.

(** X3.  An option that does not occur on the command line has its
    default: text format, the directory [./data], no limit, no filter,
    selection or order, pages of 10,000 rows, confirmation on; and without
    [--output] the destination is [<output-dir>/<dataset-id>.<format>],
    made of the directory and the format that were read. *)
Theorem options_not_given_keep_defaults (env : Env) (argv : list string)
    (ep : list Event) (a : CliArgs) :
  parseArgs env argv = (ep, Value a) ->
  (~ In "--format"%string argv -> format a = Csv) /\
  (~ In "--output-dir"%string argv -> outputDir a = "./data"%string) /\
  (~ In "--limit"%string argv -> limit a = None) /\
  (~ In "--where"%string argv -> where_ a = None) /\
  (~ In "--select"%string argv -> select a = None) /\
  (~ In "--order"%string argv -> order a = None) /\
  (~ In "--chunk-size"%string argv -> chunkSize a = Num 10000) /\
  (~ In "--no-confirm"%string argv -> noConfirm a = false) /\
  (~ In "--output"%string argv ->
   output a = Some (outputDir a ++ "/" ++ datasetId a ++ "." ++
                    format_name (format a))%string).
Proof.
  intros Hrun.
  destruct (parseArgs_accepts env argv ep a Hrun)
    as (id & rest & parsed & -> & Hopts & Hcases).
  destruct (parseOptions_keeps (List.length rest) rest _ parsed [] (Nat.le_refl _) Hopts)
    as (H1 & H2 & H3 & H4 & H5 & H6 & H7 & H8 & H9).
  cbn [format output outputDir limit where_ select order chunkSize noConfirm] in *.
  assert (Hfields : format a = format parsed /\ outputDir a = outputDir parsed /\
                    limit a = limit parsed /\ where_ a = where_ parsed /\
                    select a = select parsed /\ order a = order parsed /\
                    chunkSize a = chunkSize parsed /\ noConfirm a = noConfirm parsed /\
                    datasetId a = datasetId parsed).
  { destruct Hcases as [(path & _ & _ & -> & _) | (_ & -> & _)]; repeat split; reflexivity. }
  destruct Hfields as (F1 & F3 & F4 & F5 & F6 & F7 & F8 & F9 & F0).
  rewrite F1, F3, F4, F5, F6, F7, F8, F9, F0.
  repeat (split; [intros Hnot; match goal with
                               | H : _ -> ?lhs = _ |- ?lhs = _ =>
                                   apply H; intros Hin; apply Hnot; right; exact Hin
                               end |]).
  intros Hnot.
  assert (Hnone : output parsed = None).
  { apply H2. intros Hin. apply Hnot. right. exact Hin. }
  destruct Hcases as [(path & Hpath & _) | (_ & -> & _)]; [congruence |].
  reflexivity.
Qed.

(** X4.  Accepting the arguments touches the file system in one place
    only: the directory of the destination is created when it does not
    exist, and nothing else happens.  For a destination given with
    [--output] that is its directory name (nothing when that is empty);
    for the default destination it is the output directory. *)
Theorem parseArgs_prepares_one_directory (env : Env) (argv : list string)
    (ep : list Event) (a : CliArgs) :
  parseArgs env argv = (ep, Value a) ->
  (exists path,
      In path argv /\ output a = Some path /\
      ep = if negb (dirname path =? "")%string && negb (existsSync env (dirname path))
           then [EvMkdir (dirname path)] else []) \/
  (output a = Some (outputDir a ++ "/" ++ datasetId a ++ "." ++
                    format_name (format a))%string /\
   ep = if existsSync env (outputDir a) then [] else [EvMkdir (outputDir a)]).
Proof.
  intros Hrun.
  destruct (parseArgs_accepts env argv ep a Hrun)
    as (id & rest & parsed & -> & Hopts & [(path & Hpath & _ & -> & ->) | (_ & -> & ->)]).
  - left. exists path. split; [| split; [exact Hpath | reflexivity]].
    right.
    destruct (In_dec string_dec "--output"%string rest) as [Hin | Hnot].
    + clear Hin.
      assert (Hgiven : forall n r p q,
                 (List.length r <= n)%nat ->
                 parseOptions r p = ([], Value q) ->
                 output q = output p \/ exists o, output q = Some o /\ In o r).
      { clear. induction n as [| n IH]; intros r p q Hlen Hrun.
        { destruct r; [| simpl in Hlen; lia]. injection Hrun as <-. left. reflexivity. }
        destruct r as [| flag values].
        { injection Hrun as <-. left. reflexivity. }
        cbn [parseOptions] in Hrun.
        repeat match type of Hrun with
               | context [if (flag =? ?s)%string then _ else _] =>
                   destruct (flag =? s)%string; cbv iota in Hrun
               end.
        all: try (destruct values as [| v rest']; [discriminate Hrun |]).
        all: try discriminate Hrun.
        all: cbv zeta in Hrun.
        all: try (destruct (toLowerCase v =? "csv")%string;
                  [| destruct (toLowerCase v =? "json")%string; [| discriminate Hrun]]).
        all: apply IH in Hrun; [| simpl in Hlen |- *; lia].
        all: destruct Hrun as [Hsame | (o & Ho & Hin)];
             [| right; exists o; split; [exact Ho |];
                first [right; right; exact Hin | right; exact Hin]].
        all: first [ left; exact Hsame
                   | right; exists v; split; [exact Hsame | right; left; reflexivity] ]. }
      destruct (Hgiven (List.length rest) rest _ parsed (Nat.le_refl _) Hopts)
        as [Hsame | (o & Ho & Hin)].
      * cbn [output] in Hsame. congruence.
      * rewrite Hpath in Ho. injection Ho as <-. exact Hin.
    + exfalso.
      destruct (parseOptions_keeps (List.length rest) rest _ parsed [] (Nat.le_refl _) Hopts)
        as (_ & H2 & _).
      specialize (H2 Hnot). cbn [output] in H2. congruence.
  - right. split; reflexivity.
Qed.

(** *** Counts and order *)

Lemma loop_json_count (fuel : nat) (args : CliArgs) (env : Env) (rtd : option jsnum) :
  format args = Json ->
  forall (v v' : LoopVars),
    snd (loop fuel args env rtd v) = Value v' ->
    downloadedRows v' =
    downloadedRows v +
    Z.of_nat (List.length (rowsOf JSON_parse env (fetches (fst (loop fuel args env rtd v))))).
Proof.
  intros Hjson. induction fuel as [| fuel IH]; intros v v'; [discriminate |].
  rewrite loop_step.
  destruct (iteration_cases args env rtd v)
    as [[_ Hrun] | [_ [[_ Hrun] | (body & Hresp & [(_ & _ & Hrun) | [(Hrows & _ & Hrun) |
         (k & w & Hrows & _ & Hw & _ & _ & Hrun)]])]]];
    rewrite Hrun; clear Hrun; cbn [fst snd]; try discriminate.
  - intros H. injection H as <-. cbn. lia.
  - intros H. injection H as <-. cbn [fetches rowsOf flat_map fst snd].
    rewrite Hresp. unfold Trace.pageRows in Hrows. rewrite Hjson in Hrows.
    destruct (JSON_parse body) as [[ | | | | items | ] |]; try discriminate; cbn; lia.
  - assert (Hitems : exists items,
               JSON_parse body = Some (JArr items) /\ k = Z.of_nat (List.length items)).
    { unfold Trace.pageRows in Hrows. rewrite Hjson in Hrows.
      destruct (JSON_parse body) as [[ | | | | items | ] |]; try discriminate.
      injection Hrows as <-. exists items. split; reflexivity. }
    destruct Hitems as (items & Hparse & ->).
    assert (Hpage : rowsOf JSON_parse env
                      [(chunkLimitOf args rtd (downloadedRows v), offset v)] = items).
    { cbn [rowsOf flat_map fst snd]. rewrite Hresp, Hparse. apply app_nil_r. }
    destruct (Z.of_nat (List.length items) <=? 0) eqn:Hempty.
    { cbn [fst snd]. intros H. injection H as <-. cbn [fst fetches].
      rewrite Hpage. apply Z.leb_le in Hempty. lia. }
    destruct (Js.lt _ _); cbn [fst snd].
    + intros H. injection H as <-. cbn [fetches downloadedRows].
      rewrite (onlyWrites_fetches _ Hw), Hpage. reflexivity.
    + intros H. apply IH in H. rewrite H. cbn [downloadedRows].
      rewrite fetches_app. cbn [fetches]. rewrite fetches_app, (onlyWrites_fetches _ Hw).
      cbn [fetches app].
      match goal with
      | |- context [rowsOf JSON_parse env (?r :: ?l)] =>
          pose proof (rowsOf_app JSON_parse env [r] l) as Happ
      end.
      cbn [app] in Happ. rewrite Happ, Hpage, length_app. lia.
Qed.

(** X10.  In JSON mode, against a source that never sends more rows than a
    request asks for, the rows never pass the total to download: the
    counter stays at or below it in every progress line and at the end of
    the loop, where it is the number of records of the pages fetched. *)
Theorem loop_keeps_to_the_total (fuel : nat) (args : CliArgs) (env : Env)
    (p total off : Z) (v : LoopVars) :
  format args = Json ->
  chunkSize args = Num p ->
  total <> 0 ->
  honoursCap JSON_parse env ->
  offset v = Num off -> 0 <= off ->
  downloadedRows v <= total ->
  Forall (fun line => fst line <= total)
         (progressLines (fst (loop fuel args env (Some (Num total)) v))) /\
  (forall v', snd (loop fuel args env (Some (Num total)) v) = Value v' ->
              downloadedRows v <= downloadedRows v' <= total /\
              downloadedRows v' =
              downloadedRows v +
              Z.of_nat (List.length
                          (rowsOf JSON_parse env
                             (fetches (fst (loop fuel args env (Some (Num total)) v)))))).
Proof.
  intros Hjson Hp Htotal Hhonours.
  assert (Hsource : forall cap off body k,
             0 < cap -> 0 <= off ->
             chunkResponse env (Num cap) (Num off) = Body body ->
             pageRows (format args) body = Some k -> k <= cap).
  { intros cap off' body k Hc Ho Hresp Hrows.
    unfold Trace.pageRows in Hrows. rewrite Hjson in Hrows.
    destruct (JSON_parse body) as [[ | | | | items | ] |] eqn:Hparse; try discriminate.
    injection Hrows as <-. exact (Hhonours cap off' body items Hc Ho Hresp Hparse). }
  assert (Hcount : forall v',
             snd (loop fuel args env (Some (Num total)) v) = Value v' ->
             downloadedRows v' =
             downloadedRows v +
             Z.of_nat (List.length
                         (rowsOf JSON_parse env
                            (fetches (fst (loop fuel args env (Some (Num total)) v)))))).
  { intros v'. apply (loop_json_count fuel args env (Some (Num total)) Hjson). }
  enough (Hmain : offset v = Num off -> 0 <= off -> downloadedRows v <= total ->
                  Forall (fun line => fst line <= total)
                    (progressLines (fst (loop fuel args env (Some (Num total)) v))) /\
                  (forall v', snd (loop fuel args env (Some (Num total)) v) = Value v' ->
                              downloadedRows v <= downloadedRows v' <= total)).
  { intros Hoff Hnonneg Hdown. destruct (Hmain Hoff Hnonneg Hdown) as [Hlines Hend].
    split; [exact Hlines |]. intros v' Hv'. split; [exact (Hend v' Hv') | exact (Hcount v' Hv')]. }
  clear Hcount. revert v off.
  induction fuel as [| fuel IH]; intros v off Hoff Hnonneg Hdown.
  { split; [constructor | discriminate]. }
  rewrite loop_step.
  destruct (chunkLimit_number args (Some (Num total)) p (downloadedRows v) Hp
              (or_intror (ex_intro _ total eq_refl))) as (c & Hc & _ & Hcap).
  specialize (Hcap total eq_refl Htotal).
  destruct (iteration_cases args env (Some (Num total)) v)
    as [[_ Hrun] | [Hle [[_ Hrun] | (body & Hresp & [(_ & _ & Hrun) | [(_ & _ & Hrun) |
         (k & w & Hrows & Hk & Hw & _ & _ & Hrun)]])]]];
    rewrite Hrun; clear Hrun; cbn [fst snd progressLines].
  1,4: split; [constructor | intros v' Hv'; injection Hv' as <-; lia].
  1,2: split; [constructor | discriminate].
  rewrite Hc, Hoff in *. cbn [Js.le] in Hle. apply Z.leb_gt in Hle.
  pose proof (Hsource c off body k Hle Hnonneg Hresp Hrows) as Hkc.
  destruct (k <=? 0).
  { cbn [fst snd progressLines].
    split; [constructor | intros v' Hv'; injection Hv' as <-; lia]. }
  destruct (Js.lt (Num k) (Num c)); cbn [fst snd].
  - cbn [progressLines]. rewrite (onlyWrites_progress _ Hw).
    split; [constructor |].
    intros v' Hv'. injection Hv' as <-. cbn [downloadedRows]. lia.
  - destruct (IH {| offset := Js.add (Num off) (Num c);
                    downloadedRows := downloadedRows v + k;
                    isFirstChunk := false |} (off + c) eq_refl) as [Hlines Hend].
    { lia. }
    { cbn [downloadedRows]. lia. }
    split.
    + rewrite progressLines_app. cbn [progressLines].
      rewrite progressLines_app, (onlyWrites_progress _ Hw). cbn [progressLines app].
      constructor; [cbn [fst]; lia | exact Hlines].
    + intros v' Hv'. specialize (Hend v' Hv'). cbn [downloadedRows] in Hend. lia.
Qed.

(** X15.  In JSON mode the number of rows reported at the end is the
    number of records of the pages that were fetched, which are the
    records written to the file. *)
Theorem reported_count_is_records_fetched (fuel : nat) (args : CliArgs) (env : Env)
    (evs : list Event) :
  format args = Json ->
  downloadDataset fuel args env = (evs, Value tt) ->
  exists pre,
    evs = pre ++ [EvEnd;
                  EvLog (MsgComplete
                           (Z.of_nat (List.length (rowsOf JSON_parse env (fetches evs)))))] /\
    written pre = written evs.
Proof.
  intros Hjson Hrun.
  rewrite (downloadDataset_phases JSON_parse JSON_stringify fuel args env) in Hrun.
  destruct (Download.fetchMetadata JSON_parse env) as [em [md | e | code |]] eqn:Hmeta;
    try discriminate.
  cbv zeta in Hrun.
  destruct (Download.countAndConfirm JSON_parse args env md)
    as [ec [total | e | code |]] eqn:Hcount; try discriminate.
  destruct (output args) as [path |] eqn:Hpath; [| discriminate].
  pose proof (loop_json_count fuel args env (Js.or (limit args) total) Hjson start) as Hrows.
  destruct (Download.loop JSON_parse JSON_stringify fuel args env
              (Js.or (limit args) total) start) as [el [v | e | code |]];
    try discriminate.
  specialize (Hrows v eq_refl). cbn [fst downloadedRows start] in Hrows.
  injection Hrun as <-.
  destruct (before_the_loop args env md ec total path) as (_ & Hfetches & _ & _).
  { rewrite Hmeta. reflexivity. }
  { exact Hcount. }
  rewrite Hmeta in Hfetches. cbn [fst] in Hfetches.
  unfold closing. rewrite Z.add_0_l in Hrows.
  cbn [app fetches] in Hfetches.
  match goal with
  | |- context [rowsOf JSON_parse env (fetches ?l)] =>
      assert (Hall : fetches l = fetches el)
  end.
  { cbn [fetches]. rewrite fetches_app, Hfetches, !fetches_app.
    unfold writeFraming. rewrite Hjson. cbn. apply app_nil_r. }
  rewrite Hall, <- Hrows.
  exists ((EvLog MsgFetchingMetadata :: (em ++ preamble md) ++ ec ++ opening args path)
          ++ el ++ fst (writeFraming args (LF ++ "]" ++ LF)%string)).
  split.
  - cbn [app]. rewrite <- !app_assoc. reflexivity.
  - cbn [app written]. rewrite !written_app. cbn [written].
    rewrite !string_app_nil_r. reflexivity.
Qed.

(** X12.  The counts of the progress lines only grow: each line of the
    loop shows more rows than the one before it, and more than the loop
    started with, whatever the source sends. *)
Theorem progress_counts_grow (fuel : nat) (args : CliArgs) (env : Env)
    (rtd : option jsnum) (v : LoopVars) :
  StronglySorted Z.lt (map fst (progressLines (fst (loop fuel args env rtd v)))) /\
  Forall (fun shown => downloadedRows v < shown)
         (map fst (progressLines (fst (loop fuel args env rtd v)))).
Proof.
  revert v. induction fuel as [| fuel IH]; intros v.
  { split; constructor. }
  rewrite loop_step.
  destruct (iteration_cases args env rtd v)
    as [[_ Hrun] | [_ [[_ Hrun] | (body & _ & [(_ & _ & Hrun) | [(_ & _ & Hrun) |
         (k & w & _ & _ & Hw & _ & _ & Hrun)]])]]];
    rewrite Hrun; clear Hrun; cbn [fst snd progressLines map]; try (split; constructor).
  destruct (k <=? 0) eqn:Hk; cbn [fst snd progressLines map]; [split; constructor |].
  apply Z.leb_gt in Hk.
  destruct (Js.lt _ _); cbn [fst snd].
  { cbn [progressLines]. rewrite (onlyWrites_progress _ Hw). split; constructor. }
  rewrite progressLines_app. cbn [progressLines].
  rewrite progressLines_app, (onlyWrites_progress _ Hw).
  cbn [progressLines app map fst].
  destruct (IH {| offset := Js.add (offset v) (chunkLimitOf args rtd (downloadedRows v));
                  downloadedRows := downloadedRows v + k;
                  isFirstChunk := false |}) as [Hsorted Hlater].
  cbn [downloadedRows] in Hlater.
  split.
  - constructor; [exact Hsorted | exact Hlater].
  - constructor; [lia |].
    eapply Forall_impl; [| exact Hlater]. cbn beta. intros shown Hshown. lia.
Qed.

(** X16.  The stream to the destination is created before the first page
    is requested and before anything is written to it: in every run, each
    page request and each write comes after the call that creates the
    stream. *)
Theorem destination_opened_before_pages (fuel : nat) (args : CliArgs) (env : Env) :
  let run := downloadDataset fuel args env in
  firstThen isOpen isFetch (fst run) = true /\
  firstThen isOpen isWrite (fst run) = true /\
  (fetches (fst run) <> [] -> existsb isOpen (fst run) = true).
Proof.
  cbv zeta.
  rewrite (downloadDataset_phases JSON_parse JSON_stringify fuel args env).
  destruct (fetchMetadata_events JSON_parse env) as (Hem & _ & _).
  assert (Hquietrun : forall l : list Event,
             forallb isGateEvent l = true ->
             firstThen isOpen isFetch l = true /\
             firstThen isOpen isWrite l = true /\
             (fetches l <> [] -> existsb isOpen l = true)).
  { intros l Hl. destruct (gate_written l Hl) as (_ & Hf & _ & _ & Hw).
    split; [apply firstThen_none, gate_no_fetch, Hl |].
    split; [apply firstThen_none, Hw |].
    intros Hne. now elim Hne. }
  destruct (Download.fetchMetadata JSON_parse env) as [em [md | e | code |]];
    cbn [fst snd] in Hem; subst em.
  2-4: apply Hquietrun; reflexivity.
  cbv zeta.
  pose proof (quiet_gate _ (preamble_quiet md)) as Hp.
  pose proof (countAndConfirm_events JSON_parse args env md) as Hgate.
  destruct (Download.countAndConfirm JSON_parse args env md) as [ec [total | e | code |]];
    cbn [fst] in Hgate.
  2-4: apply Hquietrun; cbn [fst snd app forallb isGateEvent andb];
       rewrite !forallb_app, Hp, Hgate; reflexivity.
  destruct (output args) as [path |] eqn:Hpath.
  2: { apply Hquietrun. cbn [fst snd app forallb isGateEvent andb].
       rewrite !forallb_app, Hp, Hgate. reflexivity. }
  set (pre := EvLog MsgFetchingMetadata :: EvFetchMetadata ::
              preamble md ++ ec ++ [EvLog (MsgDownloadingTo (Some path))]).
  assert (Hpre : forallb isGateEvent pre = true).
  { unfold pre. cbn [forallb isGateEvent andb].
    rewrite !forallb_app, Hp, Hgate. reflexivity. }
  assert (Hshape : forall tail,
             firstThen isOpen isFetch (pre ++ EvOpen path :: tail) = true /\
             firstThen isOpen isWrite (pre ++ EvOpen path :: tail) = true /\
             (fetches (pre ++ EvOpen path :: tail) <> [] ->
              existsb isOpen (pre ++ EvOpen path :: tail) = true)).
  { intros tail. destruct (gate_written _ Hpre) as (_ & _ & _ & _ & Hw).
    split; [apply firstThen_reached; [apply gate_no_fetch, Hpre | reflexivity] |].
    split; [apply firstThen_reached; [exact Hw | reflexivity] |].
    intros _. rewrite existsb_app. cbn [existsb isOpen].
    rewrite orb_true_r. reflexivity. }
  assert (Hbody : forall tail,
             ((EvLog MsgFetchingMetadata :: [EvFetchMetadata] ++ preamble md)
              ++ ec ++ opening args path) ++ tail
             = pre ++ EvOpen path :: (fst (writeFraming args ("[" ++ LF)%string) ++ tail)).
  { intros tail. unfold pre, opening. rewrite Hpath. flatten. reflexivity. }
  destruct (Download.loop JSON_parse JSON_stringify fuel args env
              (Js.or (limit args) total) start) as [el [v | e | code |]];
    cbn [fst snd]; rewrite Hbody; apply Hshape.
Qed.

(** *** The filter hint and the single page *)




End Coverage.

(* ================================================================= *)
(** ** The further properties on examples *)

(** A source that serves the rows asked for honours the cap. *)
Lemma served_honoursCap (JSON_parse : string -> option json)
    (rows : list json) (env : Env) :
  servesTable JSON_parse rows env -> honoursCap JSON_parse env.
Proof.
  intros Hserved cap off body items Hcap Hoff Hresp Hparse.
  destruct (Hserved cap off Hcap Hoff) as (body' & Hresp' & Hparse').
  rewrite Hresp in Hresp'. injection Hresp' as <-.
  rewrite Hparse in Hparse'. injection Hparse' as ->.
  unfold rowsAt. rewrite length_firstn. lia.
Qed.

Lemma repeat_oneLine (n : nat) : forallb Sim.oneLine (repeat "x"%string n) = true.
Proof. induction n as [| n IH]; [reflexivity | exact IH]. Qed.

(** The text source without an end sends as many rows as it is asked for. *)
Lemma endlessPage_endless (JSON_parse : string -> option json)
    (count : Response) (reply : string) :
  endless JSON_parse Csv (Sim.remote count reply Sim.endlessPage).
Proof.
  intros cap off Hcap _. eexists. split; [reflexivity |].
  unfold pageRows, Sim.csvBody. rewrite string_app_nil_r, split_join.
  - cbn [List.length]. rewrite repeat_length. f_equal. lia.
  - cbn [forallb]. rewrite repeat_oneLine. reflexivity.
Qed.

Lemma parseArgs_refuses_in_two_ways_witness :
  let run := parseArgs Sim.dirname (Sim.jsonRemote 3 "")
               ["vxuj-8kew"; "--output-dir"; ""]%string in
  run = ([EvMkdir ""], Thrown FsError) /\
  ((snd run = Exited 1 /\
    existsb isMkdir (fst run) = false /\
    exists logs reason,
      fst run = logs ++ [EvLog (MsgUsage reason); EvExit 1] /\ quiet logs = true) \/
   (snd run = Thrown FsError /\
    exists dir,
      fst run = [EvMkdir dir] /\
      ((dir =? "")%string || mkdirFails (Sim.jsonRemote 3 "") dir = true) /\
      (negb (dir =? "")%string && existsSync (Sim.jsonRemote 3 "") dir = false))).
Proof.
  cbv zeta. split; [vm_compute; reflexivity |].
  apply (parseArgs_refuses_in_two_ways Sim.dirname (Sim.jsonRemote 3 "")
           ["vxuj-8kew"; "--output-dir"; ""]%string).
  - apply pair_eta.
  - intros a. vm_compute. discriminate.
Defined.

Lemma parseArgs_names_a_destination_witness :
  let a := Sim.argsFor Json (Some (Num 5)) 2 true in
  exists path rest,
    output a = Some path /\ path <> EmptyString /\
    openOutput a = ([EvOpen path], Value tt) /\
    ["vxuj-8kew"; "--output"; "./data/vxuj-8kew.out"; "--format"; "JSON";
     "--limit"; "5"; "--chunk-size"; "2"; "--no-confirm"]%string = datasetId a :: rest.
Proof.
  apply (parseArgs_names_a_destination Sim.dirname (Sim.jsonRemote 3 "") _ []).
  vm_compute. reflexivity.
Defined.

Lemma options_not_given_keep_defaults_witness :
  let argv := ["vxuj-8kew"; "--format"; "json"; "--where"; "--limit"]%string in
  let a := {| datasetId := "vxuj-8kew"; format := Json;
              output := Some "./data/vxuj-8kew.json"%string;
              outputDir := "./data"; limit := None; where_ := Some "--limit"%string;
              select := None; order := None; chunkSize := Num 10000;
              noConfirm := false |} in
  parseArgs Sim.dirname (Sim.emptyDisk (Sim.jsonRemote 3 "")) argv
  = ([EvMkdir "./data"], Value a) /\
  chunkSize a = Num 10000 /\ noConfirm a = false /\ outputDir a = "./data"%string /\
  output a = Some (outputDir a ++ "/" ++ datasetId a ++ "." ++ format_name (format a))%string.
Proof.
  cbv zeta.
  assert (Hrun : parseArgs Sim.dirname (Sim.emptyDisk (Sim.jsonRemote 3 ""))
                   ["vxuj-8kew"; "--format"; "json"; "--where"; "--limit"]%string
                 = ([EvMkdir "./data"],
                    Value {| datasetId := "vxuj-8kew"; format := Json;
                             output := Some "./data/vxuj-8kew.json"%string;
                             outputDir := "./data"; limit := None;
                             where_ := Some "--limit"%string;
                             select := None; order := None; chunkSize := Num 10000;
                             noConfirm := false |})).
  { vm_compute. reflexivity. }
  split; [exact Hrun |].
  destruct (options_not_given_keep_defaults Sim.dirname _ _ _ _ Hrun)
    as (_ & Hdir & _ & _ & _ & _ & Hchunk & Hconfirm & Houtput).
  split; [apply Hchunk; cbn; intuition discriminate |].
  split; [apply Hconfirm; cbn; intuition discriminate |].
  split; [apply Hdir; cbn; intuition discriminate |].
  apply Houtput. cbn. intuition discriminate.
Defined.

Lemma parseArgs_prepares_one_directory_witness :
  let argv := ["vxuj-8kew"; "--output"; "out/run/rows.csv"]%string in
  let a := {| datasetId := "vxuj-8kew"; format := Csv;
              output := Some "out/run/rows.csv"%string;
              outputDir := "./data"; limit := None; where_ := None;
              select := None; order := None; chunkSize := Num 10000;
              noConfirm := false |} in
  let env := Sim.emptyDisk (Sim.jsonRemote 3 "") in
  parseArgs Sim.dirname env argv = ([EvMkdir "out/run"], Value a) /\
  ((exists path,
       In path argv /\ output a = Some path /\
       [EvMkdir "out/run"]
       = if negb (Sim.dirname path =? "")%string && negb (existsSync env (Sim.dirname path))
         then [EvMkdir (Sim.dirname path)] else []) \/
   (output a = Some (outputDir a ++ "/" ++ datasetId a ++ "." ++
                     format_name (format a))%string /\
    [EvMkdir "out/run"]
    = if existsSync env (outputDir a) then [] else [EvMkdir (outputDir a)])).
Proof.
  cbv zeta.
  assert (Hrun : parseArgs Sim.dirname (Sim.emptyDisk (Sim.jsonRemote 3 ""))
                   ["vxuj-8kew"; "--output"; "out/run/rows.csv"]%string
                 = ([EvMkdir "out/run"],
                    Value {| datasetId := "vxuj-8kew"; format := Csv;
                             output := Some "out/run/rows.csv"%string;
                             outputDir := "./data"; limit := None; where_ := None;
                             select := None; order := None; chunkSize := Num 10000;
                             noConfirm := false |})).
  { vm_compute. reflexivity. }
  split; [exact Hrun |].
  exact (parseArgs_prepares_one_directory Sim.dirname _ _ _ _ Hrun).
Defined.

Lemma countRows_of_unusual_answers_witness :
  countRows Sim.parse
    (Sim.remote (Body (Sim.stringify (JObj [("error", JBool true)]))) "" Sim.refusal)
  = ([EvCountRows], Value (Num 0)) /\
  countRows Sim.parse
    (Sim.remote
       (Body (Sim.stringify (JArr [JObj [("count", JObj [("toString", JNum 1)])]])))
       "" Sim.refusal)
  = ([EvCountRows], Thrown TypeError).
Proof.
  split.
  - destruct (countRows_of_unusual_answers Sim.parse
                (Sim.remote (Body (Sim.stringify (JObj [("error", JBool true)]))) ""
                   Sim.refusal)
                (Sim.stringify (JObj [("error", JBool true)])) eq_refl)
      as (_ & Hobject & _).
    apply (Hobject [("error", JBool true)]); vm_compute; reflexivity.
  - destruct (countRows_of_unusual_answers Sim.parse
                (Sim.remote
                   (Body (Sim.stringify
                            (JArr [JObj [("count", JObj [("toString", JNum 1)])]])))
                   "" Sim.refusal)
                (Sim.stringify (JArr [JObj [("count", JObj [("toString", JNum 1)])]]))
                eq_refl)
      as (_ & _ & _ & _ & Hown & _).
    apply (Hown (JObj [("count", JObj [("toString", JNum 1)])])
                (JObj [("toString", JNum 1)])); vm_compute; reflexivity.
Defined.

Lemma fetchMetadata_resolves_witness :
  exists md,
    fetchMetadata Sim.parse (Sim.jsonRemote 3 "") = ([EvFetchMetadata], Value md) /\
    List.length (columns md) = 2%nat /\
    map fieldName (columns md) = [Some (JStr "date"); Some (JStr "count")].
Proof.
  destruct (fetchMetadata_resolves Sim.parse (Sim.jsonRemote 3 "")
              (Sim.stringify Sim.metadataDoc) Sim.metadataDoc eq_refl)
    as (_ & Harray & _).
  - vm_compute. reflexivity.
  - discriminate.
  - destruct (Harray _ eq_refl) as [_ Hresolves].
    apply Hresolves. cbn. intuition discriminate.
Defined.

Lemma loop_requests_are_contiguous_witness :
  contiguous 2 0
    (fetches (fst (loop Sim.parse Sim.stringify 5 (Sim.argsFor Json None 2 true)
                     (Sim.jsonRemote 5 "") None start))).
Proof.
  apply loop_requests_are_contiguous.
  - reflexivity.
  - left. reflexivity.
  - reflexivity.
Defined.

Lemma loop_ends_under_a_total_witness :
  exists evs o,
    loop Sim.parse Sim.stringify 5 (Sim.argsFor Csv (Some (Num 4)) 3 true)
      (Sim.remote NetError "" Sim.endlessPage) (Some (Num 4)) start = (evs, o) /\
    ((exists v', o = Value v') \/ (exists e, o = Thrown e)).
Proof.
  apply (loop_ends_under_a_total Sim.parse Sim.stringify 5
           (Sim.argsFor Csv (Some (Num 4)) 3 true)
           (Sim.remote NetError "" Sim.endlessPage) 3 4 start).
  - reflexivity.
  - lia.
  - vm_compute. lia.
Defined.

Lemma loop_keeps_to_the_total_witness :
  let env := Sim.jsonRemote 5 "" in
  let run := loop Sim.parse Sim.stringify 5 (Sim.argsFor Json (Some (Num 3)) 2 true)
               env (Some (Num 3)) start in
  Forall (fun line => fst line <= 3) (progressLines (fst run)) /\
  (forall v', snd run = Value v' ->
              downloadedRows start <= downloadedRows v' <= 3 /\
              downloadedRows v' =
              downloadedRows start +
              Z.of_nat (List.length (rowsOf Sim.parse env (fetches (fst run))))).
Proof.
  apply (loop_keeps_to_the_total Sim.parse Sim.stringify 5
           (Sim.argsFor Json (Some (Num 3)) 2 true) (Sim.jsonRemote 5 "")
           2 3 0 start).
  - reflexivity.
  - reflexivity.
  - lia.
  - apply (served_honoursCap Sim.parse (Sim.records 5)).
    apply (jsonPage_servesTable (Sim.records 5)). read_windows 5%nat.
  - reflexivity.
  - lia.
  - vm_compute. discriminate.
Defined.

Lemma loop_without_total_has_no_bound_witness :
  let run := loop Sim.parse Sim.stringify 4 (Sim.argsFor Csv None 3 true)
               (Sim.remote NetError "" Sim.endlessPage) None start in
  snd run = OutOfFuel /\
  List.length (fetches (fst run)) = 4%nat /\
  List.length (progressLines (fst run)) = 4%nat.
Proof.
  apply (loop_without_total_has_no_bound Sim.parse Sim.stringify 4
           (Sim.argsFor Csv None 3 true) (Sim.remote NetError "" Sim.endlessPage)
           None 3 0 start).
  - reflexivity.
  - lia.
  - reflexivity.
  - apply endlessPage_endless.
  - reflexivity.
  - lia.
Defined.



Lemma reported_count_is_records_fetched_witness :
  let env := Sim.jsonRemote 3 "" in
  let evs := fst (downloadDataset Sim.parse Sim.stringify 5
                    (Sim.argsFor Json None 2 true) env) in
  List.length (rowsOf Sim.parse env (fetches evs)) = 3%nat /\
  exists pre,
    evs = pre ++ [EvEnd;
                  EvLog (MsgComplete
                           (Z.of_nat (List.length (rowsOf Sim.parse env (fetches evs)))))] /\
    written pre = written evs.
Proof.
  cbv zeta. split; [vm_compute; reflexivity |].
  apply (reported_count_is_records_fetched Sim.parse Sim.stringify 5
           (Sim.argsFor Json None 2 true) (Sim.jsonRemote 3 "")).
  - reflexivity.
  - vm_compute. reflexivity.
Defined.




Lemma limit_is_kept_in_json_mode_witness :
  let env := Sim.jsonRemote 5 "" in
  exists evs v,
    loop Sim.parse Sim.stringify 5 (Sim.argsFor Json (Some (Num 3)) 2 true) env
      (Js.or (Some (Num 3)) None) start = (evs, Value v) /\
    rowsOf Sim.parse env (fetches evs) = firstn 3 (Sim.records 5) /\
    written evs = recordsText true (map Sim.stringify (firstn 3 (Sim.records 5))) /\
    downloadedRows v = 3 /\
    fetches evs = [(Num 2, Num 0); (Num 1, Num 2)] /\
    (3 < 2 -> fetches evs = [(Num 3, Num 0)]) /\
    Forall (fun r => exists c o, r = (Num c, Num o) /\ c <= 2 /\ c <= 3 - o)
           (fetches evs).
Proof.
  apply (limit_is_kept_in_json_mode Sim.parse Sim.stringify
           (Sim.argsFor Json (Some (Num 3)) 2 true) (Sim.jsonRemote 5 "")
           (Sim.records 5) 2 3 None 5).
  - reflexivity.
  - reflexivity.
  - lia.
  - apply (jsonPage_servesTable (Sim.records 5)). read_windows 5%nat.
  - reflexivity.
  - lia.
  - vm_compute. reflexivity.
  - vm_compute. lia.
Defined.

Lemma short_json_page_ends_loop_witness :
  exists evs v',
    loop Sim.parse Sim.stringify 3 (Sim.argsFor Json None 10 true)
      (Sim.jsonRemote 27 "") None start = (evs, Value v') /\
    fetches evs = [(Num 10, Num 0); (Num 10, Num 10); (Num 10, Num 20)] /\
    downloadedRows v' = 27 /\
    written evs = recordsText true (map Sim.stringify (Sim.records 27)).
Proof.
  destruct (short_json_page_ends_loop Sim.parse Sim.stringify
              (Sim.argsFor Json None 10 true) (Sim.jsonRemote 27 "") None 10
              eq_refl eq_refl)
    as (_ & _ & Hpages).
  destruct (Hpages 3%nat
              (Sim.stringify (JArr (Sim.window (Sim.records 27) 10 0)))
              (Sim.stringify (JArr (Sim.window (Sim.records 27) 10 10)))
              (Sim.stringify (JArr (Sim.window (Sim.records 27) 10 20)))
              (Sim.window (Sim.records 27) 10 0)
              (Sim.window (Sim.records 27) 10 10)
              (Sim.window (Sim.records 27) 10 20))
    as (evs & v' & Hrun & Hfetches & Hrows & Htext);
    try reflexivity; try (left; reflexivity); try lia;
    try (vm_compute; reflexivity).
  exists evs, v'. split; [exact Hrun |]. split; [exact Hfetches |].
  split; [exact Hrows |]. rewrite Htext. reflexivity.
Defined.
